(** * vaf-cli: the deploy command and its helpers

    A shallow embedding of [src/utils.ts] ([readVafIgnore], [zipDirectory])
    and of [src/commands/deploy.ts] ([loadVafConfig], [deploy],
    [pollDeploymentStatus], the command's action and its watch handler), with
    the properties of the deployment orchestrator stated over it.
    The packaging steps of the revision of [deploy.ts] with [--use-layers]
    (kept in [src/commands/databases.ts]) are embedded as far as they call
    the two functions of [src/utils.ts].

    The console, the shell, the packaging primitive and the HTTP backend are
    outside the program: what the program sends to them is recorded, in
    order, as a trace of [Event]s; what they answer is read from a [World] of
    oracles.  The file tree is threaded through as state.  A computation
    returns, throws, or ends the process.

    Conventions: strings are sequences of 8-bit code units; the numbers of
    the options and of the project file are integers; the document
    [yaml.load] returns has the shape of the [VafConfig] interface;
    [fs.unlinkSync] succeeds on a file that exists. *)

From Stdlib Require Import ZArith List Ascii String Bool Lia.
From stdpp Require Import base option list strings gmap pretty.

Open Scope string_scope.
Open Scope list_scope.
Open Scope Z_scope.

(** ** JavaScript string primitives used by the sources *)

Module Js.

(** White space in the sense of [String.prototype.trim], restricted to the
    code units below 256: TAB, LF, VT, FF, CR, SP and NBSP. *)
Definition is_white_space (c : ascii) : bool :=
  let n := nat_of_ascii c in
  ((9 <=? n)%nat && (n <=? 13)%nat) || (n =? 32)%nat || (n =? 160)%nat.

Fixpoint trimStart (s : string) : string :=
  match s with
  | String c rest => if is_white_space c then trimStart rest else s
  | EmptyString => EmptyString
  end.

Definition trimEnd (s : string) : string :=
  String.rev (trimStart (String.rev s)).

Definition trim (s : string) : string := trimEnd (trimStart s).

(** [s.split('\n')]: never empty, the pieces hold no line feed. *)
Definition LF : ascii := ascii_of_nat 10.

Fixpoint split_lines (s : string) : list string :=
  match s with
  | EmptyString => [EmptyString]
  | String c rest =>
      if Ascii.eqb c LF then EmptyString :: split_lines rest
      else match split_lines rest with
           | line :: lines => String c line :: lines
           | [] => [String c EmptyString]
           end
  end.

Fixpoint join_lines (ls : list string) : string :=
  match ls with
  | [] => EmptyString
  | [l] => l
  | l :: ls' => l +:+ String LF (join_lines ls')
  end.

(** [s.startsWith(p)] and [s.includes(p)] *)
Definition startsWith (s p : string) : bool := String.prefix p s.

Fixpoint includes (s p : string) : bool :=
  String.prefix p s ||
  match s with
  | EmptyString => false
  | String _ rest => includes rest p
  end.

(** Truthiness of a string and of an optional ([undefined]-able) string. *)
Definition truthy (s : string) : bool :=
  match s with EmptyString => false | _ => true end.

Definition truthy_opt (o : option string) : bool :=
  match o with Some s => truthy s | None => false end.

(** [path.join(dir, name)] for a directory without trailing separator and a
    plain file name. *)
Definition path_join (dir name : string) : string := dir +:+ "/" +:+ name.

(** [name] between double quotes, as the template literals print it. *)
Definition quoted (name : string) : string :=
  String (ascii_of_nat 34) (name +:+ String (ascii_of_nat 34) EmptyString).

(** Every code unit of the string is white space. *)
Fixpoint blank (s : string) : bool :=
  match s with
  | EmptyString => true
  | String c rest => is_white_space c && blank rest
  end.

End Js.

(** ** The local file system: regular files by path, with their content *)

Abbreviation Files := (gmap string string).

Definition existsSync (fs : Files) (p : string) : bool :=
  match fs !! p with Some _ => true | None => false end.

Definition unlinkSync (fs : Files) (p : string) : Files := delete p fs.

(** ** Effects

    What the program does to the outside world, in the order it does it. *)

(** The two ways [zipDirectory] fills the archive: [archive.glob] over
    everything not ignored, or [archive.directory] for the whole tree. *)
Inductive PackMode :=
| Glob (ignore : list string)
| WholeDirectory.

(** The body of the release request ([deploymentParams]); an absent key of
    the JavaScript object is [None]. *)
Record DeploymentParams := {
  deploymentKey : string;
  runtime : string;
  handler : string;
  memory : option Z;
  timeout : option Z;
  database : option string;
  cache : option string;
  storage : option string
}.

Inductive Event :=
| Err (msg : string)        (* utils.error *)
| Info (msg : string)       (* utils.info *)
| Success (msg : string)    (* utils.success *)
| Warn (msg : string)       (* utils.warn *)
| Log (msg : string)        (* console.log *)
| LogErr (msg : string)     (* console.error *)
| Exec (cmd : string)       (* execAsync *)
| Pack (dir out : string) (mode : PackMode)
| Get (url : string)        (* api.get *)
| Put (url body contentType : string)   (* axios.put *)
| Post (url : string) (body : DeploymentParams)   (* api.post *)
| Unlink (path : string)    (* fs.unlinkSync *)
| Sleep (ms : Z).           (* await setTimeout *)

(** How a computation ends: it returns, it throws an error carrying a
    [message], or it ends the process with [process.exit]. *)
Inductive Result (A : Type) :=
| Done (a : A)
| Thrown (message : string)
| Exited (code : Z).
Arguments Done {A} a.
Arguments Thrown {A} message.
Arguments Exited {A} code.

Record Run (A : Type) := MkRun {
  result : Result A;
  trace : list Event;
  files : Files
}.
Arguments MkRun {A} _ _ _.
Arguments result {A} _.
Arguments trace {A} _.
Arguments files {A} _.

Definition Eff (A : Type) : Type := Files -> Run A.

Definition ret {A} (a : A) : Eff A := fun fs => MkRun (Done a) [] fs.

Definition bind {A B} (m : Eff A) (k : A -> Eff B) : Eff B := fun fs =>
  match m fs with
  | MkRun (Done a) tr fs1 =>
      match k a fs1 with
      | MkRun res tr' fs2 => MkRun res (tr ++ tr') fs2
      end
  | MkRun (Thrown msg) tr fs1 => MkRun (Thrown msg) tr fs1
  | MkRun (Exited code) tr fs1 => MkRun (Exited code) tr fs1
  end.

Definition emit (e : Event) : Eff unit := fun fs => MkRun (Done tt) [e] fs.
Definition exit {A} (code : Z) : Eff A := fun fs => MkRun (Exited code) [] fs.
Definition get_files : Eff Files := fun fs => MkRun (Done fs) [] fs.

(** [try { m } catch (error) { h error.message }] *)
Definition try_catch {A} (m : Eff A) (h : string -> Eff A) : Eff A := fun fs =>
  match m fs with
  | MkRun (Thrown msg) tr fs1 =>
      match h msg fs1 with
      | MkRun res tr' fs2 => MkRun res (tr ++ tr') fs2
      end
  | r => r
  end.

(** [try { m } finally { c }]: the handler runs when [m] returns or throws;
    [process.exit] ends the process on the spot and runs no handler. *)
Definition try_finally {A} (m : Eff A) (c : Eff unit) : Eff A := fun fs =>
  match m fs with
  | MkRun (Exited code) tr fs1 => MkRun (Exited code) tr fs1
  | MkRun res tr fs1 =>
      match c fs1 with
      | MkRun (Done _) tr' fs2 => MkRun res (tr ++ tr') fs2
      | MkRun (Thrown msg) tr' fs2 => MkRun (Thrown msg) (tr ++ tr') fs2
      | MkRun (Exited code) tr' fs2 => MkRun (Exited code) (tr ++ tr') fs2
      end
  end.

Notation "'let*' x ':=' m 'in' k" := (bind m (fun x => k))
  (at level 10, x name, m at level 100, k at level 200).
Notation "m ;; k" := (bind m (fun _ => k))
  (at level 100, k at level 200, right associativity).

Definition when (b : bool) (m : Eff unit) : Eff unit := if b then m else ret tt.

Fixpoint for_each {A} (l : list A) (body : A -> Eff unit) : Eff unit :=
  match l with
  | [] => ret tt
  | x :: rest => body x ;; for_each rest body
  end.

(** ** The outside world *)

(** The project file, as [yaml.load] returns it.  [environments] lists the
    entries of the mapping in [Object.keys] order; an entry declared without
    a body is [None] (null).  [env_handler] is the [handler] key an
    environment may declare in the file; the [VafConfig] interface of
    [deploy.ts] does not list it. *)
Record EnvConfig := {
  env_runtime : option string;
  env_memory : option Z;
  env_timeout : option Z;
  env_database : option string;
  env_cache : option string;
  env_storage : option string;
  env_handler : option string;
  env_build : option (list string);
  env_deploy : option (list string)
}.

Record VafConfig := {
  cfg_id : Z;
  cfg_name : string;
  environments : list (string * option EnvConfig)
}.

Inductive YamlResult :=
| YamlOk (doc : option VafConfig)    (* [None]: an empty or null document *)
| YamlFail (error : string).

Record ExecResult := {
  exec_ok : bool;
  exec_stderr : string;
  exec_files : Files       (* the tree the command leaves behind *)
}.

Inductive PackResult :=
| PackOk (bytes : string)
| PackFail (message : string) (leftover : option string).

Inductive ApiResult (A : Type) :=
| ApiOk (data : A)
| ApiErr (message : string).
Arguments ApiOk {A} data.
Arguments ApiErr {A} message.

(** Answer of [GET .../deployment/upload-url]: the pre-signed target and the
    storage key the backend assigned to it.  The type [deploy] gives the
    answer names [uploadUrl] only. *)
Record UploadUrlResponse := {
  uploadUrl : string;
  key : option string
}.

Record Deployment := { dep_id : option string }.

Record ReleaseRecord := {
  status : string;
  url : option string;
  logs : option string
}.

Record World := {
  cwd : string;                                   (* process.cwd() *)
  token : option string;                          (* config.getToken() *)
  now : Z;                                        (* Date.now() *)
  yaml_load : string -> YamlResult;               (* yaml.load *)
  exec : string -> Files -> ExecResult;           (* child_process.exec *)
  pack : string -> PackMode -> Files -> PackResult;   (* archiver *)
  formatBytes : nat -> string;                    (* floating point rendering *)
  api_upload_url : string -> ApiResult UploadUrlResponse;
  http_put : string -> string -> option string;   (* [Some m]: fails with m *)
  api_deploy : string -> DeploymentParams -> ApiResult Deployment;
  api_release : string -> nat -> ApiResult ReleaseRecord   (* n-th fetch *)
}.

(** ** src/utils.ts *)

Module Utils.

(** [zipDirectory], lines 33-60.  The write stream creates [outputPath];
    a failing archive may leave a partial file behind. *)
Definition pack_mode (ignorePatterns : list string) : PackMode :=
  match ignorePatterns with
  | [] => WholeDirectory
  | _ => Glob ignorePatterns
  end.

Definition zipDirectory (w : World) (dirPath outputPath : string)
    (ignorePatterns : list string) : Eff unit := fun fs =>
  let mode := pack_mode ignorePatterns in
  match pack w dirPath mode fs with
  | PackOk bytes =>
      MkRun (Done tt) [Pack dirPath outputPath mode] (<[outputPath := bytes]> fs)
  | PackFail msg leftover =>
      MkRun (Thrown msg) [Pack dirPath outputPath mode]
            (match leftover with
             | Some bytes => <[outputPath := bytes]> fs
             | None => fs
             end)
  end.

(** [readVafIgnore], lines 62-74. *)
Definition default_ignore : list string :=
  ["node_modules/**"; ".git/**"; "*.log"; ".env"; ".DS_Store"].

Definition keep_line (line : string) : bool :=
  Js.truthy line && negb (Js.startsWith line "#").

Definition parse_ignore (content : string) : list string :=
  filter (fun line => Is_true (keep_line line))
         (map Js.trim (Js.split_lines content)).

Definition readVafIgnore (fs : Files) (dirPath : string) : list string :=
  let ignoreFile := Js.path_join dirPath ".vafignore" in
  match fs !! ignoreFile with
  | None => default_ignore
  | Some content => parse_ignore content
  end.

End Utils.


(** ** src/commands/deploy.ts *)

Module Deploy.

Import Js.

Record DeployOptions := {
  opt_memory : option Z;
  opt_timeout : option Z;
  opt_database : option string;
  opt_cache : option string;
  opt_storage : option string;
  opt_runtime : option string;
  opt_handler : option string;
  opt_watch : bool;
  opt_no_build : bool          (* options['no-build'] *)
}.

(** [a || d] where [d] is a string literal. *)
Definition pick (a : option string) (d : string) : string :=
  match a with
  | Some s => if truthy s then s else d
  | None => d
  end.

(** [loadVafConfig], lines 47-64. *)
Definition configFiles : list string := ["vaf.yml"; "vapor.yml"].

Fixpoint load_first (w : World) (names : list string) : Eff (option VafConfig) :=
  match names with
  | [] => ret None
  | configFile :: rest => fun fs =>
      match fs !! path_join (cwd w) configFile with
      | Some content =>
          match yaml_load w content with
          | YamlOk doc => ret doc fs
          | YamlFail error =>
              (emit (Err ("Failed to parse " +:+ configFile +:+ ": " +:+ error));;
               ret None) fs
          end
      | None => load_first w rest fs
      end
  end.

Definition loadVafConfig (w : World) : Eff (option VafConfig) :=
  load_first w configFiles.

(** [Object.keys(vafConfig.environments)] *)
Definition env_names (cfg : VafConfig) : list string :=
  map fst (environments cfg).

(** [vafConfig.environments[name]].  A name the mapping does not declare
    still resolves when [Object.prototype] has a member of that name; such a
    member is truthy and has none of the configuration keys. *)
Definition object_prototype_keys : list string :=
  ["constructor"; "__proto__"; "hasOwnProperty"; "isPrototypeOf";
   "propertyIsEnumerable"; "toLocaleString"; "toString"; "valueOf";
   "__defineGetter__"; "__defineSetter__"; "__lookupGetter__";
   "__lookupSetter__"].

Definition inherited_member : EnvConfig :=
  {| env_runtime := None; env_memory := None; env_timeout := None;
     env_database := None; env_cache := None; env_storage := None;
     env_handler := None; env_build := None; env_deploy := None |}.

Fixpoint own_property (envs : list (string * option EnvConfig)) (name : string)
    : option (option EnvConfig) :=
  match envs with
  | [] => None
  | (k, v) :: rest => if String.eqb k name then Some v else own_property rest name
  end.

Definition env_get (envs : list (string * option EnvConfig)) (name : string)
    : option EnvConfig :=
  match own_property envs name with
  | Some v => v
  | None =>
      if existsb (String.eqb name) object_prototype_keys
      then Some inherited_member else None
  end.

Definition list_environments (cfg : VafConfig) : Eff unit :=
  for_each (env_names cfg) (fun env => emit (Log ("  - " +:+ env))).

Record Resolved := {
  finalProjectId : string;
  finalEnvName : string;
  envConfig : option EnvConfig
}.

(** Lines 92-125 of [deploy]. *)
Definition resolve (vafConfig : option VafConfig) (projectId envName : option string)
    : Eff Resolved :=
  let finalProjectId :=
    match vafConfig with
    | Some cfg => if truthy_opt projectId then projectId
                  else Some (pretty (cfg_id cfg))
    | None => projectId
    end in
  let finalEnvName := envName in
  match vafConfig with
  | Some cfg =>
      when (negb (truthy_opt finalEnvName) && (0 <? length (env_names cfg))%nat)
        (emit (Err "Environment name is required. Available environments:");;
         list_environments cfg;;
         exit 1)
  | None => ret tt
  end;;
  match finalProjectId, finalEnvName with
  | Some pid, Some name =>
      if truthy pid && truthy name then
        let envConfig :=
          match vafConfig with
          | Some cfg => env_get (environments cfg) name
          | None => None
          end in
        match envConfig, vafConfig with
        | None, Some cfg =>
            emit (Err ("Environment " +:+ quoted name +:+ " not found in vaf.yml"));;
            emit (Info "Available environments:");;
            list_environments cfg;;
            exit 1
        | _, _ => ret tt
        end;;
        ret {| finalProjectId := pid; finalEnvName := name; envConfig := envConfig |}
      else
        emit (Err "Project ID and environment name are required");;
        emit (Info "Either provide them as arguments or configure vaf.yml");;
        exit 1
  | _, _ =>
      emit (Err "Project ID and environment name are required");;
      emit (Info "Either provide them as arguments or configure vaf.yml");;
      exit 1
  end.

(** [execAsync(cmd, { cwd })]: rejects when the command fails. *)
Definition execAsync (w : World) (cmd : string) : Eff string := fun fs =>
  let r := exec w cmd fs in
  MkRun (if exec_ok r then Done (exec_stderr r) else Thrown ("Command failed: " +:+ cmd))
        [Exec cmd] (exec_files r).

(** Lines 127-150 of [deploy]. *)
Definition build (w : World) (envConfig : option EnvConfig) (options : DeployOptions)
    : Eff unit :=
  let skipBuild := opt_no_build options in
  match envConfig ≫= env_build, skipBuild with
  | Some cmds, false =>
      emit (Info "Running build commands...");;
      for_each cmds (fun buildCmd =>
        try_catch
          (emit (Info ("Running: " +:+ buildCmd));;
           execAsync w buildCmd;;
           ret tt)
          (fun _ => emit (Warn ("Build command failed: " +:+ buildCmd))));;
      emit (Success "Build commands completed")
  | _, _ =>
      emit (Info "Building application...");;
      try_catch
        (let* stderr := execAsync w "npm run build" in
         when (truthy stderr) (emit (LogErr stderr));;
         emit (Success "Build completed"))
        (fun _ => emit (Warn "Build command failed, continuing with current directory..."))
  end.

(** Lines 183-220 of [deploy]: the release request. *)
Definition first_defined (a b : option Z) : option Z :=
  match a with Some _ => a | None => b end.

Definition first_truthy (a b : option string) : option string :=
  if truthy_opt a then a else if truthy_opt b then b else None.

Definition deploymentParams (options : DeployOptions) (envConfig : option EnvConfig)
    (deploymentKey : string) : DeploymentParams :=
  {| deploymentKey := deploymentKey;
     runtime := pick (opt_runtime options)
                     (pick (envConfig ≫= env_runtime) "nodejs18.x");
     handler := pick (opt_handler options) "index.handler";
     memory := first_defined (opt_memory options) (envConfig ≫= env_memory);
     timeout := first_defined (opt_timeout options) (envConfig ≫= env_timeout);
     database := first_truthy (opt_database options) (envConfig ≫= env_database);
     cache := first_truthy (opt_cache options) (envConfig ≫= env_cache);
     storage := first_truthy (opt_storage options) (envConfig ≫= env_storage) |}.

(** [pollDeploymentStatus], lines 278-326. *)
Definition maxAttempts : nat := 60.

Definition release_url (projectId envName deploymentId : string) : string :=
  "/api/projects/" +:+ projectId +:+ "/environments/" +:+ envName
  +:+ "/deployment/" +:+ deploymentId.

Definition api_get_release (w : World) (endpoint : string) (n : nat)
    : Eff ReleaseRecord := fun fs =>
  MkRun (match api_release w endpoint n with
         | ApiOk d => Done d
         | ApiErr m => Thrown m
         end) [Get endpoint] fs.

(** [lines.slice(-5)] *)
Definition last5 (lines : list string) : list string :=
  skipn (length lines - 5) lines.

(** One turn of the loop; [true] when the function returns from inside it. *)
Definition poll_once (w : World) (endpoint : string) (attempts : nat) : Eff bool :=
  try_catch
    (let* deployment := api_get_release w endpoint attempts in
     emit (Log ("Status: " +:+ status deployment));;
     if String.eqb (status deployment) "success" then
       emit (Success "Deployment completed successfully!");;
       when (truthy_opt (url deployment))
            (emit (Log ("URL: " +:+ pick (url deployment) EmptyString)));;
       ret true
     else if String.eqb (status deployment) "failed" then
       emit (Err "Deployment failed");;
       when (truthy_opt (logs deployment))
            (emit (Log "Logs:");;
             emit (Log (pick (logs deployment) EmptyString)));;
       ret true
     else
       when (truthy_opt (logs deployment))
            (for_each (last5 (split_lines (pick (logs deployment) EmptyString)))
                      (fun line => emit (Log line)));;
       emit (Sleep 5000);;
       ret false)
    (fun message =>
       emit (Err (pick (Some message) "Failed to check deployment status"));;
       ret true).

(** [while (attempts < maxAttempts)], with [remaining = maxAttempts - attempts]. *)
Fixpoint poll_loop (w : World) (endpoint : string) (remaining attempts : nat)
    : Eff unit :=
  match remaining with
  | O => emit (Warn "Deployment is taking longer than expected...")
  | S remaining' =>
      let* returned := poll_once w endpoint attempts in
      if returned then ret tt
      else poll_loop w endpoint remaining' (S attempts)
  end.

Definition pollDeploymentStatus (w : World) (projectId envName deploymentId : string)
    : Eff unit :=
  poll_loop w (release_url projectId envName deploymentId) maxAttempts 0.

(** Lines 155-239 of [deploy]: the attempt proper and its clean-up. *)
Definition tempZipPath (w : World) : string :=
  path_join (cwd w) (".vaf-deploy-temp-" +:+ pretty (now w) +:+ ".zip").

Definition clientKey (w : World) : string :=
  "deployments/" +:+ pretty (now w) +:+ "-package.zip".

Definition upload_url_endpoint (projectId envName : string) : string :=
  "/api/projects/" +:+ projectId +:+ "/environments/" +:+ envName
  +:+ "/deployment/upload-url".

Definition deploy_endpoint (projectId envName : string) : string :=
  "/api/projects/" +:+ projectId +:+ "/environments/" +:+ envName
  +:+ "/deployment/deploy".

(** [fs.statSync(p).size] and [fs.readFileSync(p)] *)
Definition statSync_size (p : string) : Eff nat := fun fs =>
  match fs !! p with
  | Some bytes => MkRun (Done (String.length bytes)) [] fs
  | None => MkRun (Thrown ("ENOENT: no such file or directory, stat " +:+ p)) [] fs
  end.

Definition readFileSync (p : string) : Eff string := fun fs =>
  match fs !! p with
  | Some bytes => MkRun (Done bytes) [] fs
  | None => MkRun (Thrown ("ENOENT: no such file or directory, open " +:+ p)) [] fs
  end.

Definition api_get_upload_url (w : World) (endpoint : string) : Eff UploadUrlResponse :=
  fun fs =>
    MkRun (match api_upload_url w endpoint with
           | ApiOk d => Done d
           | ApiErr m => Thrown m
           end) [Get endpoint] fs.

Definition axios_put (w : World) (target body contentType : string) : Eff unit :=
  fun fs =>
    MkRun (match http_put w target body with
           | None => Done tt
           | Some m => Thrown m
           end) [Put target body contentType] fs.

Definition api_post_deploy (w : World) (endpoint : string) (body : DeploymentParams)
    : Eff Deployment := fun fs =>
  MkRun (match api_deploy w endpoint body with
         | ApiOk d => Done d
         | ApiErr m => Thrown m
         end) [Post endpoint body] fs.

(** The [try] block, lines 160-233: after the archive is written (lines
    164-233), it is uploaded, the release is requested and followed. *)
Definition upload_and_release (w : World) (options : DeployOptions) (r : Resolved)
    (tempZip deploymentKey : string) : Eff unit :=
  let* size := statSync_size tempZip in
  emit (Info ("Package size: " +:+ formatBytes w size));;
  emit (Info "Getting upload URL...");;
  let* uploadUrlResponse :=
    api_get_upload_url w (upload_url_endpoint (finalProjectId r) (finalEnvName r)) in
  emit (Info "Uploading package...");;
  let* fileBuffer := readFileSync tempZip in
  axios_put w (uploadUrl uploadUrlResponse) fileBuffer "application/zip";;
  emit (Info "Triggering deployment...");;
  let* deployment :=
    api_post_deploy w (deploy_endpoint (finalProjectId r) (finalEnvName r))
                    (deploymentParams options (envConfig r) deploymentKey) in
  emit (Success ("Deployment initiated: " +:+ pick (dep_id deployment) "Success"));;
  when (truthy_opt (dep_id deployment))
       (pollDeploymentStatus w (finalProjectId r) (finalEnvName r)
                             (pick (dep_id deployment) EmptyString)).

Definition attempt (w : World) (options : DeployOptions) (r : Resolved)
    (ignorePatterns : list string) (tempZip deploymentKey : string) : Eff unit :=
  emit (Info "Creating deployment package...");;
  Utils.zipDirectory w (cwd w) tempZip ignorePatterns;;
  upload_and_release w options r tempZip deploymentKey.

(** The [finally] block, lines 234-239. *)
Definition cleanup (tempZip : string) : Eff unit := fun fs =>
  if existsSync fs tempZip
  then MkRun (Done tt) [Unlink tempZip] (unlinkSync fs tempZip)
  else MkRun (Done tt) [] fs.

(** Lines 152-239 of [deploy]: packaging, upload, release request and
    polling, with the clean-up around them. *)
Definition release (w : World) (options : DeployOptions) (r : Resolved) : Eff unit :=
  let* tree := get_files in
  let ignorePatterns := Utils.readVafIgnore tree (cwd w) in
  let tempZip := tempZipPath w in
  let deploymentKey := clientKey w in
  try_finally
    (attempt w options r ignorePatterns tempZip deploymentKey)
    (cleanup tempZip).

(** What follows [loadVafConfig] in [deploy], lines 92-239. *)
Definition deploy_with (w : World) (vafConfig : option VafConfig)
    (projectId envName : option string) (options : DeployOptions) : Eff unit :=
  let* r := resolve vafConfig projectId envName in
  build w (envConfig r) options;;
  release w options r.

(** [deploy], lines 86-240. *)
Definition deploy (w : World) (projectId envName : option string)
    (options : DeployOptions) : Eff unit :=
  let* vafConfig := loadVafConfig w in
  deploy_with w vafConfig projectId envName options.

(** The command's action without [--watch], lines 79-85 and 269-275. *)
Definition action (w : World) (projectId envName : option string)
    (options : DeployOptions) : Eff unit :=
  try_catch
    (when (negb (truthy_opt (token w)))
          (emit (Err ("Not authenticated. Please run " +:+ quoted "vaf login"));;
           exit 1);;
     deploy w projectId envName options)
    (fun message =>
       emit (Err (pick (Some message) "Failed to deploy"));;
       exit 1).

End Deploy.

(** ** Watch mode, lines 242-268

    The event loop is replayed over the change notifications in the order of
    their arrival times (milliseconds).  [deployTimer] is the single timer of
    the handler; a pipeline invocation started at [t] is in flight until
    [t + duration t]. *)

Module Watch.

Import Js.

Definition debounce : Z := 2000.

Record Invocation := {
  started : Z;
  finished : Z;
  changed : string        (* the path the callback reports *)
}.

Record Scheduler := {
  deployTimer : option (Z * string);    (* due time, path captured *)
  invocations : list Invocation         (* in order of start *)
}.

Definition initial : Scheduler :=
  {| deployTimer := None; invocations := [] |}.

(** The first test of the handler. *)
Definition skipped (filePath : string) : bool :=
  includes filePath ".vaf-deploy-temp-" || startsWith filePath ".".

(** The timer callback: one call of [deploy]. *)
Definition fire (duration : Z -> Z) (due : Z) (filePath : string) (s : Scheduler)
    : Scheduler :=
  {| deployTimer := None;
     invocations := invocations s ++
       [{| started := due; finished := due + duration due; changed := filePath |}] |}.

(** Time passes up to [t]: a timer that is due runs its callback. *)
Definition advance (duration : Z -> Z) (t : Z) (s : Scheduler) : Scheduler :=
  match deployTimer s with
  | Some (due, filePath) => if due <=? t then fire duration due filePath s else s
  | None => s
  end.

(** The handler of [watcher.on('all', ...)] at time [t]:
    [clearTimeout(deployTimer); deployTimer = setTimeout(..., 2000)]. *)
Definition on_all (t : Z) (filePath : string) (s : Scheduler) : Scheduler :=
  if skipped filePath then s
  else {| deployTimer := Some (t + debounce, filePath);
          invocations := invocations s |}.

Definition notify (duration : Z -> Z) (s : Scheduler) (ev : Z * string) : Scheduler :=
  on_all (fst ev) (snd ev) (advance duration (fst ev) s).

(** No notification comes any more: an armed timer still fires. *)
Definition idle (duration : Z -> Z) (s : Scheduler) : Scheduler :=
  match deployTimer s with
  | Some (due, filePath) => fire duration due filePath s
  | None => s
  end.

Definition watch (duration : Z -> Z) (events : list (Z * string)) : list Invocation :=
  invocations (idle duration (fold_left (notify duration) events initial)).

(** Invocation [j] starts while invocation [i], started before it, is in
    flight. *)
Definition overlap (i j : Invocation) : Prop :=
  started i <= started j /\ started j < finished i.

End Watch.

(** ** The timer callback of watch mode *)

Module Watching.

Import Js Deploy.

(** The callback of [setTimeout], lines 260-267. *)
Definition timer_callback (w : World) (projectId envName : option string)
    (options : DeployOptions) (filePath : string) : Eff unit :=
  emit (Info (String LF ("Change detected in " +:+ filePath +:+ ", deploying...")));;
  try_catch
    (deploy w projectId envName options)
    (fun message => emit (Err (pick (Some message) "Deployment failed"))).

End Watching.

(** ** src/commands/databases.ts, lines 265-817

    The revision of [deploy.ts] with [--use-layers], as far as it calls
    [readVafIgnore] and [zipDirectory]: the two ways it packs the function
    and, without layers, the [try] block up to the point where the
    environment is resolved.  The answer of the environments request is read
    from an oracle passed as [api_environments]; an environment's [id] is a
    string. *)

Module Layered.

Import Js Deploy.

(** [createThinPackage], lines 334-345. *)
Definition createThinPackage (w : World) (cwd tempZip : string) : Eff string :=
  let* tree := get_files in
  let ignorePatterns := Utils.readVafIgnore tree cwd in
  let thinPackagePatterns := ignorePatterns ++ ["node_modules/**"] in
  Utils.zipDirectory w cwd tempZip thinPackagePatterns;;
  ret tempZip.

(** Lines 578-580. *)
Definition filteredIgnorePatterns (ignorePatterns : list string) : list string :=
  List.filter (fun pattern => negb (includes pattern "node_modules")) ignorePatterns.

(** Lines 573-582: the function package, thin with layers, full without. *)
Definition package (w : World) (useLayers : bool) (cwd tempZip : string)
    (ignorePatterns : list string) : Eff unit :=
  emit (Info "Creating deployment package...");;
  if useLayers then
    createThinPackage w cwd tempZip;; ret tt
  else
    Utils.zipDirectory w cwd tempZip (filteredIgnorePatterns ignorePatterns).

(** Lines 679-693: [options.x || envConfig?.x], kept when it is a string
    that is not empty once trimmed. *)
Definition reference (override declared : option string) : option string :=
  let value := if truthy_opt override then override else declared in
  match value with
  | Some v => if truthy v && (0 <? String.length (trim v))%nat then Some v else None
  | None => None
  end.

(** An entry of the answer of [GET /api/projects/<id>/environments]. *)
Record Environment := {
  environment_name : string;
  environment_id : string
}.

Definition environments_endpoint (projectId : string) : string :=
  "/api/projects/" +:+ projectId +:+ "/environments".

Definition api_get_environments
    (api_environments : string -> ApiResult (list Environment)) (endpoint : string)
    : Eff (list Environment) := fun fs =>
  MkRun (match api_environments endpoint with
         | ApiOk d => Done d
         | ApiErr m => Thrown m
         end) [Get endpoint] fs.

(** Lines 587-613, without [--use-layers]: the name is resolved to the
    backend's id; an unknown name ends the process. *)
Definition resolve_environment
    (api_environments : string -> ApiResult (list Environment))
    (finalProjectId finalEnvName : string) : Eff string :=
  emit (Info "Resolving environment...");;
  let* environments :=
    api_get_environments api_environments (environments_endpoint finalProjectId) in
  match List.find (fun env => String.eqb (environment_name env) finalEnvName
                              || String.eqb (environment_id env) finalEnvName)
                  environments with
  | Some environment => ret (environment_id environment)
  | None =>
      match List.find (fun env => String.eqb (environment_id env) finalEnvName)
                      environments with
      | Some _ => ret finalEnvName
      | None =>
          emit (Err ("Environment " +:+ quoted finalEnvName +:+ " not found"));;
          emit (Log "Available environments:");;
          for_each environments (fun env =>
            emit (Log ("  - " +:+ environment_name env +:+ " ("
                       +:+ environment_id env +:+ ")")));;
          exit 1
      end
  end.

(** Lines 520-728 without [--use-layers]: the [try] block up to the
    resolution of the environment, what follows it ([upload], lines 629-722)
    and the [finally] block. *)
Definition attempt (w : World)
    (api_environments : string -> ApiResult (list Environment))
    (finalProjectId finalEnvName tempZip : string) (ignorePatterns : list string)
    (upload : string -> Eff unit) : Eff unit :=
  try_finally
    (package w false (cwd w) tempZip ignorePatterns;;
     let* size := statSync_size tempZip in
     emit (Info ("Package size: " +:+ formatBytes w size));;
     let* environmentId :=
       resolve_environment api_environments finalProjectId finalEnvName in
     upload environmentId)
    (cleanup tempZip).

(** Line 635: [uploadUrlResponse.key || `deployments/${timestamp}-package.zip`]. *)
Definition deploymentKey (w : World) (uploadUrlResponse : UploadUrlResponse) : string :=
  pick (key uploadUrlResponse) (clientKey w).

(** Line 663: [options.handler || envConfig?.handler || 'index.handler']. *)
Definition handler (options : DeployOptions) (envConfig : option EnvConfig) : string :=
  pick (opt_handler options) (pick (envConfig ≫= env_handler) "index.handler").

End Layered.

(** ** A concrete world, for running the model *)

Module Sample.

Definition production : EnvConfig :=
  {| env_runtime := Some "nodejs20.x"; env_memory := Some 3008;
     env_timeout := Some 900; env_database := Some "prd-db";
     env_cache := None; env_storage := Some "prd-storage";
     env_handler := Some "app.main";
     env_build := Some ["npm ci"; "npm run build:prod"]; env_deploy := None |}.

Definition develop : EnvConfig :=
  {| env_runtime := None; env_memory := None; env_timeout := None;
     env_database := None; env_cache := None; env_storage := None;
     env_handler := None; env_build := None; env_deploy := None |}.

Definition project : VafConfig :=
  {| cfg_id := 42; cfg_name := "SnapSnag";
     environments := [("develop", Some develop); ("production", Some production)] |}.

Definition pending : ReleaseRecord :=
  {| status := "pending"; url := None; logs := None |}.

Definition succeeded : ReleaseRecord :=
  {| status := "success"; url := Some "https://fn.example/prod"; logs := None |}.

Definition failed : ReleaseRecord :=
  {| status := "failed"; url := None; logs := Some "npm ERR! missing script" |}.

Definition staging_only : VafConfig :=
  {| cfg_id := 7; cfg_name := "Other"; environments := [("staging", Some develop)] |}.

(** A world whose backend answers the [n]-th status fetch with [answer n]. *)
Definition world_answering (answer : nat -> ReleaseRecord) : World :=
  {| cwd := "/app";
     token := Some "jwt";
     now := 1700000000123;
     yaml_load := fun content =>
       if String.eqb content "id: 42" then YamlOk (Some project)
       else if String.eqb content "id: 7" then YamlOk (Some staging_only)
       else YamlFail "YAMLException: bad indentation";
     exec := fun _ tree =>
       {| exec_ok := true; exec_stderr := EmptyString; exec_files := tree |};
     pack := fun _ _ _ => PackOk "PK-archive";
     formatBytes := fun n => pretty n +:+ " Bytes";
     api_upload_url := fun _ =>
       ApiOk {| uploadUrl := "https://bucket.example/put";
                key := Some "uploads/7f3a/package.zip" |};
     http_put := fun _ _ => None;
     api_deploy := fun _ _ => ApiOk {| dep_id := Some "rel-1" |};
     api_release := fun _ n => ApiOk (answer n) |}.

Definition world : World :=
  world_answering (fun n => if (n <? 2)%nat then pending else succeeded).

Definition world_failing : World :=
  world_answering (fun n => if (n <? 1)%nat then pending else failed).

Definition world_stuck : World := world_answering (fun _ => pending).

(** [world], with a storage that refuses the upload. *)
Definition world_upload_refused : World :=
  {| cwd := cwd world; token := token world; now := now world;
     yaml_load := yaml_load world; exec := exec world; pack := pack world;
     formatBytes := formatBytes world; api_upload_url := api_upload_url world;
     http_put := fun _ _ => Some "Request failed with status code 403";
     api_deploy := api_deploy world; api_release := api_release world |}.

Definition tree : Files :=
  {[ "/app/vaf.yml" := "id: 42"; "/app/index.js" := "exports.handler = 1" ]}.

Definition other_tree : Files :=
  {[ "/app/vaf.yml" := "id: 7"; "/app/index.js" := "exports.handler = 1" ]}.

Definition broken_tree : Files :=
  {[ "/app/vapor.yml" := "id: [42"; "/app/index.js" := "exports.handler = 1" ]}.

Definition no_options : Deploy.DeployOptions :=
  {| Deploy.opt_memory := None; Deploy.opt_timeout := None;
     Deploy.opt_database := None; Deploy.opt_cache := None;
     Deploy.opt_storage := None; Deploy.opt_runtime := None;
     Deploy.opt_handler := None; Deploy.opt_watch := false;
     Deploy.opt_no_build := false |}.

Definition blank_database : Deploy.DeployOptions :=
  {| Deploy.opt_memory := None; Deploy.opt_timeout := None;
     Deploy.opt_database := Some "   "; Deploy.opt_cache := None;
     Deploy.opt_storage := None; Deploy.opt_runtime := None;
     Deploy.opt_handler := None; Deploy.opt_watch := false;
     Deploy.opt_no_build := false |}.

(** The release request of [production] in [world], as the model computes it. *)
Definition endpoint : string :=
  "/api/projects/42/environments/production/deployment/deploy".

Definition request : DeploymentParams :=
  Deploy.deploymentParams no_options (Some production)
                          "deployments/1700000000123-package.zip".

End Sample.

(** ** Further worlds, for running the model *)

Module Scenario.

(** [Sample.world] with another project file, archiver, release answer and
    status feed. *)
Definition world_with (load : string -> YamlResult)
    (archive : string -> PackMode -> Files -> PackResult)
    (accept : string -> DeploymentParams -> ApiResult Deployment)
    (follow : string -> nat -> ApiResult ReleaseRecord) : World :=
  {| cwd := cwd Sample.world; token := token Sample.world; now := now Sample.world;
     yaml_load := load; exec := exec Sample.world; pack := archive;
     formatBytes := formatBytes Sample.world;
     api_upload_url := api_upload_url Sample.world;
     http_put := http_put Sample.world;
     api_deploy := accept; api_release := follow |}.

(** A project file that declares [staging] without a body. *)
Definition bodiless : VafConfig :=
  {| cfg_id := 42; cfg_name := "SnapSnag";
     environments := [("develop", Some Sample.develop); ("staging", None)] |}.

Definition world_bodiless : World :=
  world_with (fun _ => YamlOk (Some bodiless)) (pack Sample.world)
             (api_deploy Sample.world) (api_release Sample.world).

(** The archiver fails and leaves a partial file. *)
Definition world_archiver_failing : World :=
  world_with (yaml_load Sample.world)
             (fun _ _ _ => PackFail "EACCES: permission denied" (Some "PK"))
             (api_deploy Sample.world) (api_release Sample.world).

(** The backend accepts the release without naming it. *)
Definition world_anonymous_release : World :=
  world_with (yaml_load Sample.world) (pack Sample.world)
             (fun _ _ => ApiOk {| dep_id := None |}) (api_release Sample.world).

(** The second status fetch does not reach the server. *)
Definition world_unreachable : World :=
  world_with (yaml_load Sample.world) (pack Sample.world) (api_deploy Sample.world)
             (fun _ n => if (n <? 1)%nat then ApiOk Sample.pending
                         else ApiErr "Network error - could not reach server").

(** A release in progress, with seven lines of logs. *)
Definition seven_lines : string :=
  Js.join_lines ["fetch"; "install"; "compile"; "bundle"; "upload"; "link"; "start"].

Definition building : ReleaseRecord :=
  {| status := "building"; url := None; logs := Some seven_lines |}.

Definition world_logging : World :=
  world_with (yaml_load Sample.world) (pack Sample.world) (api_deploy Sample.world)
             (fun _ _ => ApiOk building).

(** Nobody is logged in. *)
Definition world_signed_out : World :=
  {| cwd := cwd Sample.world; token := None; now := now Sample.world;
     yaml_load := yaml_load Sample.world; exec := exec Sample.world;
     pack := pack Sample.world; formatBytes := formatBytes Sample.world;
     api_upload_url := api_upload_url Sample.world;
     http_put := http_put Sample.world;
     api_deploy := api_deploy Sample.world;
     api_release := api_release Sample.world |}.

(** A later attempt in the same directory. *)
Definition world_later : World :=
  {| cwd := cwd Sample.world; token := token Sample.world; now := now Sample.world + 1;
     yaml_load := yaml_load Sample.world; exec := exec Sample.world;
     pack := pack Sample.world; formatBytes := formatBytes Sample.world;
     api_upload_url := api_upload_url Sample.world;
     http_put := http_put Sample.world;
     api_deploy := api_deploy Sample.world;
     api_release := api_release Sample.world |}.

(** A tree with both project files. *)
Definition both_files : Files :=
  <["/app/vapor.yml" := "id: 7"]> Sample.tree.

(** A tree whose ignore file holds a comment and a blank line only. *)
Definition comment_only : Files :=
  <["/app/.vafignore" := Js.join_lines ["# nothing to exclude"; "   "]]> Sample.tree.

(** What the backend knows of project 42. *)
Definition backend_environments : list Layered.Environment :=
  [{| Layered.environment_name := "production"; Layered.environment_id := "env-1" |};
   {| Layered.environment_name := "develop"; Layered.environment_id := "env-2" |}].

End Scenario.

(** * Vocabulary of the properties *)

(** Every event of every run of [m] satisfies [P]. *)
Definition always (P : Event -> Prop) {A} (m : Eff A) : Prop :=
  forall fs, Forall P (trace (m fs)).

(** [m] never ends the process. *)
Definition never_exits {A} (m : Eff A) : Prop :=
  forall fs code, result (m fs) <> Exited code.

(** [m] leaves the file tree as it found it. *)
Definition keeps_files {A} (m : Eff A) : Prop :=
  forall fs, files (m fs) = fs.

(** ** Classes of events *)

Definition is_console (e : Event) : Prop :=
  match e with
  | Err _ | Info _ | Success _ | Warn _ | Log _ | LogErr _ => True
  | _ => False
  end.

Definition console_or_exec (e : Event) : Prop :=
  match e with Exec _ => True | _ => is_console e end.

(** What polling may do: fetch, print, wait five seconds. *)
Definition poll_event (endpoint : string) (e : Event) : Prop :=
  match e with
  | Get ep => ep = endpoint
  | Sleep ms => ms = 5000
  | Log _ | Success _ | Err _ | Warn _ => True
  | _ => False
  end.

(** What the upload and release steps may do. *)
Definition upload_event (w : World) (options : Deploy.DeployOptions)
    (r : Deploy.Resolved) (deploymentKey : string) (e : Event) : Prop :=
  match e with
  | Pack _ _ _ | Unlink _ | Exec _ | LogErr _ => False
  | Post ep body =>
      ep = Deploy.deploy_endpoint (Deploy.finalProjectId r) (Deploy.finalEnvName r) /\
      body = Deploy.deploymentParams options (Deploy.envConfig r) deploymentKey
  | _ => True
  end.

(** The archives a trace packs and the release requests it posts. *)
Definition pack_events (tr : list Event) : list (string * string * PackMode) :=
  flat_map (fun e => match e with Pack d o m => [(d, o, m)] | _ => [] end) tr.

Definition post_events (tr : list Event) : list (string * DeploymentParams) :=
  flat_map (fun e => match e with Post ep b => [(ep, b)] | _ => [] end) tr.

(** ** Polling, turn by turn *)

Definition non_terminal (d : ReleaseRecord) : Prop :=
  status d <> "success" /\ status d <> "failed".

Definition log_tail (d : ReleaseRecord) : list Event :=
  if Js.truthy_opt (logs d)
  then map Log (Deploy.last5 (Js.split_lines (Deploy.pick (logs d) EmptyString)))
  else [].

Definition pending_turn (endpoint : string) (d : ReleaseRecord) : list Event :=
  [Get endpoint; Log ("Status: " +:+ status d)] ++ log_tail d ++ [Sleep 5000].

Definition success_turn (endpoint : string) (d : ReleaseRecord) : list Event :=
  [Get endpoint; Log "Status: success"; Success "Deployment completed successfully!"]
  ++ (if Js.truthy_opt (url d)
      then [Log ("URL: " +:+ Deploy.pick (url d) EmptyString)] else []).

Definition failed_turn (endpoint : string) (d : ReleaseRecord) : list Event :=
  [Get endpoint; Log "Status: failed"; Err "Deployment failed"]
  ++ (if Js.truthy_opt (logs d)
      then [Log "Logs:"; Log (Deploy.pick (logs d) EmptyString)] else []).

Definition is_fetch (e : Event) : bool :=
  match e with Get _ => true | _ => false end.

Definition is_timing (e : Event) : bool :=
  match e with Get _ | Sleep _ => true | _ => false end.

(** The fetches and the waits of a trace, in order. *)
Definition schedule (tr : list Event) : list Event := List.filter is_timing tr.

Definition fetches (tr : list Event) : nat := length (List.filter is_fetch tr).

(** [k] fetches, each followed by a wait of five seconds. *)
Fixpoint cycles (k : nat) (endpoint : string) : list Event :=
  match k with
  | O => []
  | S k' => Get endpoint :: Sleep 5000 :: cycles k' endpoint
  end.

(** ** Stages of [deploy] *)

(** Lines 89-125: the project file is loaded and the identifiers resolved. *)
Definition resolution (w : World) (projectId envName : option string)
    : Eff Deploy.Resolved :=
  let* vafConfig := Deploy.loadVafConfig w in
  Deploy.resolve vafConfig projectId envName.

(** The tree right after [zipDirectory] ran. *)
Definition packed (w : World) (ignorePatterns : list string) (tempZip : string)
    (fs : Files) : Files :=
  files (Utils.zipDirectory w (cwd w) tempZip ignorePatterns fs).

(** The project file [loadVafConfig] settles on: the first of [vaf.yml] and
    [vapor.yml] that exists, with its content. *)
Definition project_file (w : World) (fs : Files) : option (string * string) :=
  match fs !! Js.path_join (cwd w) "vaf.yml" with
  | Some content => Some ("vaf.yml", content)
  | None =>
      match fs !! Js.path_join (cwd w) "vapor.yml" with
      | Some content => Some ("vapor.yml", content)
      | None => None
      end
  end.

(** ** The specification's wording, where the code is compared with it *)

(** The three tiers of a textual field: the override when it is given, else
    the value the environment declares, else the fallback. *)
Definition three_tiers (override declared fallback value : option string) : Prop :=
  (Js.truthy_opt override = true -> value = override) /\
  (Js.truthy_opt override = false -> Js.truthy_opt declared = true -> value = declared) /\
  (Js.truthy_opt override = false -> Js.truthy_opt declared = false -> value = fallback).

(** The tiers of a numeric field; the fallback is to leave the field out. *)
Definition three_tiers_number (override declared value : option Z) : Prop :=
  (forall n, override = Some n -> value = Some n) /\
  (override = None -> value = declared).

(** C1 for the handler, as stated: without override, the handler an
    environment declares reaches the release request. *)
Definition declared_handler_is_used : Prop :=
  forall w projectId envName options fs endpoint body r tr declared,
    In (Post endpoint body) (trace (Deploy.deploy w projectId envName options fs)) ->
    resolution w projectId envName fs = MkRun (Done r) tr fs ->
    Deploy.opt_handler options = None ->
    Deploy.envConfig r ≫= env_handler = Some declared ->
    declared <> EmptyString ->
    handler body = declared.

(** C2, as stated: the request names the key the backend issued with the
    upload URL. *)
Definition release_carries_backend_key : Prop :=
  forall w projectId envName options fs endpoint body r tr response backendKey,
    In (Post endpoint body) (trace (Deploy.deploy w projectId envName options fs)) ->
    resolution w projectId envName fs = MkRun (Done r) tr fs ->
    api_upload_url w (Deploy.upload_url_endpoint (Deploy.finalProjectId r)
                                                 (Deploy.finalEnvName r))
      = ApiOk response ->
    key response = Some backendKey ->
    deploymentKey body = backendKey.

(** A pattern that excludes the dependency directory. *)
Definition excludes_dependencies (pattern : string) : bool :=
  Js.includes pattern "node_modules".

(** C3 for the plain zip, as stated: no pattern handed to the packaging step
    excludes the dependency directory. *)
Definition zip_bundles_dependencies : Prop :=
  forall w projectId envName options fs dir out ignore,
    In (Pack dir out (Glob ignore))
       (trace (Deploy.deploy w projectId envName options fs)) ->
    forall pattern, In pattern ignore -> excludes_dependencies pattern = false.

(** No invocation starts while an earlier one is in flight. *)
Definition serialized (runs : list Watch.Invocation) : Prop :=
  forall i j a b, (i < j)%nat -> runs !! i = Some a -> runs !! j = Some b ->
                  ~ Watch.overlap a b.

(** A burst: every notification qualifies and comes less than the debounce
    delay after the one before it ([t] is the time of the one before). *)
Fixpoint burst_after (t : Z) (events : list (Z * string)) : Prop :=
  match events with
  | [] => True
  | (t', filePath) :: rest =>
      t <= t' < t + Watch.debounce /\ Watch.skipped filePath = false /\
      burst_after t' rest
  end.

(** C6, as stated: a reference that reaches the request is not empty once
    trimmed. *)
Definition optional_references_trimmed : Prop :=
  forall w projectId envName options fs endpoint body value,
    In (Post endpoint body) (trace (Deploy.deploy w projectId envName options fs)) ->
    database body = Some value \/ cache body = Some value \/ storage body = Some value ->
    Js.trim value <> EmptyString.

(** What the code does instead: the reference is sent exactly when the
    override or the declared value is a non-empty string, as it is. *)
Definition sent_when_non_empty (override declared value : option string) : Prop :=
  (forall v, value = Some v -> v <> EmptyString) /\
  (value = None <-> Js.truthy_opt override = false /\ Js.truthy_opt declared = false) /\
  (forall v, value = Some v ->
     override = Some v \/ (Js.truthy_opt override = false /\ declared = Some v)).

(** C7, as stated: the value the failed resolution ends with carries the
    declared environment names. *)
Definition error_value_carries_names : Prop :=
  exists names_of : Result unit -> list string,
    forall w fs projectId name options configFile content cfg,
      project_file w fs = Some (configFile, content) ->
      yaml_load w content = YamlOk (Some cfg) ->
      name <> EmptyString ->
      ~ In name (Deploy.env_names cfg) ->
      ~ In name Deploy.object_prototype_keys ->
      names_of (result (Deploy.deploy w projectId (Some name) options fs))
        = Deploy.env_names cfg.

(** The default set as the specification words it: version-control
    directory, logs, env files, OS metadata file. *)
Definition spec_default_set : list string :=
  [".git/**"; "*.log"; ".env"; ".DS_Store"].

(** ** Further vocabulary *)

(** The commands a trace runs, in order. *)
Definition exec_events (tr : list Event) : list string :=
  flat_map (fun e => match e with Exec cmd => [cmd] | _ => [] end) tr.

(** The time a trace spends waiting, in milliseconds. *)
Definition total_wait (tr : list Event) : Z :=
  fold_right (fun e acc => match e with Sleep ms => ms + acc | _ => acc end) 0 tr.

(** The requests a trace sends, in order. *)
Definition is_network (e : Event) : bool :=
  match e with Get _ | Put _ _ _ | Post _ _ => true | _ => false end.

Definition network_events (tr : list Event) : list Event := List.filter is_network tr.

(** The invocation a qualifying notification leads to when its timer fires. *)
Definition invocation_of (duration : Z -> Z) (ev : Z * string) : Watch.Invocation :=
  {| Watch.started := fst ev + Watch.debounce;
     Watch.finished := fst ev + Watch.debounce + duration (fst ev + Watch.debounce);
     Watch.changed := snd ev |}.

(** Notifications at least the debounce delay apart, all qualifying. *)
Fixpoint spaced_after (t : Z) (events : list (Z * string)) : Prop :=
  match events with
  | [] => True
  | (t', filePath) :: rest =>
      t + Watch.debounce <= t' /\ Watch.skipped filePath = false /\
      spaced_after t' rest
  end.

Definition qualifying (events : list (Z * string)) : list (Z * string) :=
  List.filter (fun ev => negb (Watch.skipped (snd ev))) events.

(** The invariant of the scheduler: every invocation, and the armed timer,
    come from a qualifying notification. *)
Definition from_notification (duration : Z -> Z) (events : list (Z * string))
    (i : Watch.Invocation) : Prop :=
  exists ev, In ev events /\ Watch.skipped (snd ev) = false /\ i = invocation_of duration ev.

Definition scheduler_sound (duration : Z -> Z) (events : list (Z * string))
    (s : Watch.Scheduler) : Prop :=
  Forall (from_notification duration events) (Watch.invocations s) /\
  (forall due filePath, Watch.deployTimer s = Some (due, filePath) ->
     exists t, In (t, filePath) events /\ Watch.skipped filePath = false /\
               due = t + Watch.debounce).

Definition armed (s : Watch.Scheduler) : nat :=
  match Watch.deployTimer s with Some _ => 1%nat | None => 0%nat end.

(** The same text with Windows line ends: every line feed preceded by a
    carriage return. *)
Definition CR : ascii := ascii_of_nat 13.

Fixpoint crlf (s : string) : string :=
  match s with
  | EmptyString => EmptyString
  | String c rest =>
      if Ascii.eqb c Js.LF then String CR (String Js.LF (crlf rest))
      else String c (crlf rest)
  end.

(** A line that yields no pattern: blank, or a comment. *)
Definition no_pattern (line : string) : Prop :=
  Js.blank line = true \/ Js.startsWith (Js.trim line) "#" = true.

(** ** Two attempts in one process

    Under [--watch] every attempt is a timer callback, and the callbacks
    share the process: while one attempt waits at an [await], the timer of a
    later change can fire and its callback runs, up to its own first
    [await], on the tree as it is then. *)

(** Line 261. *)
Definition announce (filePath : string) : Event :=
  Info (String Js.LF ("Change detected in " +:+ filePath +:+ ", deploying...")).

(** An attempt from the start of its callback until the upload-url request
    is sent and its answer awaited (lines 261 and 87-170): the attempt is
    then suspended inside its [try] block. *)
Definition until_upload_request (w : World) (projectId envName : option string)
    (options : Deploy.DeployOptions) (filePath : string) : Eff unit :=
  emit (announce filePath);;
  let* r := resolution w projectId envName in
  Deploy.build w (Deploy.envConfig r) options;;
  let* tree := get_files in
  emit (Info "Creating deployment package...");;
  Utils.zipDirectory w (cwd w) (Deploy.tempZipPath w)
                     (Utils.readVafIgnore tree (cwd w));;
  let* size := Deploy.statSync_size (Deploy.tempZipPath w) in
  emit (Info ("Package size: " +:+ formatBytes w size));;
  emit (Info "Getting upload URL...");;
  emit (Get (Deploy.upload_url_endpoint (Deploy.finalProjectId r)
                                        (Deploy.finalEnvName r))).

(** A callback from its start to its first [await], the one of the build
    (lines 261 and 87-125); this part runs without interruption. *)
Definition until_build (w : World) (projectId envName : option string)
    (filePath : string) : Eff Deploy.Resolved :=
  emit (announce filePath);;
  resolution w projectId envName.

(** One course of the process: a first attempt, in the world [first],
    reaches the [await] of its upload-url request; the tree is edited
    ([edit]) while it waits; the timer of that change fires and the
    callback, in the world [second], runs to its first [await].  [None]:
    the first attempt does not reach that [await] (it ended the process or
    threw before), so the course does not arise. *)
Definition overlapping (first second : World) (projectId envName : option string)
    (options : Deploy.DeployOptions) (changed edited : string)
    (edit : Files -> Files) (fs : Files) : option (Run Deploy.Resolved) :=
  match until_upload_request first projectId envName options changed fs with
  | MkRun (Done _) tr suspended =>
      match until_build second projectId envName edited (edit suspended) with
      | MkRun res tr' fs' => Some (MkRun res (tr ++ tr') fs')
      end
  | _ => None
  end.

(** C9, as stated, for a process that has ended: the archive of no attempt
    is left in the tree. *)
Definition no_archive_outlives_the_process : Prop :=
  forall first second projectId envName options changed edited content fs run code,
    overlapping first second projectId envName options changed edited
                (fun tree => <[Js.path_join (cwd first) "vaf.yml" := content]> tree) fs
      = Some run ->
    result run = Exited code ->
    files run !! Deploy.tempZipPath first = None.

(** ** Tactics *)

Ltac not_in_list :=
  let H := fresh in
  intros H; simpl in H; repeat (destruct H as [H | H]; [discriminate H|]); exact H.

Ltac in_list := simpl; repeat first [left; reflexivity | right].

Ltac eff_step lemma_bind lemma_catch lemma_when lemma_each :=
  match goal with
  | |- _ (bind _ _) => apply lemma_bind; [| intros ?]
  | |- _ (try_catch _ _) => apply lemma_catch; [| intros ?]
  | |- _ (when _ _) => apply lemma_when
  | |- _ (for_each _ _) => apply lemma_each; intros ?
  | |- _ (if ?b then _ else _) => destruct b
  end.

(** * Properties *)

(** ** Strings *)

Section JsStrings.
Import Js.

Lemma blank_rev_app (s acc : string) :
  blank (String.rev_app s acc) = blank s && blank acc.
Proof.
  revert acc; induction s as [|c s IH]; intros acc; simpl.
  - reflexivity.
  - rewrite IH. simpl. destruct (is_white_space c), (blank s); reflexivity.
Qed.

Lemma blank_rev (s : string) : blank (String.rev s) = blank s.
Proof. unfold String.rev. rewrite blank_rev_app. simpl. apply andb_true_r. Qed.

Lemma rev_app_empty (s acc : string) :
  String.rev_app s acc = EmptyString -> s = EmptyString /\ acc = EmptyString.
Proof.
  revert acc; induction s as [|c s IH]; intros acc H; simpl in H.
  - auto.
  - apply IH in H. destruct H as [_ H]. discriminate H.
Qed.

Lemma trimStart_shape (s : string) :
  trimStart s = EmptyString \/
  exists c rest, trimStart s = String c rest /\ is_white_space c = false.
Proof.
  induction s as [|c s IH]; simpl.
  - left; reflexivity.
  - destruct (is_white_space c) eqn:E.
    + exact IH.
    + right. exists c, s. auto.
Qed.

Lemma trimStart_empty_iff (s : string) :
  trimStart s = EmptyString <-> blank s = true.
Proof.
  induction s as [|c s IH]; simpl.
  - tauto.
  - destruct (is_white_space c); simpl.
    + exact IH.
    + split; discriminate.
Qed.

(** A line trims to the empty string exactly when it is blank. *)
Lemma trim_empty_iff (s : string) :
  trim s = EmptyString <-> blank s = true.
Proof.
  unfold trim, trimEnd. split.
  - intros H. apply rev_app_empty in H. destruct H as [H _].
    apply trimStart_empty_iff in H. rewrite blank_rev in H.
    destruct (trimStart_shape s) as [E | (c & rest & E & Hc)].
    + apply trimStart_empty_iff, E.
    + rewrite E in H. simpl in H. rewrite Hc in H. discriminate H.
  - intros H. apply trimStart_empty_iff in H. rewrite H. reflexivity.
Qed.

(** The trimmed string starts with no white space. *)
Lemma trimStart_idem (s : string) : trimStart (trimStart s) = trimStart s.
Proof.
  destruct (trimStart_shape s) as [E | (c & rest & E & Hc)]; rewrite E; simpl.
  - reflexivity.
  - rewrite Hc. reflexivity.
Qed.

(** [split_lines] cuts at the line feeds and nowhere else. *)
Lemma split_lines_nonempty (s : string) : split_lines s <> [].
Proof.
  induction s as [|c s IH]; simpl; [discriminate|].
  destruct (Ascii.eqb c LF); [discriminate|].
  destruct (split_lines s); discriminate.
Qed.

Lemma join_split_lines (s : string) : join_lines (split_lines s) = s.
Proof.
  induction s as [|c s IH]; simpl; [reflexivity|].
  destruct (Ascii.eqb c LF) eqn:E.
  - apply Ascii.eqb_eq in E. subst c.
    pose proof (split_lines_nonempty s) as Hne.
    simpl. destruct (split_lines s) as [|l ls]; [contradiction|].
    rewrite IH. reflexivity.
  - pose proof (split_lines_nonempty s) as Hne.
    destruct (split_lines s) as [|l ls]; [contradiction|].
    simpl in *. destruct ls; simpl; rewrite <- IH; reflexivity.
Qed.

Lemma truthy_true (s : string) : truthy s = true <-> s <> EmptyString.
Proof. destruct s; simpl; split; congruence. Qed.

End JsStrings.

(** ** Ignore-file parsing *)

(** C8, as stated, fails: with no ignore file the effective list is not the
    four-element set of the specification; it also excludes the dependency
    directory. *)
Lemma readVafIgnore_default_not_spec_set :
  ~ (forall p : string,
       p ∈ Utils.readVafIgnore (∅ : Files) "/app" <-> p ∈ spec_default_set).
Proof.
  intros H.
  assert (Hin : "node_modules/**" ∈ Utils.readVafIgnore (∅ : Files) "/app").
  { vm_compute. apply list_elem_of_In. simpl. auto. }
  apply H in Hin. apply list_elem_of_In in Hin. simpl in Hin.
  repeat (destruct Hin as [Hin | Hin]; [discriminate Hin|]). exact Hin.
Qed.

(** C8 (amended): with an ignore file, the effective patterns are exactly
    the trimmed lines of its content that are not blank and do not start
    with [#] after trimming; with no ignore file, the effective list is the
    built-in one: dependency directory, version-control directory, logs, env
    file and OS metadata file. *)
Theorem readVafIgnore_effective_patterns (fs : Files) (dir : string) :
  (forall content, fs !! Js.path_join dir ".vafignore" = Some content ->
     forall p, p ∈ Utils.readVafIgnore fs dir <->
       exists line, line ∈ Js.split_lines content /\ p = Js.trim line /\
                    Js.blank line = false /\ Js.startsWith p "#" = false) /\
  (fs !! Js.path_join dir ".vafignore" = None ->
     Utils.readVafIgnore fs dir =
       ["node_modules/**"; ".git/**"; "*.log"; ".env"; ".DS_Store"]).
Proof.
  unfold Utils.readVafIgnore. split.
  - intros content Hc p. rewrite Hc. unfold Utils.parse_ignore.
    rewrite list_elem_of_filter, list_elem_of_In, in_map_iff.
    unfold Utils.keep_line. split.
    + intros [Hk (line & Hp & Hin)]. exists line.
      apply Is_true_true, andb_true_iff in Hk. destruct Hk as [Ht Hs].
      apply negb_true_iff in Hs. subst p.
      repeat split; [apply list_elem_of_In, Hin | | exact Hs].
      apply not_true_iff_false. intros Hb. apply trim_empty_iff in Hb.
      rewrite Hb in Ht. discriminate Ht.
    + intros (line & Hin & Hp & Hb & Hs). subst p. split.
      * apply Is_true_true, andb_true_iff. split; [|rewrite Hs; reflexivity].
        apply truthy_true. intros E. apply trim_empty_iff in E. congruence.
      * exists line. split; [reflexivity | apply list_elem_of_In, Hin].
  - intros Hn. rewrite Hn. reflexivity.
Qed.

Lemma readVafIgnore_effective_patterns_witness :
  ("dist/" ∈ Utils.readVafIgnore
      ({[ "/app/.vafignore" := "# out" +:+ String Js.LF " dist/ " ]} : Files) "/app")
  /\ Utils.readVafIgnore (∅ : Files) "/app" =
       ["node_modules/**"; ".git/**"; "*.log"; ".env"; ".DS_Store"].
Proof.
  split.
  - apply (proj1 (readVafIgnore_effective_patterns
             ({[ "/app/.vafignore" := "# out" +:+ String Js.LF " dist/ " ]} : Files)
             "/app") ("# out" +:+ String Js.LF " dist/ ")); [reflexivity|].
    exists " dist/ ". repeat split; vm_compute; [|reflexivity..].
    apply list_elem_of_In. simpl. auto.
  - apply (proj2 (readVafIgnore_effective_patterns (∅ : Files) "/app")).
    reflexivity.
Defined.

(** ** Reasoning about effects *)

Section Combinators.
Context (P : Event -> Prop).

Lemma always_ret {A} (a : A) : always P (ret a).
Proof. intros fs. constructor. Qed.

Lemma always_emit (e : Event) : P e -> always P (emit e).
Proof. intros H fs. simpl. auto. Qed.

Lemma always_exit {A} (code : Z) : always P (@exit A code).
Proof. intros fs. constructor. Qed.

Lemma always_get_files : always P get_files.
Proof. intros fs. constructor. Qed.

Lemma always_bind {A B} (m : Eff A) (k : A -> Eff B) :
  always P m -> (forall a, always P (k a)) -> always P (bind m k).
Proof.
  intros Hm Hk fs. unfold bind. specialize (Hm fs).
  destruct (m fs) as [[a|msg|code] tr fs1]; simpl in *; auto.
  specialize (Hk a fs1). destruct (k a fs1) as [res tr' fs2]; simpl in *.
  apply Forall_app. split; assumption.
Qed.

Lemma always_try_catch {A} (m : Eff A) (h : string -> Eff A) :
  always P m -> (forall msg, always P (h msg)) -> always P (try_catch m h).
Proof.
  intros Hm Hh fs. unfold try_catch. specialize (Hm fs).
  destruct (m fs) as [[a|msg|code] tr fs1]; simpl in *; auto.
  specialize (Hh msg fs1). destruct (h msg fs1) as [res tr' fs2]; simpl in *.
  apply Forall_app. split; assumption.
Qed.

Lemma always_try_finally {A} (m : Eff A) (c : Eff unit) :
  always P m -> always P c -> always P (try_finally m c).
Proof.
  intros Hm Hc fs. unfold try_finally. specialize (Hm fs).
  destruct (m fs) as [[a|msg|code] tr fs1]; simpl in *; auto;
    specialize (Hc fs1); destruct (c fs1) as [[[]|msg'|code'] tr' fs2];
    simpl in *; apply Forall_app; split; assumption.
Qed.

Lemma always_when (b : bool) (m : Eff unit) : always P m -> always P (when b m).
Proof. intros H. destruct b; simpl; [exact H | apply always_ret]. Qed.

Lemma always_for_each {A} (l : list A) (body : A -> Eff unit) :
  (forall x, always P (body x)) -> always P (for_each l body).
Proof.
  intros H. induction l as [|x l IH]; simpl.
  - apply always_ret.
  - apply always_bind; auto.
Qed.

End Combinators.

Lemma always_weaken (P Q : Event -> Prop) {A} (m : Eff A) :
  (forall e, P e -> Q e) -> always P m -> always Q m.
Proof. intros H Hm fs. eapply Forall_impl; [apply Hm | exact H]. Qed.

Lemma never_exits_ret {A} (a : A) : never_exits (ret a).
Proof. intros fs c. discriminate. Qed.

Lemma never_exits_emit (e : Event) : never_exits (emit e).
Proof. intros fs c. discriminate. Qed.

Lemma never_exits_bind {A B} (m : Eff A) (k : A -> Eff B) :
  never_exits m -> (forall a, never_exits (k a)) -> never_exits (bind m k).
Proof.
  intros Hm Hk fs c. unfold bind. specialize (Hm fs).
  destruct (m fs) as [[a|msg|code] tr fs1]; simpl in *; try discriminate.
  - specialize (Hk a fs1 c). destruct (k a fs1) as [res tr' fs2]. exact Hk.
  - intros _. apply (Hm code). reflexivity.
Qed.

Lemma never_exits_try_catch {A} (m : Eff A) (h : string -> Eff A) :
  never_exits m -> (forall msg, never_exits (h msg)) -> never_exits (try_catch m h).
Proof.
  intros Hm Hh fs c. unfold try_catch. specialize (Hm fs).
  destruct (m fs) as [[a|msg|code] tr fs1]; simpl in *; try discriminate.
  - specialize (Hh msg fs1 c). destruct (h msg fs1) as [res tr' fs2]. exact Hh.
  - intros _. apply (Hm code). reflexivity.
Qed.

Lemma never_exits_when (b : bool) (m : Eff unit) :
  never_exits m -> never_exits (when b m).
Proof. intros H. destruct b; simpl; [exact H | apply never_exits_ret]. Qed.

Lemma never_exits_for_each {A} (l : list A) (body : A -> Eff unit) :
  (forall x, never_exits (body x)) -> never_exits (for_each l body).
Proof.
  intros H. induction l as [|x l IH]; simpl.
  - apply never_exits_ret.
  - apply never_exits_bind; auto.
Qed.

Lemma keeps_files_ret {A} (a : A) : keeps_files (ret a).
Proof. intros fs. reflexivity. Qed.

Lemma keeps_files_emit (e : Event) : keeps_files (emit e).
Proof. intros fs. reflexivity. Qed.

Lemma keeps_files_exit {A} (code : Z) : keeps_files (@exit A code).
Proof. intros fs. reflexivity. Qed.

Lemma keeps_files_bind {A B} (m : Eff A) (k : A -> Eff B) :
  keeps_files m -> (forall a, keeps_files (k a)) -> keeps_files (bind m k).
Proof.
  intros Hm Hk fs. unfold bind. specialize (Hm fs).
  destruct (m fs) as [[a|msg|code] tr fs1]; simpl in *; auto.
  specialize (Hk a fs1). destruct (k a fs1) as [res tr' fs2]; simpl in *.
  congruence.
Qed.

Lemma keeps_files_try_catch {A} (m : Eff A) (h : string -> Eff A) :
  keeps_files m -> (forall msg, keeps_files (h msg)) -> keeps_files (try_catch m h).
Proof.
  intros Hm Hh fs. unfold try_catch. specialize (Hm fs).
  destruct (m fs) as [[a|msg|code] tr fs1]; simpl in *; auto.
  specialize (Hh msg fs1). destruct (h msg fs1) as [res tr' fs2]; simpl in *.
  congruence.
Qed.

Lemma keeps_files_when (b : bool) (m : Eff unit) :
  keeps_files m -> keeps_files (when b m).
Proof. intros H. destruct b; simpl; [exact H | apply keeps_files_ret]. Qed.

Lemma keeps_files_for_each {A} (l : list A) (body : A -> Eff unit) :
  (forall x, keeps_files (body x)) -> keeps_files (for_each l body).
Proof.
  intros H. induction l as [|x l IH]; simpl.
  - apply keeps_files_ret.
  - apply keeps_files_bind; auto.
Qed.

(** A run of a bind, split at the first computation. *)
Lemma bind_done {A B} (m : Eff A) (k : A -> Eff B) fs a tr fs1 :
  m fs = MkRun (Done a) tr fs1 ->
  bind m k fs =
    MkRun (result (k a fs1)) (tr ++ trace (k a fs1)) (files (k a fs1)).
Proof. intros H. unfold bind. rewrite H. destruct (k a fs1); reflexivity. Qed.

Lemma bind_exited {A B} (m : Eff A) (k : A -> Eff B) fs code tr fs1 :
  m fs = MkRun (Exited code) tr fs1 ->
  bind m k fs = MkRun (Exited code) tr fs1.
Proof. intros H. unfold bind. rewrite H. reflexivity. Qed.

Lemma bind_thrown {A B} (m : Eff A) (k : A -> Eff B) fs msg tr fs1 :
  m fs = MkRun (Thrown msg) tr fs1 ->
  bind m k fs = MkRun (Thrown msg) tr fs1.
Proof. intros H. unfold bind. rewrite H. reflexivity. Qed.

Lemma trace_for_each_emit {A} (l : list A) (f : A -> Event) fs :
  for_each l (fun x => emit (f x)) fs = MkRun (Done tt) (map f l) fs.
Proof.
  induction l as [|x l IH]; simpl; [reflexivity|].
  unfold bind at 1. simpl. rewrite IH. reflexivity.
Qed.

(** ** The stages of [deploy], run by run *)

Import Js Deploy.

Lemma list_environments_run cfg fs :
  list_environments cfg fs =
    MkRun (Done tt) (map (fun env => Log ("  - " +:+ env)) (env_names cfg)) fs.
Proof. apply trace_for_each_emit. Qed.

Lemma load_first_run w names fs :
  exists cfg tr, load_first w names fs = MkRun (Done cfg) tr fs /\ Forall is_console tr.
Proof.
  induction names as [|n names IH]; simpl.
  - eexists _, _. split; [reflexivity | constructor].
  - destruct (fs !! Js.path_join (cwd w) n); [|exact IH].
    destruct (yaml_load w s).
    + eexists _, _. split; [reflexivity | constructor].
    + eexists _, _. split; [reflexivity |]. repeat constructor.
Qed.

Lemma Forall_console_envs l :
  Forall is_console (map (fun env => Log ("  - " +:+ env)) l).
Proof. induction l; simpl; constructor; simpl; auto. Qed.

Lemma resolve_run cfg pid env fs :
  exists tr, Forall is_console tr /\
    (resolve cfg pid env fs = MkRun (Exited 1) tr fs \/
     exists r, resolve cfg pid env fs = MkRun (Done r) tr fs).
Proof.
  unfold resolve.
  destruct cfg as [cfg|]; destruct pid as [pid|]; destruct env as [name|];
    unfold bind, when; simpl;
    repeat (first [rewrite list_environments_run | progress simpl
                  | match goal with |- context [if ?b then _ else _] => destruct b eqn:? end
                  | match goal with |- context [match env_get ?a ?b with _ => _ end] => destruct (env_get a b) eqn:? end]);
    eexists; (split; [| first [left; reflexivity | right; eexists; reflexivity]]);
    repeat first [apply Forall_app; split | apply Forall_console_envs | constructor; simpl; auto].
Qed.

Lemma execAsync_run w cmd fs :
  exists res, execAsync w cmd fs = MkRun res [Exec cmd] (exec_files (exec w cmd fs))
              /\ forall code, res <> Exited code.
Proof.
  unfold execAsync. eexists. split; [reflexivity|].
  intros code. destruct (exec_ok _); discriminate.
Qed.

Lemma build_loop_run w cmds fs :
  exists tr fs',
    for_each cmds (fun buildCmd =>
      try_catch
        (emit (Info ("Running: " +:+ buildCmd));; execAsync w buildCmd;; ret tt)
        (fun _ => emit (Warn ("Build command failed: " +:+ buildCmd)))) fs
    = MkRun (Done tt) tr fs' /\ Forall console_or_exec tr.
Proof.
  revert fs. induction cmds as [|c cmds IH]; intros fs; simpl.
  - eexists _, _. split; [reflexivity | constructor].
  - set (loop := for_each cmds _) in *.
    unfold bind, try_catch, execAsync. simpl.
    destruct (IH (exec_files (exec w c fs))) as (tr & fs' & E & F).
    destruct (exec_ok (exec w c fs)); simpl; rewrite E; simpl;
      eexists _, _; (split; [reflexivity|]);
      repeat (constructor; simpl; auto).
Qed.

Lemma build_run w envConfig opts fs :
  exists tr fs', build w envConfig opts fs = MkRun (Done tt) tr fs'
                 /\ Forall console_or_exec tr.
Proof.
  unfold build.
  destruct (envConfig ≫= env_build) as [cmds|]; [destruct (opt_no_build opts)|].
  2:{ destruct (build_loop_run w cmds fs) as (tr & fs' & E & F).
      set (loop := for_each cmds _) in *.
      unfold bind. simpl. rewrite E. simpl.
      eexists _, _. split; [reflexivity|].
      constructor; [exact I|]. apply Forall_app. split; [exact F|].
      repeat constructor. }
  all: unfold bind, try_catch, execAsync, when; simpl;
    destruct (exec_ok (exec w "npm run build" fs)); simpl;
    [ destruct (Js.truthy _); simpl | ];
    eexists _, _; (split; [reflexivity|]); repeat (constructor; simpl; auto).
Qed.

Lemma poll_once_pending w ep n fs d :
  api_release w ep n = ApiOk d -> non_terminal d ->
  poll_once w ep n fs = MkRun (Done false) (pending_turn ep d) fs.
Proof.
  intros E [Hs Hf]. unfold poll_once, try_catch, bind, api_get_release. simpl.
  rewrite E. simpl.
  apply String.eqb_neq in Hs, Hf. rewrite Hs, Hf.
  unfold pending_turn, log_tail, when.
  destruct (truthy_opt (logs d)); simpl; [|reflexivity].
  rewrite trace_for_each_emit. reflexivity.
Qed.

Lemma poll_once_success w ep n fs d :
  api_release w ep n = ApiOk d -> status d = "success" ->
  poll_once w ep n fs = MkRun (Done true) (success_turn ep d) fs.
Proof.
  intros E Hs. unfold poll_once, try_catch, bind, api_get_release. simpl.
  rewrite E. simpl. rewrite Hs. simpl.
  unfold success_turn, when. destruct (truthy_opt (url d)); reflexivity.
Qed.

Lemma poll_once_failed w ep n fs d :
  api_release w ep n = ApiOk d -> status d = "failed" ->
  poll_once w ep n fs = MkRun (Done true) (failed_turn ep d) fs.
Proof.
  intros E Hs. unfold poll_once, try_catch, bind, api_get_release. simpl.
  rewrite E. simpl. rewrite Hs. simpl.
  unfold failed_turn, when. destruct (truthy_opt (logs d)); reflexivity.
Qed.

Lemma poll_once_error w ep n fs m :
  api_release w ep n = ApiErr m ->
  poll_once w ep n fs =
    MkRun (Done true) [Get ep; Err (pick (Some m) "Failed to check deployment status")] fs.
Proof.
  intros E. unfold poll_once, try_catch, bind, api_get_release. simpl.
  rewrite E. reflexivity.
Qed.

(** Every turn is one of the four. *)
Lemma poll_once_cases w ep n fs :
  (exists d, api_release w ep n = ApiOk d /\ non_terminal d /\
             poll_once w ep n fs = MkRun (Done false) (pending_turn ep d) fs) \/
  (exists tr, poll_once w ep n fs = MkRun (Done true) tr fs /\
     ((exists d, tr = success_turn ep d) \/ (exists d, tr = failed_turn ep d) \/
      (exists m, tr = [Get ep; Err m]))).
Proof.
  destruct (api_release w ep n) as [d|m] eqn:E.
  - destruct (String.eqb (status d) "success") eqn:Hs.
    { apply String.eqb_eq in Hs. right. eexists. split.
      - apply (poll_once_success _ _ _ _ _ E Hs).
      - left. eauto. }
    destruct (String.eqb (status d) "failed") eqn:Hf.
    { apply String.eqb_eq in Hf. right. eexists. split.
      - apply (poll_once_failed _ _ _ _ _ E Hf).
      - right. left. eauto. }
    apply String.eqb_neq in Hs, Hf. left. exists d.
    split; [reflexivity|]. split; [split; assumption|].
    apply poll_once_pending; [exact E | split; assumption].
  - right. eexists. split; [apply (poll_once_error _ _ _ _ _ E)|].
    right. right. eauto.
Qed.

Lemma schedule_app tr1 tr2 : schedule (tr1 ++ tr2) = (schedule tr1 ++ schedule tr2)%list.
Proof. apply List.filter_app. Qed.

Lemma fetches_app tr1 tr2 : fetches (tr1 ++ tr2) = (fetches tr1 + fetches tr2)%nat.
Proof. unfold fetches. rewrite List.filter_app. apply length_app. Qed.

Lemma schedule_logs (l : list string) : schedule (map Log l) = [].
Proof. induction l; simpl; auto. Qed.

Lemma fetches_logs (l : list string) : fetches (map Log l) = 0%nat.
Proof. induction l; simpl; auto. Qed.

Lemma schedule_pending_turn ep d : schedule (pending_turn ep d) = [Get ep; Sleep 5000].
Proof.
  unfold pending_turn, log_tail. simpl. f_equal.
  fold (schedule ((if truthy_opt (logs d)
     then map Log (last5 (split_lines (pick (logs d) EmptyString))) else []) ++ [Sleep 5000])).
  rewrite schedule_app. destruct (truthy_opt (logs d)); [rewrite schedule_logs|]; reflexivity.
Qed.

Lemma fetches_pending_turn ep d : fetches (pending_turn ep d) = 1%nat.
Proof.
  unfold pending_turn, log_tail.
  rewrite fetches_app, fetches_app.
  destruct (truthy_opt (logs d)); [rewrite fetches_logs|]; reflexivity.
Qed.

Lemma schedule_final_turn ep tr :
  (exists d, tr = success_turn ep d) \/ (exists d, tr = failed_turn ep d) \/
  (exists m, tr = [Get ep; Err m]) ->
  schedule tr = [Get ep].
Proof.
  intros [[d ->] | [[d ->] | [m ->]]]; unfold success_turn, failed_turn; simpl.
  - destruct (truthy_opt (url d)); reflexivity.
  - destruct (truthy_opt (logs d)); reflexivity.
  - reflexivity.
Qed.

Lemma poll_loop_schedule w ep remaining attempts fs :
  exists tr k,
    poll_loop w ep remaining attempts fs = MkRun (Done tt) tr fs /\
    ((k = remaining /\ schedule tr = cycles k ep) \/
     ((k < remaining)%nat /\ schedule tr = (cycles k ep ++ [Get ep])%list)).
Proof.
  revert attempts. induction remaining as [|remaining IH]; intros attempts; simpl.
  - exists [Warn "Deployment is taking longer than expected..."], 0%nat.
    split; [reflexivity|]. left. split; reflexivity.
  - unfold bind.
    destruct (poll_once_cases w ep attempts fs)
      as [(d & E & Hd & Hp) | (tr & Hp & Hfinal)]; rewrite Hp; simpl.
    + destruct (IH (S attempts)) as (tr' & k & Hl & Hk). rewrite Hl. simpl.
      exists (pending_turn ep d ++ tr'), (S k). split; [reflexivity|].
      rewrite schedule_app, schedule_pending_turn. simpl.
      destruct Hk as [[-> Hs] | [Hlt Hs]]; rewrite Hs; [left | right]; split;
        (reflexivity || lia).
    + exists (tr ++ []), 0%nat. split; [reflexivity|]. right. split; [lia|].
      rewrite app_nil_r. simpl. apply schedule_final_turn, Hfinal.
Qed.

Lemma poll_loop_all_pending w ep (d : nat -> ReleaseRecord) remaining attempts fs :
  (forall n, (attempts <= n < attempts + remaining)%nat ->
             api_release w ep n = ApiOk (d n) /\ non_terminal (d n)) ->
  poll_loop w ep remaining attempts fs =
    MkRun (Done tt)
          (concat (map (fun n => pending_turn ep (d n)) (seq attempts remaining))
           ++ [Warn "Deployment is taking longer than expected..."]) fs.
Proof.
  revert attempts. induction remaining as [|remaining IH]; intros attempts H; simpl.
  - reflexivity.
  - unfold bind.
    destruct (H attempts) as [E Hd]; [lia|].
    rewrite (poll_once_pending _ _ _ _ _ E Hd). cbn [result trace files].
    rewrite IH by (intros n Hn; apply H; lia). cbn [result trace files].
    change (seq attempts (S remaining)) with (attempts :: seq (S attempts) remaining).
    cbn [map concat]. rewrite <- app_assoc. reflexivity.
Qed.

(** primitives *)
Section Primitives.
Context (P : Event -> Prop) (w : World).

Lemma always_statSync_size p : always P (statSync_size p).
Proof. intros fs. unfold statSync_size. destruct (fs !! p); constructor. Qed.

Lemma always_readFileSync p : always P (readFileSync p).
Proof. intros fs. unfold readFileSync. destruct (fs !! p); constructor. Qed.

Lemma always_api_get_upload_url ep : P (Get ep) -> always P (api_get_upload_url w ep).
Proof. intros H fs. simpl. auto. Qed.

Lemma always_api_get_release ep n : P (Get ep) -> always P (api_get_release w ep n).
Proof. intros H fs. simpl. auto. Qed.

Lemma always_axios_put target body ct :
  P (Put target body ct) -> always P (axios_put w target body ct).
Proof. intros H fs. simpl. auto. Qed.

Lemma always_api_post_deploy ep body :
  P (Post ep body) -> always P (api_post_deploy w ep body).
Proof. intros H fs. simpl. auto. Qed.

Lemma always_cleanup p : P (Unlink p) -> always P (cleanup p).
Proof. intros H fs. unfold cleanup. destruct (existsSync fs p); simpl; auto. Qed.

End Primitives.

Ltac always_tac :=
  repeat first
    [ eff_step always_bind always_try_catch always_when always_for_each
    | match goal with
      | |- always _ (emit _) => apply always_emit; simpl; auto
      | |- always _ (ret _) => apply always_ret
      | |- always _ (exit _) => apply always_exit
      | |- always _ (statSync_size _) => apply always_statSync_size
      | |- always _ (readFileSync _) => apply always_readFileSync
      | |- always _ (api_get_upload_url _ _) =>
          apply always_api_get_upload_url; simpl; auto
      | |- always _ (api_get_release _ _ _) =>
          apply always_api_get_release; simpl; auto
      | |- always _ (axios_put _ _ _ _) => apply always_axios_put; simpl; auto
      | |- always _ (api_post_deploy _ _ _) =>
          apply always_api_post_deploy; simpl; auto
      end ].

Lemma always_poll_once w ep n : always (poll_event ep) (poll_once w ep n).
Proof. unfold poll_once. always_tac. Qed.

Lemma always_poll_loop w ep remaining attempts :
  always (poll_event ep) (poll_loop w ep remaining attempts).
Proof.
  revert attempts. induction remaining as [|remaining IH]; intros attempts; simpl.
  - always_tac.
  - apply always_bind; [apply always_poll_once|]. intros [|]; [always_tac | apply IH].
Qed.

Lemma poll_loop_returns w ep remaining attempts fs :
  exists tr, poll_loop w ep remaining attempts fs = MkRun (Done tt) tr fs.
Proof.
  destruct (poll_loop_schedule w ep remaining attempts fs) as (tr & k & H & _).
  eauto.
Qed.

Lemma poll_event_upload_event w options r key ep e :
  poll_event ep e -> upload_event w options r key e.
Proof. destruct e; simpl; tauto. Qed.

Lemma always_upload_and_release w options r tempZip key :
  always (upload_event w options r key) (upload_and_release w options r tempZip key).
Proof.
  unfold upload_and_release. always_tac.
  unfold pollDeploymentStatus. generalize maxAttempts. intros n.
  eapply always_weaken; [|apply always_poll_loop].
  intros e. apply poll_event_upload_event.
Qed.


Lemma pollDeploymentStatus_returns w projectId envName deploymentId fs :
  exists tr, pollDeploymentStatus w projectId envName deploymentId fs
             = MkRun (Done tt) tr fs.
Proof. apply poll_loop_returns. Qed.

Section PrimitivesRun.
Context (w : World).

Lemma never_exits_statSync_size p : never_exits (statSync_size p).
Proof. intros fs c. unfold statSync_size. destruct (fs !! p); discriminate. Qed.

Lemma never_exits_readFileSync p : never_exits (readFileSync p).
Proof. intros fs c. unfold readFileSync. destruct (fs !! p); discriminate. Qed.

Lemma never_exits_api_get_upload_url ep : never_exits (api_get_upload_url w ep).
Proof. intros fs c. simpl. destruct (api_upload_url w ep); discriminate. Qed.

Lemma never_exits_axios_put t b ct : never_exits (axios_put w t b ct).
Proof. intros fs c. simpl. destruct (http_put w t b); discriminate. Qed.

Lemma never_exits_api_post_deploy ep b : never_exits (api_post_deploy w ep b).
Proof. intros fs c. simpl. destruct (api_deploy w ep b); discriminate. Qed.

Lemma never_exits_pollDeploymentStatus p e d : never_exits (pollDeploymentStatus w p e d).
Proof.
  intros fs c. destruct (pollDeploymentStatus_returns w p e d fs) as (tr & ->).
  discriminate.
Qed.

Lemma keeps_files_statSync_size p : keeps_files (statSync_size p).
Proof. intros fs. unfold statSync_size. destruct (fs !! p); reflexivity. Qed.

Lemma keeps_files_readFileSync p : keeps_files (readFileSync p).
Proof. intros fs. unfold readFileSync. destruct (fs !! p); reflexivity. Qed.

Lemma keeps_files_api_get_upload_url ep : keeps_files (api_get_upload_url w ep).
Proof. intros fs. reflexivity. Qed.

Lemma keeps_files_axios_put t b ct : keeps_files (axios_put w t b ct).
Proof. intros fs. reflexivity. Qed.

Lemma keeps_files_api_post_deploy ep b : keeps_files (api_post_deploy w ep b).
Proof. intros fs. reflexivity. Qed.

Lemma keeps_files_pollDeploymentStatus p e d : keeps_files (pollDeploymentStatus w p e d).
Proof.
  intros fs. destruct (pollDeploymentStatus_returns w p e d fs) as (tr & ->).
  reflexivity.
Qed.

End PrimitivesRun.

Ltac never_exits_tac :=
  repeat first
    [ eff_step never_exits_bind never_exits_try_catch never_exits_when
               never_exits_for_each
    | match goal with
      | |- never_exits (emit _) => apply never_exits_emit
      | |- never_exits (ret _) => apply never_exits_ret
      | |- never_exits (statSync_size _) => apply never_exits_statSync_size
      | |- never_exits (readFileSync _) => apply never_exits_readFileSync
      | |- never_exits (api_get_upload_url _ _) =>
          apply never_exits_api_get_upload_url
      | |- never_exits (axios_put _ _ _ _) => apply never_exits_axios_put
      | |- never_exits (api_post_deploy _ _ _) => apply never_exits_api_post_deploy
      | |- never_exits (pollDeploymentStatus _ _ _ _) =>
          apply never_exits_pollDeploymentStatus
      end ].

Ltac keeps_files_tac :=
  repeat first
    [ eff_step keeps_files_bind keeps_files_try_catch keeps_files_when
               keeps_files_for_each
    | match goal with
      | |- keeps_files (emit _) => apply keeps_files_emit
      | |- keeps_files (ret _) => apply keeps_files_ret
      | |- keeps_files (exit _) => apply keeps_files_exit
      | |- keeps_files (statSync_size _) => apply keeps_files_statSync_size
      | |- keeps_files (readFileSync _) => apply keeps_files_readFileSync
      | |- keeps_files (api_get_upload_url _ _) =>
          apply keeps_files_api_get_upload_url
      | |- keeps_files (axios_put _ _ _ _) => apply keeps_files_axios_put
      | |- keeps_files (api_post_deploy _ _ _) => apply keeps_files_api_post_deploy
      | |- keeps_files (pollDeploymentStatus _ _ _ _) =>
          apply keeps_files_pollDeploymentStatus
      end ].

Lemma never_exits_upload_and_release w options r tempZip key :
  never_exits (upload_and_release w options r tempZip key).
Proof. unfold upload_and_release. never_exits_tac. Qed.

Lemma keeps_files_upload_and_release w options r tempZip key :
  keeps_files (upload_and_release w options r tempZip key).
Proof. unfold upload_and_release. keeps_files_tac. Qed.

Lemma cleanup_run p fs :
  exists fs', cleanup p fs =
    MkRun (Done tt) (if existsSync fs p then [Unlink p] else []) fs'
    /\ fs' !! p = None.
Proof.
  unfold cleanup, existsSync, unlinkSync.
  destruct (fs !! p) eqn:E; eexists; (split; [reflexivity|]).
  - apply lookup_delete_eq.
  - exact E.
Qed.

Lemma upload_and_release_run w options r tempZip key fs :
  exists res tr,
    upload_and_release w options r tempZip key fs = MkRun res tr fs /\
    (forall code, res <> Exited code) /\
    Forall (upload_event w options r key) tr.
Proof.
  pose proof (always_upload_and_release w options r tempZip key fs) as Hev.
  pose proof (never_exits_upload_and_release w options r tempZip key fs) as Hne.
  pose proof (keeps_files_upload_and_release w options r tempZip key fs) as Hfs.
  destruct (upload_and_release w options r tempZip key fs) as [res tr fs'].
  simpl in *. subst fs'. eauto.
Qed.

Lemma attempt_run w options r pats tempZip key fs :
  exists res rest,
    attempt w options r pats tempZip key fs =
      MkRun res
            (Info "Creating deployment package..."
             :: Pack (cwd w) tempZip (Utils.pack_mode pats) :: rest)
            (packed w pats tempZip fs) /\
    (forall code, res <> Exited code) /\
    Forall (upload_event w options r key) rest.
Proof.
  unfold attempt, packed, bind at 1 2. simpl. unfold Utils.zipDirectory.
  destruct (pack w (cwd w) (Utils.pack_mode pats) fs) as [bytes|msg leftover]; simpl.
  - destruct (upload_and_release_run w options r tempZip key (<[tempZip:=bytes]> fs))
      as (res & tr & -> & Hne & Hev).
    exists res, tr. auto.
  - exists (Thrown msg), []. repeat split; [discriminate | constructor].
Qed.

Lemma release_run w options r fs :
  exists res rest fs',
    release w options r fs =
      MkRun res
            (Info "Creating deployment package..."
             :: Pack (cwd w) (tempZipPath w)
                     (Utils.pack_mode (Utils.readVafIgnore fs (cwd w)))
             :: rest ++
             (if existsSync (packed w (Utils.readVafIgnore fs (cwd w)) (tempZipPath w) fs)
                            (tempZipPath w)
              then [Unlink (tempZipPath w)] else []))
            fs' /\
    fs' !! tempZipPath w = None /\
    (forall code, res <> Exited code) /\
    Forall (upload_event w options r (clientKey w)) rest.
Proof.
  unfold release, bind, get_files, try_finally.
  destruct (attempt_run w options r (Utils.readVafIgnore fs (cwd w)) (tempZipPath w)
                        (clientKey w) fs) as (res & rest & -> & Hne & Hev).
  destruct (cleanup_run (tempZipPath w)
              (packed w (Utils.readVafIgnore fs (cwd w)) (tempZipPath w) fs))
    as (fs' & -> & Hgone).
  exists res, rest, fs'.
  destruct res as [[]|msg|code]; [| |exfalso; apply (Hne code); reflexivity];
    simpl; auto.
Qed.

Lemma resolution_run w pid env fs :
  exists tr, Forall is_console tr /\
    (resolution w pid env fs = MkRun (Exited 1) tr fs \/
     exists r, resolution w pid env fs = MkRun (Done r) tr fs).
Proof.
  unfold resolution, bind, loadVafConfig.
  destruct (load_first_run w configFiles fs) as (cfg & tr0 & -> & H0).
  destruct (resolve_run cfg pid env fs) as (tr1 & H1 & [-> | (r & ->)]);
    exists (tr0 ++ tr1); (split; [apply Forall_app; auto|]); eauto.
Qed.

(** The two ways a run of [deploy] can go. *)
Lemma deploy_run w pid env options fs :
  exists tr, Forall is_console tr /\
    ((resolution w pid env fs = MkRun (Exited 1) tr fs /\
      deploy w pid env options fs = MkRun (Exited 1) tr fs) \/
     (exists r btr tree,
        resolution w pid env fs = MkRun (Done r) tr fs /\
        build w (envConfig r) options fs = MkRun (Done tt) btr tree /\
        Forall console_or_exec btr /\
        deploy w pid env options fs =
          MkRun (result (release w options r tree))
                (tr ++ btr ++ trace (release w options r tree))
                (files (release w options r tree)))).
Proof.
  unfold deploy, resolution.
  destruct (load_first_run w configFiles fs) as (cfg & tr0 & Hload & H0).
  fold (loadVafConfig w) in Hload.
  rewrite !(bind_done _ _ _ _ _ _ Hload). unfold deploy_with.
  destruct (resolve_run cfg pid env fs) as (tr1 & H1 & [Hres | (r & Hres)]);
    exists (tr0 ++ tr1); (split; [apply Forall_app; auto|]).
  - left. rewrite (bind_exited _ _ _ _ _ _ Hres), Hres. split; reflexivity.
  - right. destruct (build_run w (envConfig r) options fs) as (btr & tree & Hb & Hbt).
    exists r, btr, tree. rewrite (bind_done _ _ _ _ _ _ Hres), Hres.
    split; [reflexivity|]. split; [exact Hb|]. split; [exact Hbt|].
    rewrite (bind_done _ _ _ _ _ _ Hb). cbn [result trace files].
    rewrite app_assoc. reflexivity.
Qed.

Lemma pack_events_app tr1 tr2 :
  pack_events (tr1 ++ tr2) = pack_events tr1 ++ pack_events tr2.
Proof. apply flat_map_app. Qed.

Lemma post_events_app tr1 tr2 :
  post_events (tr1 ++ tr2) = post_events tr1 ++ post_events tr2.
Proof. apply flat_map_app. Qed.

Lemma is_console_console_or_exec e : is_console e -> console_or_exec e.
Proof. destruct e; simpl; tauto. Qed.

Lemma pack_events_none (P : Event -> Prop) tr :
  (forall d o m, ~ P (Pack d o m)) -> Forall P tr -> pack_events tr = [].
Proof.
  intros HP H. induction H as [|e tr He _ IH]; simpl; [reflexivity|].
  rewrite IH. destruct e; try reflexivity. exfalso. eapply HP, He.
Qed.

Lemma post_events_none (P : Event -> Prop) tr :
  (forall ep b, ~ P (Post ep b)) -> Forall P tr -> post_events tr = [].
Proof.
  intros HP H. induction H as [|e tr He _ IH]; simpl; [reflexivity|].
  rewrite IH. destruct e; try reflexivity. exfalso. eapply HP, He.
Qed.

Lemma pack_events_console_or_exec tr : Forall console_or_exec tr -> pack_events tr = [].
Proof. apply pack_events_none. intros d o m H. exact H. Qed.

Lemma post_events_console_or_exec tr : Forall console_or_exec tr -> post_events tr = [].
Proof. apply post_events_none. intros d o H. exact H. Qed.

Lemma pack_events_upload w options r key tr :
  Forall (upload_event w options r key) tr -> pack_events tr = [].
Proof. apply pack_events_none. intros d o m H. exact H. Qed.

Lemma post_events_upload w options r key tr :
  Forall (upload_event w options r key) tr ->
  forall ep body, In (ep, body) (post_events tr) ->
    ep = deploy_endpoint (finalProjectId r) (finalEnvName r) /\
    body = deploymentParams options (envConfig r) key.
Proof.
  intros H. induction H as [|e tr He _ IH]; simpl; [tauto|].
  intros ep body Hin. apply in_app_or in Hin. destruct Hin as [Hin | Hin]; [|eauto].
  destruct e; simpl in Hin; try tauto.
  destruct Hin as [[= <- <-] | []]. exact He.
Qed.

Lemma in_post_events tr ep body : In (Post ep body) tr <-> In (ep, body) (post_events tr).
Proof.
  unfold post_events. rewrite in_flat_map. split.
  - intros H. exists (Post ep body). simpl. auto.
  - intros (e & He & Hin). destruct e; simpl in Hin; try tauto.
    destruct Hin as [[= <- <-] | []]. exact He.
Qed.

Lemma in_pack_events tr d o m : In (Pack d o m) tr <-> In (d, o, m) (pack_events tr).
Proof.
  unfold pack_events. rewrite in_flat_map. split.
  - intros H. exists (Pack d o m). simpl. auto.
  - intros (e & He & Hin). destruct e; simpl in Hin; try tauto.
    destruct Hin as [[= <- <- <-] | []]. exact He.
Qed.

(** Every release request of a run of [deploy] is the one built from the
    options, the resolved environment and the client's key. *)
Lemma deploy_post w pid env options fs ep body :
  In (Post ep body) (trace (deploy w pid env options fs)) ->
  exists r tr,
    resolution w pid env fs = MkRun (Done r) tr fs /\
    ep = deploy_endpoint (finalProjectId r) (finalEnvName r) /\
    body = deploymentParams options (envConfig r) (clientKey w).
Proof.
  intros Hin. apply in_post_events in Hin.
  destruct (deploy_run w pid env options fs)
    as (tr & Htr & [[_ Hd] | (r & btr & tree & Hres & Hb & Hbt & Hd)]);
    rewrite Hd in Hin; cbn [trace] in Hin.
  - rewrite (post_events_console_or_exec tr) in Hin; [destruct Hin|].
    eapply Forall_impl; [exact Htr|]. apply is_console_console_or_exec.
  - exists r, tr. split; [exact Hres|].
    destruct (release_run w options r tree) as (res & rest & fs' & Hr & _ & _ & Hev).
    rewrite Hr in Hin. cbn [trace] in Hin.
    rewrite !post_events_app in Hin.
    rewrite (post_events_console_or_exec tr), (post_events_console_or_exec btr) in Hin
      by first [assumption
               | eapply Forall_impl; [exact Htr | apply is_console_console_or_exec]].
    simpl in Hin. rewrite post_events_app in Hin.
    apply in_app_or in Hin. destruct Hin as [Hin | Hin].
    + eapply post_events_upload; eassumption.
    + destruct (existsSync _ _); simpl in Hin; tauto.
Qed.

(** ** Polling *)

Lemma fetches_pending_turns ep (d : nat -> ReleaseRecord) (l : list nat) :
  fetches (concat (map (fun n => pending_turn ep (d n)) l)) = length l.
Proof.
  induction l as [|n l IH]; [reflexivity|].
  cbn [map concat length]. rewrite fetches_app, fetches_pending_turn, IH. reflexivity.
Qed.

Lemma pending_turn_no_error ep d :
  Forall (fun e => forall m, e <> Err m) (pending_turn ep d).
Proof.
  unfold pending_turn, log_tail. repeat (constructor; [discriminate|]).
  apply Forall_app. split; [|repeat constructor; discriminate].
  destruct (truthy_opt (logs d)); [|constructor].
  apply Forall_forall. intros e He m. apply list_elem_of_In, in_map_iff in He.
  destruct He as (x & <- & _). discriminate.
Qed.

Lemma pending_turns_no_error ep (d : nat -> ReleaseRecord) (l : list nat) :
  Forall (fun e => forall m, e <> Err m)
         (concat (map (fun n => pending_turn ep (d n)) l)).
Proof.
  induction l as [|n l IH]; [constructor|].
  cbn [map concat]. apply Forall_app. split; [apply pending_turn_no_error | exact IH].
Qed.

Lemma fetches_success_turn ep d : fetches (success_turn ep d) = 1%nat.
Proof. unfold success_turn. destruct (truthy_opt (url d)); reflexivity. Qed.

Lemma fetches_failed_turn ep d : fetches (failed_turn ep d) = 1%nat.
Proof. unfold failed_turn. destruct (truthy_opt (logs d)); reflexivity. Qed.

(** C4: [pollDeploymentStatus] fetches the release record at most 60 times,
    waiting 5 seconds after every fetch that is not the last.  When the
    backend answers pending, pending, success, it stops at the third fetch
    and reports the success, with the URL when there is one; when the second
    answer is failed, it stops there and prints the logs; when the first 60
    answers are all pending, it stops with the warning and reports no
    error. *)
Theorem pollDeploymentStatus_scripted
    (w : World) (projectId envName deploymentId : string) (fs : Files) :
  let endpoint := release_url projectId envName deploymentId in
  let run := pollDeploymentStatus w projectId envName deploymentId fs in
  (result run = Done tt /\ files run = fs /\
   exists k : nat,
     (k = 60%nat /\ schedule (trace run) = cycles k endpoint) \/
     ((k < 60)%nat /\ schedule (trace run) = cycles k endpoint ++ [Get endpoint])) /\
  (forall d0 d1 d2,
     api_release w endpoint 0 = ApiOk d0 -> non_terminal d0 ->
     api_release w endpoint 1 = ApiOk d1 -> non_terminal d1 ->
     api_release w endpoint 2 = ApiOk d2 -> status d2 = "success" ->
     trace run = pending_turn endpoint d0 ++ pending_turn endpoint d1
                 ++ success_turn endpoint d2 /\
     fetches (trace run) = 3%nat) /\
  (forall d0 d1,
     api_release w endpoint 0 = ApiOk d0 -> non_terminal d0 ->
     api_release w endpoint 1 = ApiOk d1 -> status d1 = "failed" ->
     trace run = pending_turn endpoint d0 ++ failed_turn endpoint d1 /\
     fetches (trace run) = 2%nat) /\
  (forall d : nat -> ReleaseRecord,
     (forall n, (n < 60)%nat ->
        api_release w endpoint n = ApiOk (d n) /\ non_terminal (d n)) ->
     trace run = concat (map (fun n => pending_turn endpoint (d n)) (seq 0 60))
                 ++ [Warn "Deployment is taking longer than expected..."] /\
     fetches (trace run) = 60%nat /\
     Forall (fun e => forall m, e <> Err m) (trace run)).
Proof.
  intros endpoint run. subst run. unfold pollDeploymentStatus. fold endpoint.
  change maxAttempts with 60%nat.
  split; [|split; [|split]].
  - destruct (poll_loop_schedule w endpoint 60 0 fs) as (tr & k & -> & Hk).
    cbn [result trace files]. repeat split. exists k. exact Hk.
  - intros d0 d1 d2 E0 H0 E1 H1 E2 H2.
    assert (Hrun : poll_loop w endpoint 60 0 fs =
              MkRun (Done tt) (pending_turn endpoint d0 ++ pending_turn endpoint d1
                               ++ success_turn endpoint d2) fs).
    { cbn [poll_loop].
      rewrite (bind_done _ _ _ _ _ _ (poll_once_pending w endpoint 0 fs d0 E0 H0)).
      rewrite (bind_done _ _ _ _ _ _ (poll_once_pending w endpoint 1 fs d1 E1 H1)).
      rewrite (bind_done _ _ _ _ _ _ (poll_once_success w endpoint 2 fs d2 E2 H2)).
      cbn [result trace files ret]. rewrite app_nil_r. reflexivity. }
    rewrite Hrun. cbn [trace]. split; [reflexivity|].
    rewrite !fetches_app, !fetches_pending_turn, fetches_success_turn. reflexivity.
  - intros d0 d1 E0 H0 E1 H1.
    assert (Hrun : poll_loop w endpoint 60 0 fs =
              MkRun (Done tt) (pending_turn endpoint d0 ++ failed_turn endpoint d1) fs).
    { cbn [poll_loop].
      rewrite (bind_done _ _ _ _ _ _ (poll_once_pending w endpoint 0 fs d0 E0 H0)).
      rewrite (bind_done _ _ _ _ _ _ (poll_once_failed w endpoint 1 fs d1 E1 H1)).
      cbn [result trace files ret]. rewrite app_nil_r. reflexivity. }
    rewrite Hrun. cbn [trace]. split; [reflexivity|].
    rewrite !fetches_app, !fetches_pending_turn, fetches_failed_turn. reflexivity.
  - intros d Hd.
    rewrite (poll_loop_all_pending w endpoint d 60 0 fs)
      by (intros n Hn; apply Hd; lia).
    cbn [trace]. split; [reflexivity|]. split.
    + rewrite fetches_app, fetches_pending_turns, length_seq. reflexivity.
    + apply Forall_app. split; [apply pending_turns_no_error|].
      repeat constructor. discriminate.
Qed.

Lemma pollDeploymentStatus_scripted_witness :
  fetches (trace (pollDeploymentStatus Sample.world "42" "production" "rel-1" ∅))
    = 3%nat /\
  fetches (trace (pollDeploymentStatus Sample.world_failing "42" "production" "rel-1" ∅))
    = 2%nat /\
  fetches (trace (pollDeploymentStatus Sample.world_stuck "42" "production" "rel-1" ∅))
    = 60%nat.
Proof.
  split; [|split].
  - apply (proj1 (proj2 (pollDeploymentStatus_scripted
                           Sample.world "42" "production" "rel-1" ∅))
             Sample.pending Sample.pending Sample.succeeded);
      first [reflexivity | split; discriminate].
  - apply (proj1 (proj2 (proj2 (pollDeploymentStatus_scripted
                                  Sample.world_failing "42" "production" "rel-1" ∅)))
             Sample.pending Sample.failed);
      first [reflexivity | split; discriminate].
  - apply (proj2 (proj2 (proj2 (pollDeploymentStatus_scripted
                                  Sample.world_stuck "42" "production" "rel-1" ∅)))
             (fun _ => Sample.pending)).
    intros n Hn. split; [reflexivity | split; discriminate].
Defined.

(** ** Watch mode *)

Lemma last_default {A} (l : list A) (x d d' : A) :
  List.last (x :: l) d = List.last (x :: l) d'.
Proof.
  revert x. induction l as [|y l IH]; intros x; [reflexivity|].
  change (List.last (y :: l) d = List.last (y :: l) d'). apply IH.
Qed.

Lemma notify_burst duration (events : list (Z * string)) :
  forall t filePath s,
    Watch.deployTimer s = Some (t + Watch.debounce, filePath) ->
    burst_after t events ->
    let s' := fold_left (Watch.notify duration) events s in
    Watch.invocations s' = Watch.invocations s /\
    Watch.deployTimer s' =
      Some (fst (List.last events (t, filePath)) + Watch.debounce,
            snd (List.last events (t, filePath))).
Proof.
  induction events as [|[t' p'] rest IH]; intros t filePath s Ht Hb.
  - simpl. auto.
  - destruct Hb as (Hgap & Hq & Hrest).
    cbn [fold_left].
    assert (Hstep : Watch.notify duration s (t', p') =
              {| Watch.deployTimer := Some (t' + Watch.debounce, p');
                 Watch.invocations := Watch.invocations s |}).
    { unfold Watch.notify, Watch.advance, Watch.on_all. cbn [fst snd].
      rewrite Ht.
      destruct (Z.leb_spec (t + Watch.debounce) t') as [Hle|Hlt]; [lia|].
      rewrite Hq. reflexivity. }
    rewrite Hstep.
    specialize (IH t' p' {| Watch.deployTimer := Some (t' + Watch.debounce, p');
                            Watch.invocations := Watch.invocations s |}
                   eq_refl Hrest).
    cbn zeta in IH. cbn [Watch.invocations] in IH.
    destruct IH as [Hi Hd]. split; [exact Hi|].
    rewrite Hd. destruct rest as [|ev rest]; [reflexivity|].
    change (List.last ((t', p') :: ev :: rest) (t, filePath))
      with (List.last (ev :: rest) (t, filePath)).
    rewrite (last_default rest ev (t, filePath) (t', p')). reflexivity.
Qed.

(** C5 (amended): a burst of qualifying notifications, each less than 2
    seconds after the one before, ends in exactly one pipeline invocation,
    started 2 seconds after the last of them; so do three of them.  The
    handler keeps no in-flight flag: a notification that comes after the
    timer has fired arms it again, and the second invocation starts 2
    seconds later, whether the first has finished by then or not. *)
Theorem watch_debounce_no_in_flight_guard (duration : Z -> Z) :
  (forall t filePath rest,
     Watch.skipped filePath = false -> burst_after t rest ->
     Watch.watch duration ((t, filePath) :: rest) =
       let last := List.last rest (t, filePath) in
       let start := fst last + Watch.debounce in
       [{| Watch.started := start;
           Watch.finished := start + duration start;
           Watch.changed := snd last |}]) /\
  (forall t filePath t' filePath',
     Watch.skipped filePath = false -> Watch.skipped filePath' = false ->
     t + Watch.debounce <= t' ->
     Watch.watch duration [(t, filePath); (t', filePath')] =
       [{| Watch.started := t + Watch.debounce;
           Watch.finished := t + Watch.debounce + duration (t + Watch.debounce);
           Watch.changed := filePath |};
        {| Watch.started := t' + Watch.debounce;
           Watch.finished := t' + Watch.debounce + duration (t' + Watch.debounce);
           Watch.changed := filePath' |}]).
Proof.
  split.
  - intros t filePath rest Hq Hb. unfold Watch.watch. cbn [fold_left].
    assert (Hfirst : Watch.notify duration Watch.initial (t, filePath) =
              {| Watch.deployTimer := Some (t + Watch.debounce, filePath);
                 Watch.invocations := [] |}).
    { unfold Watch.notify, Watch.advance, Watch.on_all. cbn. rewrite Hq. reflexivity. }
    rewrite Hfirst.
    destruct (notify_burst duration rest t filePath
                {| Watch.deployTimer := Some (t + Watch.debounce, filePath);
                   Watch.invocations := [] |} eq_refl Hb) as [Hi Hd].
    unfold Watch.idle, Watch.fire. rewrite Hd, Hi. reflexivity.
  - intros t filePath t' filePath' Hq Hq' Hlate.
    unfold Watch.watch, Watch.notify, Watch.advance, Watch.on_all, Watch.idle, Watch.fire.
    cbn. rewrite Hq. cbn.
    destruct (Z.leb_spec (t + Watch.debounce) t') as [_|Hlt]; [|lia].
    cbn. rewrite Hq'. reflexivity.
Qed.

(** C5, as stated, fails: the pipeline takes 10 seconds, a second change
    comes 1 second into the first invocation, and the second invocation
    starts while the first is still in flight. *)
Lemma watch_overlapping_invocations :
  ~ serialized (Watch.watch (fun _ => 10000) [(0, "src/a.js"); (3000, "src/b.js")]).
Proof.
  intros H.
  apply (H 0%nat 1%nat
           {| Watch.started := 2000; Watch.finished := 12000; Watch.changed := "src/a.js" |}
           {| Watch.started := 5000; Watch.finished := 15000; Watch.changed := "src/b.js" |});
    [lia | reflexivity | reflexivity |].
  unfold Watch.overlap. cbn. lia.
Qed.

Lemma watch_debounce_no_in_flight_guard_witness :
  Watch.watch (fun _ => 10000) [(0, "src/a.js"); (500, "src/b.js"); (1900, "src/a.js")]
  = [{| Watch.started := 3900; Watch.finished := 13900; Watch.changed := "src/a.js" |}]
  /\
  Watch.watch (fun _ => 10000) [(0, "src/a.js"); (3000, "src/b.js")]
  = [{| Watch.started := 2000; Watch.finished := 12000; Watch.changed := "src/a.js" |};
     {| Watch.started := 5000; Watch.finished := 15000; Watch.changed := "src/b.js" |}].
Proof.
  split.
  - apply (proj1 (watch_debounce_no_in_flight_guard (fun _ => 10000))
             0 "src/a.js" [(500, "src/b.js"); (1900, "src/a.js")]).
    + reflexivity.
    + cbn. unfold Watch.debounce. repeat split; lia.
  - apply (proj2 (watch_debounce_no_in_flight_guard (fun _ => 10000))
             0 "src/a.js" 3000 "src/b.js"); [reflexivity | reflexivity |].
    unfold Watch.debounce. lia.
Defined.

(** ** The deploy command *)

(** A run that succeeds: build, package, upload, release, three fetches,
    clean-up. *)
Example deploy_production_run :
  deploy Sample.world None (Some "production") Sample.no_options Sample.tree =
    MkRun (Done tt)
      [Info "Running build commands..."; Info "Running: npm ci"; Exec "npm ci";
       Info "Running: npm run build:prod"; Exec "npm run build:prod";
       Success "Build commands completed";
       Info "Creating deployment package...";
       Pack "/app" "/app/.vaf-deploy-temp-1700000000123.zip"
            (Glob ["node_modules/**"; ".git/**"; "*.log"; ".env"; ".DS_Store"]);
       Info "Package size: 10 Bytes"; Info "Getting upload URL...";
       Get "/api/projects/42/environments/production/deployment/upload-url";
       Info "Uploading package...";
       Put "https://bucket.example/put" "PK-archive" "application/zip";
       Info "Triggering deployment...";
       Post Sample.endpoint
            {| deploymentKey := "deployments/1700000000123-package.zip";
               runtime := "nodejs20.x"; handler := "index.handler";
               memory := Some 3008; timeout := Some 900;
               database := Some "prd-db"; cache := None;
               storage := Some "prd-storage" |};
       Success "Deployment initiated: rel-1";
       Get "/api/projects/42/environments/production/deployment/rel-1";
       Log "Status: pending"; Sleep 5000;
       Get "/api/projects/42/environments/production/deployment/rel-1";
       Log "Status: pending"; Sleep 5000;
       Get "/api/projects/42/environments/production/deployment/rel-1";
       Log "Status: success"; Success "Deployment completed successfully!";
       Log "URL: https://fn.example/prod";
       Unlink "/app/.vaf-deploy-temp-1700000000123.zip"]
      Sample.tree.
Proof. vm_compute. reflexivity. Qed.

(** A run whose upload is refused: the archive is removed, then the command
    reports the error and exits. *)
Example refused_upload_run :
  action Sample.world_upload_refused None (Some "production") Sample.no_options
         Sample.tree =
    MkRun (Exited 1)
      [Info "Running build commands..."; Info "Running: npm ci"; Exec "npm ci";
       Info "Running: npm run build:prod"; Exec "npm run build:prod";
       Success "Build commands completed";
       Info "Creating deployment package...";
       Pack "/app" "/app/.vaf-deploy-temp-1700000000123.zip"
            (Glob ["node_modules/**"; ".git/**"; "*.log"; ".env"; ".DS_Store"]);
       Info "Package size: 10 Bytes"; Info "Getting upload URL...";
       Get "/api/projects/42/environments/production/deployment/upload-url";
       Info "Uploading package...";
       Put "https://bucket.example/put" "PK-archive" "application/zip";
       Unlink "/app/.vaf-deploy-temp-1700000000123.zip";
       Err "Request failed with status code 403"]
      Sample.tree.
Proof. vm_compute. reflexivity. Qed.

Lemma pretty_N_go_length (x : N) (s : string) :
  (String.length s <= String.length (pretty_N_go x s))%nat.
Proof.
  revert s. induction (N.lt_wf_0 x) as [x _ IH]; intros s.
  destruct (N.eq_dec x 0%N) as [->|Hx].
  - rewrite pretty_N_go_0. lia.
  - rewrite pretty_N_go_step by lia.
    etransitivity; [|apply IH, N.div_lt; lia]. simpl. lia.
Qed.

(** [n.toString()] is never the empty string. *)
Lemma pretty_Z_truthy (z : Z) : truthy (pretty z) = true.
Proof.
  apply truthy_true. intros E.
  assert (Hpos : forall p : positive, pretty (N.pos p) <> EmptyString).
  { intros p Hp. unfold pretty, pretty_N in Hp.
    destruct (decide (N.pos p = 0%N)) as [|_]; [discriminate|].
    rewrite pretty_N_go_step in Hp by lia.
    pose proof (pretty_N_go_length (N.pos p `div` 10)%N
                  (String (pretty_N_char (N.pos p `mod` 10)%N) EmptyString)) as Hl.
    rewrite Hp in Hl. simpl in Hl. lia. }
  destruct z as [|p|p]; unfold pretty, pretty_Z in E.
  - discriminate E.
  - apply (Hpos p). exact E.
  - discriminate E.
Qed.

Lemma loadVafConfig_project_file w fs :
  loadVafConfig w fs =
    match project_file w fs with
    | None => MkRun (Done None) [] fs
    | Some (configFile, content) =>
        match yaml_load w content with
        | YamlOk doc => MkRun (Done doc) [] fs
        | YamlFail error =>
            MkRun (Done None)
                  [Err ("Failed to parse " +:+ configFile +:+ ": " +:+ error)] fs
        end
    end.
Proof.
  unfold loadVafConfig, configFiles, project_file. cbn [load_first].
  destruct (fs !! path_join (cwd w) "vaf.yml") as [c|].
  - destruct (yaml_load w c); reflexivity.
  - destruct (fs !! path_join (cwd w) "vapor.yml") as [c|]; [|reflexivity].
    destruct (yaml_load w c); reflexivity.
Qed.

Lemma own_property_undeclared envs name :
  ~ In name (map fst envs) -> own_property envs name = None.
Proof.
  induction envs as [|[k v] envs IH]; intros H; simpl in *; [reflexivity|].
  destruct (String.eqb_spec k name) as [->|Hne]; [tauto|]. apply IH. tauto.
Qed.

Lemma env_get_undeclared envs name :
  ~ In name (map fst envs) -> ~ In name object_prototype_keys ->
  env_get envs name = None.
Proof.
  intros Hown Hproto. unfold env_get. rewrite own_property_undeclared by exact Hown.
  destruct (existsb (String.eqb name) object_prototype_keys) eqn:E; [|reflexivity].
  apply existsb_exists in E. destruct E as (k & Hin & Heq).
  apply String.eqb_eq in Heq. subst k. contradiction.
Qed.

(** C7 (amended): when the project file is present and parses, and the
    environment name given is not declared in it (nor a member every
    JavaScript object inherits), the command prints the error, then the
    declared environment names one per line in their order, and ends the
    process with status 1; it touches nothing.  The names are console lines:
    the exit status is all that is returned. *)
Theorem unknown_environment_is_logged
    (w : World) (fs : Files) (projectId : option string) (name : string)
    (options : DeployOptions) (configFile content : string) (cfg : VafConfig) :
  project_file w fs = Some (configFile, content) ->
  yaml_load w content = YamlOk (Some cfg) ->
  name <> EmptyString ->
  ~ In name (env_names cfg) ->
  ~ In name object_prototype_keys ->
  deploy w projectId (Some name) options fs =
    MkRun (Exited 1)
          ([Err ("Environment " +:+ quoted name +:+ " not found in vaf.yml");
            Info "Available environments:"]
           ++ map (fun env => Log ("  - " +:+ env)) (env_names cfg))
          fs.
Proof.
  intros Hfile Hyaml Hname Hundeclared Hproto.
  assert (Hload : loadVafConfig w fs = MkRun (Done (Some cfg)) [] fs).
  { rewrite loadVafConfig_project_file, Hfile, Hyaml. reflexivity. }
  unfold deploy. rewrite (bind_done _ _ _ _ _ _ Hload). unfold deploy_with.
  assert (Hres : resolve (Some cfg) projectId (Some name) fs =
            MkRun (Exited 1)
              ([Err ("Environment " +:+ quoted name +:+ " not found in vaf.yml");
                Info "Available environments:"]
               ++ map (fun env => Log ("  - " +:+ env)) (env_names cfg)) fs).
  { unfold resolve. apply truthy_true in Hname.
    cbn [truthy_opt]. rewrite Hname. cbn [negb andb when].
    rewrite (env_get_undeclared _ _ Hundeclared Hproto).
    destruct projectId as [[|c p]|]; cbn [truthy_opt truthy];
      rewrite ?pretty_Z_truthy; cbn [andb];
      unfold bind, emit, ret, exit; rewrite list_environments_run;
      cbn [app]; rewrite app_nil_r; reflexivity. }
  rewrite (bind_exited _ _ _ _ _ _ Hres). reflexivity.
Qed.

(** C7, as stated, fails: two project files that declare different
    environments end in the same value, so no structured error value tells
    the declared names. *)
Lemma error_value_does_not_carry_names : ~ error_value_carries_names.
Proof.
  intros [names_of H].
  pose proof (H Sample.world Sample.tree None "qa" Sample.no_options
                "vaf.yml" "id: 42" Sample.project) as H1.
  pose proof (H Sample.world Sample.other_tree None "qa" Sample.no_options
                "vaf.yml" "id: 7" Sample.staging_only) as H2.
  assert (E1 : result (deploy Sample.world None (Some "qa") Sample.no_options Sample.tree)
               = Exited 1) by (vm_compute; reflexivity).
  assert (E2 : result (deploy Sample.world None (Some "qa") Sample.no_options
                              Sample.other_tree) = Exited 1) by (vm_compute; reflexivity).
  rewrite E1 in H1. rewrite E2 in H2.
  assert (A1 : names_of (Exited 1) = env_names Sample.project).
  { apply H1; first [reflexivity | discriminate | not_in_list]. }
  assert (A2 : names_of (Exited 1) = env_names Sample.staging_only).
  { apply H2; first [reflexivity | discriminate | not_in_list]. }
  rewrite A1 in A2. discriminate A2.
Qed.

Lemma unknown_environment_is_logged_witness :
  deploy Sample.world None (Some "qa") Sample.no_options Sample.tree =
    MkRun (Exited 1)
          [Err ("Environment " +:+ quoted "qa" +:+ " not found in vaf.yml");
           Info "Available environments:";
           Log "  - develop"; Log "  - production"]
          Sample.tree.
Proof.
  apply (unknown_environment_is_logged Sample.world Sample.tree None "qa"
           Sample.no_options "vaf.yml" "id: 42" Sample.project);
    first [reflexivity | discriminate | not_in_list].
Defined.

Lemma run_eta {A} (r : Run A) : MkRun (result r) (trace r) (files r) = r.
Proof. destruct r; reflexivity. Qed.

Lemma resolve_without_config_missing projectId envName fs :
  truthy_opt projectId = false \/ truthy_opt envName = false ->
  resolve None projectId envName fs =
    MkRun (Exited 1)
          [Err "Project ID and environment name are required";
           Info "Either provide them as arguments or configure vaf.yml"] fs.
Proof.
  intros H. unfold resolve.
  destruct projectId as [[|c p]|], envName as [[|c' n]|];
    cbn [truthy_opt truthy] in H; try (destruct H; discriminate); reflexivity.
Qed.

Lemma resolve_without_config_given projectId envName fs :
  truthy_opt projectId = true -> truthy_opt envName = true ->
  resolve None projectId envName fs =
    MkRun (Done {| finalProjectId := pick projectId EmptyString;
                   finalEnvName := pick envName EmptyString;
                   envConfig := None |}) [] fs.
Proof.
  intros Hp He. unfold resolve.
  destruct projectId as [[|c p]|], envName as [[|c' n]|];
    cbn [truthy_opt truthy] in Hp, He; try discriminate; reflexivity.
Qed.

Lemma build_fallback_run w options fs :
  exists rest tree,
    build w None options fs =
      MkRun (Done tt) (Info "Building application..." :: Exec "npm run build" :: rest)
            tree.
Proof.
  unfold build. cbn [mbind option_bind].
  unfold bind, try_catch, execAsync, when, emit, ret.
  destruct (exec_ok (exec w "npm run build" fs)); [destruct (truthy _)|];
    eexists _, _; reflexivity.
Qed.

(** C10: when the project file that [loadVafConfig] settles on does not
    parse, [loadVafConfig] reports the parse failure and returns null, and
    [deploy] goes on as it does without a project file: with the project
    identifier or the environment name missing from the arguments, it stops
    with the missing-identifier error; with both given, it builds and
    packages. *)
Theorem unparsable_project_file_is_ignored
    (w : World) (fs : Files) (projectId envName : option string)
    (options : DeployOptions) (configFile content error : string) :
  project_file w fs = Some (configFile, content) ->
  yaml_load w content = YamlFail error ->
  let parse_error := Err ("Failed to parse " +:+ configFile +:+ ": " +:+ error) in
  let without := deploy_with w None projectId envName options fs in
  loadVafConfig w fs = MkRun (Done None) [parse_error] fs /\
  deploy w projectId envName options fs =
    MkRun (result without) (parse_error :: trace without) (files without) /\
  (forall fs0, project_file w fs0 = None ->
     deploy w projectId envName options fs0 =
       deploy_with w None projectId envName options fs0) /\
  (truthy_opt projectId = false \/ truthy_opt envName = false ->
     deploy w projectId envName options fs =
       MkRun (Exited 1)
             [parse_error;
              Err "Project ID and environment name are required";
              Info "Either provide them as arguments or configure vaf.yml"] fs) /\
  (truthy_opt projectId = true -> truthy_opt envName = true ->
     exists rest mode,
       trace (deploy w projectId envName options fs) =
         parse_error :: Info "Building application..." :: Exec "npm run build" :: rest /\
       In (Pack (cwd w) (tempZipPath w) mode) rest /\
       forall code, result (deploy w projectId envName options fs) <> Exited code).
Proof.
  intros Hfile Hyaml parse_error without.
  assert (Hload : loadVafConfig w fs = MkRun (Done None) [parse_error] fs).
  { rewrite loadVafConfig_project_file, Hfile, Hyaml. reflexivity. }
  assert (Hdeploy : deploy w projectId envName options fs =
            MkRun (result without) (parse_error :: trace without) (files without)).
  { unfold deploy. rewrite (bind_done _ _ _ _ _ _ Hload). reflexivity. }
  split; [exact Hload|]. split; [exact Hdeploy|]. split; [|split].
  - intros fs0 Hnone. unfold deploy.
    assert (Hload0 : loadVafConfig w fs0 = MkRun (Done None) [] fs0).
    { rewrite loadVafConfig_project_file, Hnone. reflexivity. }
    rewrite (bind_done _ _ _ _ _ _ Hload0). cbn [app]. apply run_eta.
  - intros Hmissing. rewrite Hdeploy. subst without. unfold deploy_with.
    rewrite (bind_exited _ _ _ _ _ _
               (resolve_without_config_missing projectId envName fs Hmissing)).
    reflexivity.
  - intros Hp He. rewrite Hdeploy. subst without. unfold deploy_with.
    rewrite (bind_done _ _ _ _ _ _ (resolve_without_config_given projectId envName fs Hp He)).
    cbn [envConfig app].
    destruct (build_fallback_run w options fs) as (brest & tree & Hb).
    rewrite (bind_done _ _ _ _ _ _ Hb).
    destruct (release_run w options
                {| finalProjectId := pick projectId EmptyString;
                   finalEnvName := pick envName EmptyString;
                   envConfig := None |} tree)
      as (res & rest & fs' & Hr & _ & Hne & _).
    rewrite Hr. cbn [result trace files].
    eexists _, _. split; [reflexivity|]. split; [|exact Hne].
    apply in_or_app. right. right. left. reflexivity.
Qed.

Lemma packed_exists w pats tempZip tree bytes :
  pack w (cwd w) (Utils.pack_mode pats) tree = PackOk bytes ->
  existsSync (packed w pats tempZip tree) tempZip = true.
Proof.
  intros H. unfold packed, Utils.zipDirectory, existsSync. rewrite H.
  cbn [files]. rewrite lookup_insert_eq. reflexivity.
Qed.

Lemma action_run w pid env options fs :
  truthy_opt (token w) = true ->
  let run := deploy w pid env options fs in
  action w pid env options fs =
    match result run with
    | Thrown message =>
        MkRun (Exited 1)
              (trace run ++ [Err (pick (Some message) "Failed to deploy")]) (files run)
    | _ => run
    end.
Proof.
  intros Htoken run. unfold action, try_catch, bind, when. rewrite Htoken.
  cbn [negb ret]. fold run. destruct run as [[[]|msg|code] tr fs']; cbn; try reflexivity.
Qed.

(** An attempt that runs to its end, alone in the process: a run of
    [deploy] either stops before packaging, having created nothing, or it
    packs the temporary archive and, whether the rest succeeds or throws,
    the archive is gone from the tree when the run ends; when packaging
    succeeded, removing it is the last thing the run does.  The command
    reports a failure only after that. *)
Lemma finished_attempt_has_removed_its_archive
    (w : World) (projectId envName : option string) (options : DeployOptions)
    (fs : Files) :
  let run := deploy w projectId envName options fs in
  let tempZip := tempZipPath w in
  ((result run = Exited 1 /\ files run = fs /\ pack_events (trace run) = []) \/
   (exists before rest removal tree,
      trace run =
        before ++ Pack (cwd w) tempZip
                       (Utils.pack_mode (Utils.readVafIgnore tree (cwd w)))
               :: rest ++ removal /\
      Forall console_or_exec before /\
      Forall (fun e => e <> Unlink tempZip) rest /\
      (removal = [Unlink tempZip] \/ removal = []) /\
      (forall bytes,
         pack w (cwd w) (Utils.pack_mode (Utils.readVafIgnore tree (cwd w))) tree
           = PackOk bytes -> removal = [Unlink tempZip]) /\
      files run !! tempZip = None /\
      (result run = Done tt \/ exists message, result run = Thrown message))) /\
  (truthy_opt (token w) = true ->
   files (action w projectId envName options fs) = files run /\
   exists report,
     trace (action w projectId envName options fs) = trace run ++ report /\
     Forall is_console report).
Proof.
  intros run tempZip. split.
  - subst run.
    destruct (deploy_run w projectId envName options fs)
      as (tr & Htr & [[_ Hd] | (r & btr & tree & Hres & Hb & Hbt & Hd)]);
      rewrite Hd; cbn [result trace files].
    + left. repeat split. apply pack_events_console_or_exec.
      eapply Forall_impl; [exact Htr | apply is_console_console_or_exec].
    + right.
      destruct (release_run w options r tree) as (res & rest & fs' & Hr & Hgone & Hne & Hev).
      rewrite Hr. cbn [result trace files].
      exists (tr ++ btr ++ [Info "Creating deployment package..."]), rest,
        (if existsSync (packed w (Utils.readVafIgnore tree (cwd w)) (tempZipPath w) tree)
                       (tempZipPath w)
         then [Unlink (tempZipPath w)] else []), tree.
      split; [rewrite <- !app_assoc; reflexivity|].
      split.
      { apply Forall_app. split.
        - eapply Forall_impl; [exact Htr | apply is_console_console_or_exec].
        - apply Forall_app. split; [exact Hbt | repeat constructor]. }
      split.
      { eapply Forall_impl; [exact Hev|]. intros e He ->. exact He. }
      split; [destruct (existsSync _ _); auto|].
      split.
      { intros bytes Hpack. subst tempZip. rewrite (packed_exists _ _ _ _ _ Hpack).
        reflexivity. }
      split; [exact Hgone|].
      destruct res as [[]|msg|code]; [left; reflexivity | right; eauto |].
      exfalso. apply (Hne code). reflexivity.
  - intros Htoken. rewrite (action_run w projectId envName options fs Htoken).
    fold run. destruct (result run) as [[]|msg|code]; cbn [files trace].
    + split; [reflexivity|]. exists []. rewrite app_nil_r. split; [reflexivity|constructor].
    + split; [reflexivity|]. eexists. split; [reflexivity|]. repeat constructor.
    + split; [reflexivity|]. exists []. rewrite app_nil_r. split; [reflexivity|constructor].
Qed.

(** In this revision, without an ignore file, the list the package is built
    with excludes the dependency directory. *)
Lemma zip_excludes_dependencies_by_default : ~ zip_bundles_dependencies.
Proof.
  intros H.
  specialize (H Sample.world None (Some "production") Sample.no_options Sample.tree
                "/app" "/app/.vaf-deploy-temp-1700000000123.zip"
                ["node_modules/**"; ".git/**"; "*.log"; ".env"; ".DS_Store"]).
  assert (Hfalse : excludes_dependencies "node_modules/**" = false).
  { apply H; [vm_compute; in_list | in_list]. }
  vm_compute in Hfalse. discriminate Hfalse.
Qed.

(** What a run of [deploy] packs, once the identifiers are resolved. *)
Lemma deploy_pack_events w projectId envName options fs r tr :
  resolution w projectId envName fs = MkRun (Done r) tr fs ->
  exists btr tree,
    build w (envConfig r) options fs = MkRun (Done tt) btr tree /\
    pack_events (trace (deploy w projectId envName options fs)) =
      [(cwd w, tempZipPath w, Utils.pack_mode (Utils.readVafIgnore tree (cwd w)))].
Proof.
  intros Hres.
  destruct (deploy_run w projectId envName options fs)
    as (tr' & Htr & [[Hres' _] | (r' & btr & tree & Hres' & Hb & Hbt & Hd)]);
    rewrite Hres in Hres'; [discriminate Hres'|].
  injection Hres' as <- <-.
  exists btr, tree. split; [exact Hb|]. rewrite Hd. cbn [trace].
  destruct (release_run w options r tree) as (res & rest & fs' & Hr & _ & _ & Hev).
  rewrite Hr. cbn [trace].
  rewrite !pack_events_app.
  rewrite (pack_events_console_or_exec tr)
    by (eapply Forall_impl; [exact Htr | apply is_console_console_or_exec]).
  rewrite (pack_events_console_or_exec btr) by exact Hbt.
  cbn [app pack_events flat_map]. rewrite flat_map_app.
  fold (pack_events rest). rewrite (pack_events_upload _ _ _ _ _ Hev).
  destruct (existsSync _ _); reflexivity.
Qed.

(** In this revision the backend issues a key with the upload URL and the
    release request names another one. *)
Lemma release_carries_client_key : ~ release_carries_backend_key.
Proof.
  intros H.
  specialize (H Sample.world None (Some "production") Sample.no_options Sample.tree
                "/api/projects/42/environments/production/deployment/deploy"
                (deploymentParams Sample.no_options (Some Sample.production)
                                  "deployments/1700000000123-package.zip")
                {| finalProjectId := "42"; finalEnvName := "production";
                   envConfig := Some Sample.production |}
                []
                {| uploadUrl := "https://bucket.example/put";
                   key := Some "uploads/7f3a/package.zip" |}
                "uploads/7f3a/package.zip").
  assert (Hkey : deploymentKey
            (deploymentParams Sample.no_options (Some Sample.production)
                              "deployments/1700000000123-package.zip")
          = "uploads/7f3a/package.zip").
  { apply H; [vm_compute; in_list | vm_compute; reflexivity | reflexivity | reflexivity]. }
  discriminate Hkey.
Qed.

(** What this revision does: the [deploymentKey] of the release request
    is the key the client forms from the time of the attempt,
    [deployments/<timestamp>-package.zip], the timestamp being the one in the
    name of the temporary archive, whatever the answer to the upload-url
    request holds. *)
Lemma release_names_client_generated_key
    (w : World) (projectId envName : option string) (options : DeployOptions)
    (fs : Files) (endpoint : string) (body : DeploymentParams) :
  In (Post endpoint body) (trace (deploy w projectId envName options fs)) ->
  deploymentKey body = "deployments/" +:+ pretty (now w) +:+ "-package.zip" /\
  exists mode,
    In (Pack (cwd w)
             (path_join (cwd w) (".vaf-deploy-temp-" +:+ pretty (now w) +:+ ".zip"))
             mode)
       (trace (deploy w projectId envName options fs)).
Proof.
  intros Hin.
  destruct (deploy_post w projectId envName options fs endpoint body Hin)
    as (r & tr & Hres & _ & ->).
  split; [reflexivity|].
  destruct (deploy_pack_events w projectId envName options fs r tr Hres)
    as (btr & tree & Hb & Hpacks).
  eexists. apply in_pack_events. rewrite Hpacks. left. reflexivity.
Qed.

Lemma pick_three_tiers (override declared : option string) (fallback : string) :
  three_tiers override declared (Some fallback)
              (Some (pick override (pick declared fallback))).
Proof.
  unfold three_tiers.
  destruct override as [[|c s]|], declared as [[|c' s']|]; cbn; repeat split;
    intros; try discriminate; reflexivity.
Qed.

Lemma first_truthy_three_tiers (override declared : option string) :
  three_tiers override declared None (first_truthy override declared).
Proof.
  unfold three_tiers, first_truthy.
  destruct override as [[|c s]|], declared as [[|c' s']|]; cbn; repeat split;
    intros; try discriminate; reflexivity.
Qed.

Lemma first_defined_three_tiers (override declared : option Z) :
  three_tiers_number override declared (first_defined override declared).
Proof.
  unfold three_tiers_number, first_defined. split.
  - intros n ->. reflexivity.
  - intros ->. reflexivity.
Qed.

Lemma first_truthy_sent_when_non_empty (override declared : option string) :
  sent_when_non_empty override declared (first_truthy override declared).
Proof.
  unfold sent_when_non_empty, first_truthy.
  destruct override as [[|c s]|], declared as [[|c' s']|]; cbn;
    repeat split; intros; try discriminate; try tauto;
    try (destruct H; discriminate); try (injection H as <-; auto; discriminate).
Qed.

(** In this revision a database reference made of three spaces is sent as
    it is. *)
Lemma blank_reference_is_sent : ~ optional_references_trimmed.
Proof.
  intros H.
  apply (H Sample.world None (Some "develop") Sample.blank_database Sample.tree
           "/api/projects/42/environments/develop/deployment/deploy"
           (deploymentParams Sample.blank_database (Some Sample.develop)
                             "deployments/1700000000123-package.zip")
           "   ").
  - vm_compute. in_list.
  - left. reflexivity.
  - vm_compute. reflexivity.
Qed.

(** What this revision does: each of the database, cache and storage
    references is in the release request exactly when the override or,
    failing that, the declared value is a non-empty string; it is sent as
    given, and never as the empty string. *)
Lemma optional_references_sent_when_non_empty
    (w : World) (projectId envName : option string) (options : DeployOptions)
    (fs : Files) (endpoint : string) (body : DeploymentParams) :
  In (Post endpoint body) (trace (deploy w projectId envName options fs)) ->
  exists r tr,
    resolution w projectId envName fs = MkRun (Done r) tr fs /\
    sent_when_non_empty (opt_database options) (envConfig r ≫= env_database)
                        (database body) /\
    sent_when_non_empty (opt_cache options) (envConfig r ≫= env_cache) (cache body) /\
    sent_when_non_empty (opt_storage options) (envConfig r ≫= env_storage)
                        (storage body).
Proof.
  intros Hin.
  destruct (deploy_post w projectId envName options fs endpoint body Hin)
    as (r & tr & Hres & _ & ->).
  exists r, tr. split; [exact Hres|].
  cbn [deploymentParams database cache storage].
  split; [apply first_truthy_sent_when_non_empty|].
  split; apply first_truthy_sent_when_non_empty.
Qed.

(** In this revision, when the environment declares a handler and no
    override is given, the request carries the default. *)
Lemma declared_handler_is_ignored : ~ declared_handler_is_used.
Proof.
  intros H.
  specialize (H Sample.world None (Some "production") Sample.no_options Sample.tree
                "/api/projects/42/environments/production/deployment/deploy"
                (deploymentParams Sample.no_options (Some Sample.production)
                                  "deployments/1700000000123-package.zip")
                {| finalProjectId := "42"; finalEnvName := "production";
                   envConfig := Some Sample.production |}
                [] "app.main").
  assert (Hh : handler (deploymentParams Sample.no_options (Some Sample.production)
                          "deployments/1700000000123-package.zip") = "app.main").
  { apply H; [vm_compute; in_list | vm_compute; reflexivity | reflexivity
             | reflexivity | discriminate]. }
  discriminate Hh.
Qed.

(** What this revision does: in the release request, runtime, memory,
    timeout, database, cache and storage each follow, independently, the
    precedence override, then value declared by the environment, then
    default (for runtime [nodejs18.x]; for the others, leaving the field
    out); the handler has the override and the default only.  A textual
    override counts as given when it is not empty. *)
Lemma release_fields_follow_precedence
    (w : World) (projectId envName : option string) (options : DeployOptions)
    (fs : Files) (endpoint : string) (body : DeploymentParams) :
  In (Post endpoint body) (trace (deploy w projectId envName options fs)) ->
  exists r tr,
    resolution w projectId envName fs = MkRun (Done r) tr fs /\
    three_tiers (opt_runtime options) (envConfig r ≫= env_runtime)
                (Some "nodejs18.x") (Some (runtime body)) /\
    three_tiers (opt_handler options) None
                (Some "index.handler") (Some (handler body)) /\
    three_tiers_number (opt_memory options) (envConfig r ≫= env_memory) (memory body) /\
    three_tiers_number (opt_timeout options) (envConfig r ≫= env_timeout) (timeout body) /\
    three_tiers (opt_database options) (envConfig r ≫= env_database) None (database body) /\
    three_tiers (opt_cache options) (envConfig r ≫= env_cache) None (cache body) /\
    three_tiers (opt_storage options) (envConfig r ≫= env_storage) None (storage body).
Proof.
  intros Hin.
  destruct (deploy_post w projectId envName options fs endpoint body Hin)
    as (r & tr & Hres & _ & ->).
  exists r, tr. split; [exact Hres|].
  cbn [deploymentParams runtime handler memory timeout database cache storage].
  split; [apply pick_three_tiers|].
  split; [apply (pick_three_tiers (opt_handler options) None)|].
  split; [apply first_defined_three_tiers|].
  split; [apply first_defined_three_tiers|].
  split; [apply first_truthy_three_tiers|].
  split; apply first_truthy_three_tiers.
Qed.

Lemma unparsable_project_file_is_ignored_witness :
  deploy Sample.world None (Some "production") Sample.no_options Sample.broken_tree =
    MkRun (Exited 1)
          [Err "Failed to parse vapor.yml: YAMLException: bad indentation";
           Err "Project ID and environment name are required";
           Info "Either provide them as arguments or configure vaf.yml"]
          Sample.broken_tree.
Proof.
  apply (proj1 (proj2 (proj2 (proj2
           (unparsable_project_file_is_ignored Sample.world Sample.broken_tree
              None (Some "production") Sample.no_options
              "vapor.yml" "id: [42" "YAMLException: bad indentation"
              eq_refl eq_refl))))).
  left. reflexivity.
Defined.

Lemma release_names_client_generated_key_witness :
  deploymentKey Sample.request = "deployments/1700000000123-package.zip" /\
  exists mode,
    In (Pack "/app" "/app/.vaf-deploy-temp-1700000000123.zip" mode)
       (trace (deploy Sample.world None (Some "production") Sample.no_options
                      Sample.tree)).
Proof.
  apply (release_names_client_generated_key Sample.world None (Some "production")
           Sample.no_options Sample.tree Sample.endpoint Sample.request).
  vm_compute. in_list.
Defined.

Lemma optional_references_sent_when_non_empty_witness :
  exists r tr,
    resolution Sample.world None (Some "production") Sample.tree
      = MkRun (Done r) tr Sample.tree /\
    sent_when_non_empty (opt_database Sample.no_options) (envConfig r ≫= env_database)
                        (database Sample.request) /\
    sent_when_non_empty (opt_cache Sample.no_options) (envConfig r ≫= env_cache)
                        (cache Sample.request) /\
    sent_when_non_empty (opt_storage Sample.no_options) (envConfig r ≫= env_storage)
                        (storage Sample.request).
Proof.
  apply (optional_references_sent_when_non_empty Sample.world None (Some "production")
           Sample.no_options Sample.tree Sample.endpoint Sample.request).
  vm_compute. in_list.
Defined.

Lemma release_fields_follow_precedence_witness :
  exists r tr,
    resolution Sample.world None (Some "production") Sample.tree
      = MkRun (Done r) tr Sample.tree /\
    three_tiers (opt_runtime Sample.no_options) (envConfig r ≫= env_runtime)
                (Some "nodejs18.x") (Some (runtime Sample.request)) /\
    three_tiers (opt_handler Sample.no_options) None
                (Some "index.handler") (Some (handler Sample.request)) /\
    three_tiers_number (opt_memory Sample.no_options) (envConfig r ≫= env_memory)
                       (memory Sample.request) /\
    three_tiers_number (opt_timeout Sample.no_options) (envConfig r ≫= env_timeout)
                       (timeout Sample.request) /\
    three_tiers (opt_database Sample.no_options) (envConfig r ≫= env_database) None
                (database Sample.request) /\
    three_tiers (opt_cache Sample.no_options) (envConfig r ≫= env_cache) None
                (cache Sample.request) /\
    three_tiers (opt_storage Sample.no_options) (envConfig r ≫= env_storage) None
                (storage Sample.request).
Proof.
  apply (release_fields_follow_precedence Sample.world None (Some "production")
           Sample.no_options Sample.tree Sample.endpoint Sample.request).
  vm_compute. in_list.
Defined.

(** * Further properties *)

(** ** The project file and the identifiers *)

(** X1: [vaf.yml] shadows [vapor.yml].  When [vaf.yml] exists, what
    [loadVafConfig] returns and prints depends on the content of that file
    alone, whatever else the directory holds; when the content does not
    parse, the result is [null] after one error line that names [vaf.yml],
    and [vapor.yml] is not tried.  The tree is left as it is. *)
Theorem loadVafConfig_vaf_yml_shadows_vapor_yml
    (w : World) (fs : Files) (content : string) :
  fs !! path_join (cwd w) "vaf.yml" = Some content ->
  (forall fs' : Files,
     fs' !! path_join (cwd w) "vaf.yml" = Some content ->
     result (loadVafConfig w fs') = result (loadVafConfig w fs) /\
     trace (loadVafConfig w fs') = trace (loadVafConfig w fs)) /\
  (forall error,
     yaml_load w content = YamlFail error ->
     result (loadVafConfig w fs) = Done None /\
     trace (loadVafConfig w fs) = [Err ("Failed to parse vaf.yml: " +:+ error)]) /\
  files (loadVafConfig w fs) = fs.
Proof.
  intros Hvaf. unfold loadVafConfig, configFiles. cbn [load_first]. rewrite Hvaf.
  split; [|split].
  - intros fs' ->. destruct (yaml_load w content); split; reflexivity.
  - intros error ->. split; reflexivity.
  - destruct (yaml_load w content); reflexivity.
Qed.

Lemma loadVafConfig_vaf_yml_shadows_vapor_yml_witness :
  result (loadVafConfig Sample.world Scenario.both_files)
  = result (loadVafConfig Sample.world Sample.tree).
Proof.
  apply (proj1 (loadVafConfig_vaf_yml_shadows_vapor_yml Sample.world Sample.tree
                  "id: 42" eq_refl) Scenario.both_files).
  reflexivity.
Defined.

(** X2: without an environment name no deployment starts.  The run of
    [deploy] ends the process with code 1, having printed to the console
    only and changed no file; when the project file declares environments,
    what it prints is the heading followed by the declared names, in the
    order of the file. *)
Theorem deploy_requires_environment_name
    (w : World) (fs : Files) (projectId envName : option string)
    (options : DeployOptions) :
  truthy_opt envName = false ->
  let run := deploy w projectId envName options fs in
  result run = Exited 1 /\ files run = fs /\ Forall is_console (trace run) /\
  (forall configFile content cfg,
     project_file w fs = Some (configFile, content) ->
     yaml_load w content = YamlOk (Some cfg) ->
     env_names cfg <> [] ->
     trace run =
       Err "Environment name is required. Available environments:"
       :: map (fun env => Log ("  - " +:+ env)) (env_names cfg)).
Proof.
  intros Henv run.
  assert (Hres : forall cfg,
            exists tr, resolve cfg projectId envName fs = MkRun (Exited 1) tr fs /\
                       Forall is_console tr /\
                       (forall c, cfg = Some c -> env_names c <> [] ->
                          tr = Err "Environment name is required. Available environments:"
                               :: map (fun env => Log ("  - " +:+ env)) (env_names c))).
  { intros cfg. unfold resolve. rewrite Henv. cbn [negb andb].
    destruct cfg as [c|].
    - destruct (env_names c) as [|n ns] eqn:En.
      + cbn [length Nat.ltb Nat.leb when].
        eexists. split; [|split].
        * unfold bind, ret.
          destruct (if truthy_opt projectId then projectId else Some (pretty (cfg_id c)))
            as [pid|], envName as [[|ch name]|]; cbn [truthy_opt truthy] in Henv;
            try discriminate; cbn; rewrite ?andb_false_r; reflexivity.
        * repeat constructor.
        * intros c' [= <-] Hne. congruence.
      + cbn [length Nat.ltb Nat.leb when].
        eexists. split; [|split].
        * unfold bind, emit, exit. rewrite list_environments_run. cbn [app]. reflexivity.
        * rewrite app_nil_r. constructor; [exact I|]. rewrite En. apply Forall_console_envs.
        * intros c' [= <-] _. rewrite app_nil_r. reflexivity.
    - eexists. split; [|split].
      + unfold bind, ret.
        destruct projectId as [pid|], envName as [[|ch name]|];
          cbn [truthy_opt truthy] in Henv; try discriminate; cbn;
          rewrite ?andb_false_r; reflexivity.
      + repeat constructor.
      + intros c [=]. }
  subst run. unfold deploy.
  destruct (load_first_run w configFiles fs) as (cfg & tr0 & Hload & H0).
  fold (loadVafConfig w) in Hload.
  rewrite (bind_done _ _ _ _ _ _ Hload). unfold deploy_with.
  destruct (Hres cfg) as (tr & Hr & Hc & Hlist).
  rewrite (bind_exited _ _ _ _ _ _ Hr). cbn [result trace files].
  split; [reflexivity|]. split; [reflexivity|].
  split; [apply Forall_app; split; assumption|].
  intros configFile content c Hfile Hyaml Hne.
  rewrite loadVafConfig_project_file, Hfile, Hyaml in Hload.
  injection Hload as <- <-. cbn [app]. apply Hlist; [reflexivity | exact Hne].
Qed.

Lemma deploy_requires_environment_name_witness :
  result (deploy Sample.world None None Sample.no_options Sample.tree) = Exited 1.
Proof.
  apply (proj1 (deploy_requires_environment_name Sample.world Sample.tree None None
                  Sample.no_options eq_refl)).
Defined.

Lemma own_property_env_get envs name v :
  own_property envs name = Some v -> env_get envs name = v.
Proof. intros H. unfold env_get. rewrite H. reflexivity. Qed.

Lemma resolve_with_config_given cfg projectId name fs :
  name <> EmptyString ->
  resolve (Some cfg) projectId (Some name) fs =
    match env_get (environments cfg) name with
    | Some e =>
        MkRun (Done {| finalProjectId :=
                         if truthy_opt projectId then pick projectId EmptyString
                         else pretty (cfg_id cfg);
                       finalEnvName := name;
                       envConfig := Some e |}) [] fs
    | None =>
        MkRun (Exited 1)
              ([Err ("Environment " +:+ quoted name +:+ " not found in vaf.yml");
                Info "Available environments:"]
               ++ map (fun env => Log ("  - " +:+ env)) (env_names cfg)) fs
    end.
Proof.
  intros Hname. apply truthy_true in Hname. unfold resolve.
  cbn [truthy_opt]. rewrite Hname. cbn [negb andb when].
  destruct (env_get (environments cfg) name) as [e|];
    destruct projectId as [[|c p]|]; cbn [truthy_opt truthy pick];
    rewrite ?pretty_Z_truthy; cbn [andb];
    unfold bind, emit, ret, exit; rewrite ?list_environments_run;
    cbn [app]; rewrite ?app_nil_r; reflexivity.
Qed.

(** X3: with a project file that declares the named environment,
    resolution succeeds without a word; the project id is the command-line
    argument when one is given, and the [id] of the file, in decimal,
    otherwise; the settings are the ones declared under the name. *)
Theorem project_id_argument_overrides_file
    (w : World) (fs : Files) (projectId : option string) (name : string)
    (configFile content : string) (cfg : VafConfig) (e : EnvConfig) :
  project_file w fs = Some (configFile, content) ->
  yaml_load w content = YamlOk (Some cfg) ->
  name <> EmptyString ->
  own_property (environments cfg) name = Some (Some e) ->
  resolution w projectId (Some name) fs =
    MkRun (Done {| finalProjectId :=
                     if truthy_opt projectId then pick projectId EmptyString
                     else pretty (cfg_id cfg);
                   finalEnvName := name;
                   envConfig := Some e |}) [] fs.
Proof.
  intros Hfile Hyaml Hname Hown.
  assert (Hload : loadVafConfig w fs = MkRun (Done (Some cfg)) [] fs).
  { rewrite loadVafConfig_project_file, Hfile, Hyaml. reflexivity. }
  unfold resolution. rewrite (bind_done _ _ _ _ _ _ Hload).
  rewrite (resolve_with_config_given _ _ _ _ Hname).
  rewrite (own_property_env_get _ _ _ Hown). reflexivity.
Qed.

Lemma project_id_argument_overrides_file_witness :
  resolution Sample.world (Some "99") (Some "production") Sample.tree =
    MkRun (Done {| finalProjectId := "99"; finalEnvName := "production";
                   envConfig := Some Sample.production |}) [] Sample.tree.
Proof.
  apply (project_id_argument_overrides_file Sample.world Sample.tree (Some "99")
           "production" "vaf.yml" "id: 42" Sample.project Sample.production);
    first [reflexivity | discriminate].
Defined.

(** X4: an environment the project file declares without a body (null)
    counts as missing: the run ends with code 1 after the not-found message,
    and the list of available environments it prints contains the very name
    that was asked for. *)
Theorem environment_without_body_is_not_found
    (w : World) (fs : Files) (projectId : option string) (name : string)
    (options : DeployOptions) (configFile content : string) (cfg : VafConfig) :
  project_file w fs = Some (configFile, content) ->
  yaml_load w content = YamlOk (Some cfg) ->
  name <> EmptyString ->
  own_property (environments cfg) name = Some None ->
  deploy w projectId (Some name) options fs =
    MkRun (Exited 1)
          ([Err ("Environment " +:+ quoted name +:+ " not found in vaf.yml");
            Info "Available environments:"]
           ++ map (fun env => Log ("  - " +:+ env)) (env_names cfg)) fs /\
  In (Log ("  - " +:+ name)) (trace (deploy w projectId (Some name) options fs)).
Proof.
  intros Hfile Hyaml Hname Hown.
  assert (Hload : loadVafConfig w fs = MkRun (Done (Some cfg)) [] fs).
  { rewrite loadVafConfig_project_file, Hfile, Hyaml. reflexivity. }
  assert (Hd : deploy w projectId (Some name) options fs =
    MkRun (Exited 1)
          ([Err ("Environment " +:+ quoted name +:+ " not found in vaf.yml");
            Info "Available environments:"]
           ++ map (fun env => Log ("  - " +:+ env)) (env_names cfg)) fs).
  { unfold deploy. rewrite (bind_done _ _ _ _ _ _ Hload). unfold deploy_with.
    pose proof (resolve_with_config_given cfg projectId name fs Hname) as Hr.
    rewrite (own_property_env_get _ _ _ Hown) in Hr.
    rewrite (bind_exited _ _ _ _ _ _ Hr). reflexivity. }
  split; [exact Hd|]. rewrite Hd. cbn [trace app]. right. right.
  apply in_map_iff. exists name. split; [reflexivity|].
  unfold env_names. clear -Hown. induction (environments cfg) as [|[k v] l IH].
  - discriminate Hown.
  - simpl in *. destruct (String.eqb_spec k name) as [->|Hne]; [left; reflexivity|].
    right. apply IH, Hown.
Qed.

Lemma environment_without_body_is_not_found_witness :
  In (Log "  - staging")
     (trace (deploy Scenario.world_bodiless None (Some "staging") Sample.no_options
                    Sample.tree)).
Proof.
  apply (proj2 (environment_without_body_is_not_found Scenario.world_bodiless
                  Sample.tree None "staging" Sample.no_options "vaf.yml" "id: 42"
                  Scenario.bodiless eq_refl eq_refl
                  ltac:(discriminate) eq_refl)).
Defined.

(** X5: a name the project file does not declare, but that every
    JavaScript object inherits ([constructor], [toString], ...), passes the
    test of line 118: resolution succeeds, with settings that declare
    nothing. *)
Theorem inherited_member_name_passes_as_environment
    (w : World) (fs : Files) (projectId : option string) (name : string)
    (configFile content : string) (cfg : VafConfig) :
  project_file w fs = Some (configFile, content) ->
  yaml_load w content = YamlOk (Some cfg) ->
  In name object_prototype_keys ->
  ~ In name (env_names cfg) ->
  resolution w projectId (Some name) fs =
    MkRun (Done {| finalProjectId :=
                     if truthy_opt projectId then pick projectId EmptyString
                     else pretty (cfg_id cfg);
                   finalEnvName := name;
                   envConfig := Some inherited_member |}) [] fs.
Proof.
  intros Hfile Hyaml Hproto Hundeclared.
  assert (Hname : name <> EmptyString).
  { intros ->. simpl in Hproto.
    repeat (destruct Hproto as [Hproto | Hproto]; [discriminate Hproto|]). exact Hproto. }
  assert (Hload : loadVafConfig w fs = MkRun (Done (Some cfg)) [] fs).
  { rewrite loadVafConfig_project_file, Hfile, Hyaml. reflexivity. }
  unfold resolution. rewrite (bind_done _ _ _ _ _ _ Hload).
  rewrite (resolve_with_config_given _ _ _ _ Hname).
  unfold env_get. rewrite (own_property_undeclared _ _ Hundeclared).
  assert (Hex : existsb (String.eqb name) object_prototype_keys = true).
  { apply existsb_exists. exists name. split; [exact Hproto | apply String.eqb_refl]. }
  rewrite Hex. reflexivity.
Qed.

Lemma inherited_member_name_passes_as_environment_witness :
  resolution Sample.world None (Some "constructor") Sample.tree =
    MkRun (Done {| finalProjectId := "42"; finalEnvName := "constructor";
                   envConfig := Some inherited_member |}) [] Sample.tree.
Proof.
  apply (inherited_member_name_passes_as_environment Sample.world Sample.tree None
           "constructor" "vaf.yml" "id: 42" Sample.project);
    [reflexivity | reflexivity | in_list | not_in_list].
Defined.

(** ** The build *)

Lemma exec_events_app tr1 tr2 : exec_events (tr1 ++ tr2) = exec_events tr1 ++ exec_events tr2.
Proof. apply flat_map_app. Qed.

Lemma build_loop_execs w cmds fs :
  exists tr,
    for_each cmds (fun buildCmd =>
      try_catch
        (emit (Info ("Running: " +:+ buildCmd));; execAsync w buildCmd;; ret tt)
        (fun _ => emit (Warn ("Build command failed: " +:+ buildCmd)))) fs
    = MkRun (Done tt) tr (fold_left (fun tree c => exec_files (exec w c tree)) cmds fs)
    /\ exec_events tr = cmds.
Proof.
  revert fs. induction cmds as [|c cmds IH]; intros fs; cbn [for_each fold_left].
  - eexists. split; reflexivity.
  - destruct (IH (exec_files (exec w c fs))) as (tr & E & Hx).
    set (loop := for_each cmds _) in *.
    unfold bind, try_catch, execAsync. cbn [emit ret].
    destruct (exec_ok (exec w c fs)); cbn [result trace files app]; rewrite E;
      eexists; (split; [reflexivity|]);
      cbn [app exec_events flat_map]; change (flat_map _ tr) with (exec_events tr);
      rewrite Hx; reflexivity.
Qed.

(** X6: when the environment declares build commands (and
    [options['no-build']] is not set), exactly the declared commands are
    run, in the declared order, each in the tree the one before it left,
    whether or not it failed; the build stage returns, and its last line is
    the completion message. *)
Theorem build_runs_every_declared_command
    (w : World) (e : EnvConfig) (options : DeployOptions) (fs : Files)
    (cmds : list string) :
  env_build e = Some cmds ->
  opt_no_build options = false ->
  let run := build w (Some e) options fs in
  result run = Done tt /\
  exec_events (trace run) = cmds /\
  files run = fold_left (fun tree cmd => exec_files (exec w cmd tree)) cmds fs /\
  List.last (trace run) (Info EmptyString) = Success "Build commands completed".
Proof.
  intros Hb Hskip run. subst run. unfold build. cbn [mbind option_bind].
  rewrite Hb, Hskip.
  destruct (build_loop_execs w cmds fs) as (tr & E & Hx).
  set (loop := for_each cmds _) in *.
  unfold bind. cbn [emit]. rewrite E. cbn [result trace files].
  split; [reflexivity|]. split; [|split; [reflexivity|]].
  - cbn [app exec_events flat_map]. rewrite flat_map_app.
    change (flat_map _ tr) with (exec_events tr). rewrite Hx. cbn. apply app_nil_r.
  - cbn [app]. rewrite app_comm_cons. apply last_last.
Qed.

Lemma build_runs_every_declared_command_witness :
  exec_events (trace (build Sample.world (Some Sample.production) Sample.no_options
                            Sample.tree))
  = ["npm ci"; "npm run build:prod"].
Proof.
  apply (proj1 (proj2 (build_runs_every_declared_command Sample.world Sample.production
                         Sample.no_options Sample.tree
                         ["npm ci"; "npm run build:prod"] eq_refl eq_refl))).
Defined.

(** X7: when the environment declares no build commands (or
    [options['no-build']] is set), the build stage runs [npm run build],
    once, and nothing else; a failure of the command is a warning, and the
    stage still returns. *)
Theorem build_falls_back_to_npm_run_build
    (w : World) (envConfig : option EnvConfig) (options : DeployOptions) (fs : Files) :
  envConfig ≫= env_build = None \/ opt_no_build options = true ->
  let run := build w envConfig options fs in
  result run = Done tt /\
  exec_events (trace run) = ["npm run build"] /\
  files run = exec_files (exec w "npm run build" fs) /\
  (exec_ok (exec w "npm run build" fs) = false ->
   trace run = [Info "Building application..."; Exec "npm run build";
                Warn "Build command failed, continuing with current directory..."]).
Proof.
  intros H run. subst run.
  assert (Hb : build w envConfig options fs =
            (emit (Info "Building application...");;
             try_catch
               (let* stderr := execAsync w "npm run build" in
                when (truthy stderr) (emit (LogErr stderr));;
                emit (Success "Build completed"))
               (fun _ => emit (Warn "Build command failed, continuing with current directory...")))
              fs).
  { unfold build. destruct (envConfig ≫= env_build) as [cmds|].
    - destruct H as [H|H]; [discriminate H|]. rewrite H. reflexivity.
    - reflexivity. }
  rewrite Hb. unfold bind, try_catch, execAsync, when. cbn [emit ret].
  destruct (exec_ok (exec w "npm run build" fs)); cbn.
  - destruct (truthy (exec_stderr (exec w "npm run build" fs))); cbn;
      repeat split; intros; discriminate.
  - repeat split.
Qed.

Lemma build_falls_back_to_npm_run_build_witness :
  exec_events (trace (build Sample.world None Sample.no_options Sample.tree))
  = ["npm run build"].
Proof.
  apply (proj1 (proj2 (build_falls_back_to_npm_run_build Sample.world None
                         Sample.no_options Sample.tree (or_introl eq_refl)))).
Defined.

(** ** Polling, for every feed of answers *)

Lemma total_wait_app tr1 tr2 : total_wait (tr1 ++ tr2) = total_wait tr1 + total_wait tr2.
Proof.
  induction tr1 as [|e tr1 IH]; [reflexivity|].
  cbn [app total_wait fold_right]. fold (total_wait (tr1 ++ tr2)). fold (total_wait tr1).
  rewrite IH. destruct e; lia.
Qed.

Lemma total_wait_logs (l : list string) : total_wait (map Log l) = 0.
Proof. induction l; [reflexivity|]. cbn. exact IHl. Qed.

Lemma total_wait_pending_turn ep d : total_wait (pending_turn ep d) = 5000.
Proof.
  unfold pending_turn, log_tail. rewrite !total_wait_app.
  destruct (truthy_opt (logs d)); [rewrite total_wait_logs|]; reflexivity.
Qed.

Lemma total_wait_pending_turns ep (d : nat -> ReleaseRecord) (l : list nat) :
  total_wait (concat (map (fun n => pending_turn ep (d n)) l)) = 5000 * Z.of_nat (length l).
Proof.
  induction l as [|n l IH]; [reflexivity|].
  cbn [map concat length]. rewrite total_wait_app, total_wait_pending_turn, IH. lia.
Qed.

Lemma total_wait_success_turn ep d : total_wait (success_turn ep d) = 0.
Proof. unfold success_turn. destruct (truthy_opt (url d)); reflexivity. Qed.

Lemma total_wait_failed_turn ep d : total_wait (failed_turn ep d) = 0.
Proof. unfold failed_turn. destruct (truthy_opt (logs d)); reflexivity. Qed.

Lemma poll_loop_pending_prefix w ep (d : nat -> ReleaseRecord) k :
  forall remaining attempts fs,
    (forall i, (attempts <= i < attempts + k)%nat ->
               api_release w ep i = ApiOk (d i) /\ non_terminal (d i)) ->
    poll_loop w ep (k + remaining) attempts fs =
      MkRun (result (poll_loop w ep remaining (attempts + k) fs))
            (concat (map (fun i => pending_turn ep (d i)) (seq attempts k))
             ++ trace (poll_loop w ep remaining (attempts + k) fs))
            (files (poll_loop w ep remaining (attempts + k) fs)).
Proof.
  induction k as [|k IH]; intros remaining attempts fs H.
  - cbn [Nat.add seq map concat app]. rewrite Nat.add_0_r. symmetry. apply run_eta.
  - cbn [Nat.add poll_loop].
    destruct (H attempts) as [E Hd]; [lia|].
    rewrite (bind_done _ _ _ _ _ _ (poll_once_pending w ep attempts fs (d attempts) E Hd)).
    rewrite IH by (intros i Hi; apply H; lia).
    cbn [result trace files seq map concat].
    replace (S attempts + k)%nat with (attempts + S k)%nat by lia.
    rewrite <- app_assoc. reflexivity.
Qed.

(** X8: polling stops at the first terminal status.  When the first [n]
    answers (n < 60) are neither [success] nor [failed] and the next one is,
    [pollDeploymentStatus] returns after n + 1 fetches and n waits of five
    seconds, having printed the pending turns and then the report of the
    success or of the failure. *)
Theorem polling_stops_at_first_terminal_status
    (w : World) (projectId envName deploymentId : string) (fs : Files)
    (d : nat -> ReleaseRecord) (n : nat) (final : ReleaseRecord) :
  (n < 60)%nat ->
  (forall i, (i < n)%nat ->
     api_release w (release_url projectId envName deploymentId) i = ApiOk (d i) /\
     non_terminal (d i)) ->
  api_release w (release_url projectId envName deploymentId) n = ApiOk final ->
  status final = "success" \/ status final = "failed" ->
  let endpoint := release_url projectId envName deploymentId in
  let run := pollDeploymentStatus w projectId envName deploymentId fs in
  result run = Done tt /\
  trace run =
    concat (map (fun i => pending_turn endpoint (d i)) (seq 0 n))
    ++ (if String.eqb (status final) "success"
        then success_turn endpoint final else failed_turn endpoint final) /\
  fetches (trace run) = S n /\
  total_wait (trace run) = 5000 * Z.of_nat n.
Proof.
  intros Hn Hpending Hfinal Hstatus endpoint run. subst run.
  unfold pollDeploymentStatus. fold endpoint. change maxAttempts with 60%nat.
  replace 60%nat with (n + S (59 - n))%nat by lia.
  rewrite (poll_loop_pending_prefix w endpoint d n (S (59 - n)) 0 fs)
    by (intros i Hi; apply Hpending; lia).
  cbn [Nat.add poll_loop].
  assert (Hturn : poll_once w endpoint n fs =
            MkRun (Done true)
                  (if String.eqb (status final) "success"
                   then success_turn endpoint final else failed_turn endpoint final) fs).
  { destruct Hstatus as [Hs | Hs].
    - rewrite Hs. apply poll_once_success; assumption.
    - rewrite Hs. apply poll_once_failed; assumption. }
  rewrite (bind_done _ _ _ _ _ _ Hturn). cbn [result trace files ret].
  rewrite app_nil_r.
  split; [reflexivity|]. split; [reflexivity|]. split.
  - rewrite fetches_app, fetches_pending_turns, length_seq.
    destruct (String.eqb (status final) "success");
      rewrite ?fetches_success_turn, ?fetches_failed_turn; lia.
  - rewrite total_wait_app, total_wait_pending_turns, length_seq.
    destruct (String.eqb (status final) "success");
      rewrite ?total_wait_success_turn, ?total_wait_failed_turn; lia.
Qed.

Lemma polling_stops_at_first_terminal_status_witness :
  fetches (trace (pollDeploymentStatus Sample.world_failing "42" "production" "rel-1" ∅))
    = 2%nat /\
  total_wait (trace (pollDeploymentStatus Sample.world_failing "42" "production"
                                          "rel-1" ∅)) = 5000.
Proof.
  destruct (polling_stops_at_first_terminal_status Sample.world_failing "42"
              "production" "rel-1" ∅ (fun _ => Sample.pending) 1 Sample.failed)
    as (_ & _ & Hfetches & Hwait).
  - lia.
  - intros [|i] Hi; [|lia]. split; [reflexivity | split; discriminate].
  - reflexivity.
  - right. reflexivity.
  - split; [exact Hfetches | exact Hwait].
Defined.

(** X9: a status fetch that fails ends polling.  After [n] pending
    answers, an error on the next fetch is printed (its message, or 'Failed
    to check deployment status' when the message is empty) and the function
    returns normally: it neither tries again nor throws. *)
Theorem polling_stops_at_transport_error
    (w : World) (projectId envName deploymentId : string) (fs : Files)
    (d : nat -> ReleaseRecord) (n : nat) (message : string) :
  (n < 60)%nat ->
  (forall i, (i < n)%nat ->
     api_release w (release_url projectId envName deploymentId) i = ApiOk (d i) /\
     non_terminal (d i)) ->
  api_release w (release_url projectId envName deploymentId) n = ApiErr message ->
  let endpoint := release_url projectId envName deploymentId in
  let run := pollDeploymentStatus w projectId envName deploymentId fs in
  result run = Done tt /\
  trace run =
    concat (map (fun i => pending_turn endpoint (d i)) (seq 0 n))
    ++ [Get endpoint;
        Err (if truthy message then message else "Failed to check deployment status")] /\
  fetches (trace run) = S n.
Proof.
  intros Hn Hpending Herr endpoint run. subst run.
  unfold pollDeploymentStatus. fold endpoint. change maxAttempts with 60%nat.
  replace 60%nat with (n + S (59 - n))%nat by lia.
  rewrite (poll_loop_pending_prefix w endpoint d n (S (59 - n)) 0 fs)
    by (intros i Hi; apply Hpending; lia).
  cbn [Nat.add poll_loop].
  rewrite (bind_done _ _ _ _ _ _ (poll_once_error w endpoint n fs message Herr)).
  cbn [result trace files ret pick]. rewrite app_nil_r.
  split; [reflexivity|]. split; [reflexivity|].
  rewrite fetches_app, fetches_pending_turns, length_seq. cbn. lia.
Qed.

Lemma polling_stops_at_transport_error_witness :
  fetches (trace (pollDeploymentStatus Scenario.world_unreachable "42" "production"
                                       "rel-1" ∅)) = 2%nat.
Proof.
  destruct (polling_stops_at_transport_error Scenario.world_unreachable "42"
              "production" "rel-1" ∅ (fun _ => Sample.pending) 1
              "Network error - could not reach server")
    as (_ & _ & Hfetches).
  - lia.
  - intros [|i] Hi; [|lia]. split; [reflexivity | split; discriminate].
  - reflexivity.
  - exact Hfetches.
Defined.

Lemma last5_suffix (lines : list string) :
  exists earlier, lines = earlier ++ last5 lines /\
                  length (last5 lines) = Nat.min 5 (length lines).
Proof.
  unfold last5. exists (firstn (length lines - 5) lines). split.
  - symmetry. apply firstn_skipn.
  - rewrite length_skipn. lia.
Qed.

(** X10: a pending answer with logs shows the last five lines of the
    logs, or all of them when there are fewer, in their order, before the
    wait of five seconds. *)
Theorem pending_answer_shows_last_five_log_lines
    (w : World) (endpoint : string) (n : nat) (fs : Files)
    (d : ReleaseRecord) (text : string) :
  api_release w endpoint n = ApiOk d ->
  non_terminal d ->
  logs d = Some text ->
  text <> EmptyString ->
  exists earlier shown,
    split_lines text = earlier ++ shown /\
    length shown = Nat.min 5 (length (split_lines text)) /\
    poll_once w endpoint n fs =
      MkRun (Done false)
            ([Get endpoint; Log ("Status: " +:+ status d)] ++ map Log shown
             ++ [Sleep 5000]) fs.
Proof.
  intros E Hd Hlogs Htext.
  destruct (last5_suffix (split_lines text)) as (earlier & Hsplit & Hlen).
  exists earlier, (last5 (split_lines text)).
  split; [exact Hsplit|]. split; [exact Hlen|].
  rewrite (poll_once_pending w endpoint n fs d E Hd).
  unfold pending_turn, log_tail. rewrite Hlogs.
  apply truthy_true in Htext. cbn [truthy_opt pick]. rewrite Htext. reflexivity.
Qed.

Lemma pending_answer_shows_last_five_log_lines_witness :
  exists earlier shown,
    split_lines Scenario.seven_lines = earlier ++ shown /\
    length shown = Nat.min 5 (length (split_lines Scenario.seven_lines)) /\
    poll_once Scenario.world_logging "/status" 0 ∅ =
      MkRun (Done false)
            ([Get "/status"; Log ("Status: " +:+ status Scenario.building)]
             ++ map Log shown ++ [Sleep 5000]) ∅.
Proof.
  apply (pending_answer_shows_last_five_log_lines Scenario.world_logging "/status"
           0 ∅ Scenario.building Scenario.seven_lines).
  - reflexivity.
  - split; intros H; vm_compute in H; discriminate H.
  - reflexivity.
  - intros H; vm_compute in H; discriminate H.
Defined.

Lemma fetches_schedule tr : fetches (schedule tr) = fetches tr.
Proof.
  unfold fetches, schedule. induction tr as [|e tr IH]; [reflexivity|].
  destruct e; simpl; rewrite ?IH; reflexivity.
Qed.

Lemma fetches_cycles k ep : fetches (cycles k ep) = k.
Proof.
  induction k as [|k IH]; [reflexivity|].
  unfold fetches in *. simpl. rewrite IH. reflexivity.
Qed.

Lemma poll_loop_fetches w ep remaining attempts fs :
  (fetches (trace (poll_loop w ep remaining attempts fs)) <= remaining)%nat.
Proof.
  destruct (poll_loop_schedule w ep remaining attempts fs) as (tr & k & Hp & Hk).
  rewrite Hp. cbn [trace]. rewrite <- fetches_schedule.
  destruct Hk as [[-> Hs] | [Hlt Hs]]; rewrite Hs.
  - rewrite fetches_cycles. lia.
  - rewrite fetches_app, fetches_cycles. unfold fetches. simpl. lia.
Qed.

Lemma total_wait_cycles k ep : total_wait (cycles k ep) = 5000 * Z.of_nat k.
Proof. induction k as [|k IH]; [reflexivity|]. cbn [cycles total_wait fold_right].
  fold (total_wait (cycles k ep)). rewrite IH. lia. Qed.

Lemma total_wait_schedule tr : total_wait (schedule tr) = total_wait tr.
Proof.
  induction tr as [|e tr IH]; [reflexivity|].
  destruct e; cbn; fold (total_wait tr); fold (schedule tr);
    try fold (total_wait (schedule tr)); lia.
Qed.

(** X11: whatever the backend answers, [pollDeploymentStatus] fetches at
    most 60 times and waits at most 300000 ms in all; it only fetches the
    record of its own release, prints and waits, and it leaves the file tree
    alone. *)
Theorem polling_waits_at_most_five_minutes
    (w : World) (projectId envName deploymentId : string) (fs : Files) :
  let run := pollDeploymentStatus w projectId envName deploymentId fs in
  (fetches (trace run) <= 60)%nat /\
  0 <= total_wait (trace run) <= 300000 /\
  Forall (poll_event (release_url projectId envName deploymentId)) (trace run) /\
  files run = fs.
Proof.
  intros run. subst run. unfold pollDeploymentStatus. change maxAttempts with 60%nat.
  split; [apply poll_loop_fetches|].
  pose proof (always_poll_loop w (release_url projectId envName deploymentId) 60 0 fs) as Hev.
  destruct (poll_loop_schedule w (release_url projectId envName deploymentId) 60 0 fs)
    as (tr & k & Hrun & Hk).
  rewrite Hrun in *. cbn [trace files] in *.
  split; [|split; [exact Hev | reflexivity]].
  rewrite <- total_wait_schedule.
  destruct Hk as [[-> Hs] | [Hlt Hs]]; rewrite Hs.
  - rewrite total_wait_cycles. lia.
  - rewrite total_wait_app, total_wait_cycles. cbn. lia.
Qed.

(** ** Watch mode, for every sequence of notifications *)

Lemma prefix_app (p b : string) : String.prefix p (p +:+ b) = true.
Proof.
  induction p as [|c p IH]; simpl; [destruct b; reflexivity|].
  destruct (ascii_dec c c) as [_|Hne]; [exact IH | contradiction].
Qed.

Lemma includes_prefix (s p : string) : String.prefix p s = true -> includes s p = true.
Proof. intros H. destruct s; cbn [includes]; rewrite H; reflexivity. Qed.

Lemma includes_app (a p b : string) : includes (a +:+ p +:+ b) p = true.
Proof.
  induction a as [|c a IH].
  - change (includes (p +:+ b) p = true). apply includes_prefix, prefix_app.
  - change (includes (String c (a +:+ p +:+ b)) p = true).
    cbn [includes]. rewrite IH. apply orb_true_r.
Qed.

Lemma advance_advance duration t t' s :
  t <= t' ->
  Watch.advance duration t' (Watch.advance duration t s) = Watch.advance duration t' s.
Proof.
  intros Hle. unfold Watch.advance.
  destruct (Watch.deployTimer s) as [[due filePath]|] eqn:E.
  - destruct (Z.leb_spec due t) as [H1|H1].
    + cbn [Watch.fire Watch.deployTimer].
      destruct (Z.leb_spec due t') as [_|H2]; [reflexivity | lia].
    + rewrite E. reflexivity.
  - rewrite E. reflexivity.
Qed.

Lemma idle_advance duration t s :
  Watch.idle duration (Watch.advance duration t s) = Watch.idle duration s.
Proof.
  unfold Watch.idle, Watch.advance.
  destruct (Watch.deployTimer s) as [[due filePath]|] eqn:E.
  - destruct (due <=? t); [reflexivity | rewrite E; reflexivity].
  - rewrite E. reflexivity.
Qed.

Lemma fold_notify_after_advance duration t (post : list (Z * string)) s :
  Forall (fun ev => t <= fst ev) post ->
  Watch.idle duration (fold_left (Watch.notify duration) post (Watch.advance duration t s))
  = Watch.idle duration (fold_left (Watch.notify duration) post s).
Proof.
  intros H. destruct post as [|[t' p'] post]; cbn [fold_left].
  - apply idle_advance.
  - apply Forall_cons in H. destruct H as [Hle _]. cbn [fst] in Hle.
    unfold Watch.notify at 2 4. cbn [fst snd].
    rewrite (advance_advance duration t t' s Hle). reflexivity.
Qed.

(** X12: a notification for a path that contains [.vaf-deploy-temp-] (the
    archive of an attempt, in whatever directory) or that starts with a dot
    changes nothing: watch mode starts the same deployments, at the same
    times, as if the notification had not come.  In particular it does not
    restart the timer. *)
Theorem skipped_paths_never_trigger
    (duration : Z -> Z) (before after : list (Z * string)) (t : Z)
    (filePath : string) :
  (exists a b, filePath = a +:+ ".vaf-deploy-temp-" +:+ b) \/
  (exists rest, filePath = "." +:+ rest) ->
  Forall (fun ev => t <= fst ev) after ->
  Watch.watch duration (before ++ (t, filePath) :: after) =
  Watch.watch duration (before ++ after).
Proof.
  intros Hpath Hafter.
  assert (Hskip : Watch.skipped filePath = true).
  { unfold Watch.skipped. destruct Hpath as [(a & b & ->) | (rest & ->)].
    - rewrite includes_app. reflexivity.
    - unfold startsWith. rewrite prefix_app. apply orb_true_r. }
  unfold Watch.watch. rewrite !fold_left_app. cbn [fold_left].
  set (s := fold_left (Watch.notify duration) before Watch.initial).
  assert (Hn : Watch.notify duration s (t, filePath) = Watch.advance duration t s).
  { unfold Watch.notify, Watch.on_all. cbn [fst snd]. rewrite Hskip. reflexivity. }
  rewrite Hn, (fold_notify_after_advance duration t after s Hafter). reflexivity.
Qed.

Lemma skipped_paths_never_trigger_witness :
  Watch.watch (fun _ => 1000)
              ([(0, "src/a.js")] ++ (500, "/app/.vaf-deploy-temp-1700000000123.zip") :: [])
  = Watch.watch (fun _ => 1000) ([(0, "src/a.js")] ++ []).
Proof.
  apply (skipped_paths_never_trigger (fun _ => 1000) [(0, "src/a.js")] [] 500
           "/app/.vaf-deploy-temp-1700000000123.zip").
  - left. exists "/app/", "1700000000123.zip". reflexivity.
  - constructor.
Defined.

Lemma fire_sound duration events s due filePath :
  scheduler_sound duration events s ->
  Watch.deployTimer s = Some (due, filePath) ->
  scheduler_sound duration events (Watch.fire duration due filePath s).
Proof.
  intros [Hi Ht] E. destruct (Ht due filePath E) as (t & Hin & Hq & ->).
  split; cbn [Watch.fire Watch.invocations Watch.deployTimer].
  - apply Forall_app. split; [exact Hi|]. constructor; [|constructor].
    exists (t, filePath). repeat split; assumption.
  - intros ? ? [=].
Qed.

Lemma advance_sound duration events t s :
  scheduler_sound duration events s ->
  scheduler_sound duration events (Watch.advance duration t s).
Proof.
  intros H. unfold Watch.advance.
  destruct (Watch.deployTimer s) as [[due filePath]|] eqn:E; [|exact H].
  destruct (due <=? t); [apply fire_sound; assumption | exact H].
Qed.

Lemma notify_sound duration events s ev :
  In ev events ->
  scheduler_sound duration events s ->
  scheduler_sound duration events (Watch.notify duration s ev).
Proof.
  intros Hin H. unfold Watch.notify, Watch.on_all.
  pose proof (advance_sound duration events (fst ev) s H) as [Hi Ht].
  destruct (Watch.skipped (snd ev)) eqn:Hq; [split; assumption|].
  split; cbn [Watch.invocations Watch.deployTimer]; [exact Hi|].
  intros due filePath [= <- <-]. exists (fst ev). destruct ev; cbn in *. auto.
Qed.

Lemma fold_notify_sound duration events (l : list (Z * string)) s :
  (forall ev, In ev l -> In ev events) ->
  scheduler_sound duration events s ->
  scheduler_sound duration events (fold_left (Watch.notify duration) l s).
Proof.
  revert s. induction l as [|ev l IH]; intros s Hsub H; cbn [fold_left]; [exact H|].
  apply IH; [intros; apply Hsub; right; assumption|].
  apply notify_sound; [apply Hsub; left; reflexivity | exact H].
Qed.

Lemma advance_count duration t s :
  (length (Watch.invocations (Watch.advance duration t s)) + armed (Watch.advance duration t s)
   = length (Watch.invocations s) + armed s)%nat.
Proof.
  unfold Watch.advance, armed.
  destruct (Watch.deployTimer s) as [[due filePath]|] eqn:E; [|rewrite E; reflexivity].
  destruct (due <=? t); [|rewrite E; reflexivity].
  cbn [Watch.fire Watch.invocations Watch.deployTimer]. rewrite length_app. cbn. lia.
Qed.

Lemma fold_notify_count duration (l : list (Z * string)) s :
  (length (Watch.invocations (fold_left (Watch.notify duration) l s))
   + armed (fold_left (Watch.notify duration) l s)
   <= length (Watch.invocations s) + armed s + length (qualifying l))%nat.
Proof.
  revert s. induction l as [|ev l IH]; intros s; cbn [fold_left].
  - cbn. lia.
  - etransitivity; [apply IH|].
    pose proof (advance_count duration (fst ev) s) as Ha.
    assert (Hq : length (qualifying (ev :: l)) =
                 ((if Watch.skipped (snd ev) then 0 else 1) + length (qualifying l))%nat).
    { unfold qualifying. cbn [List.filter]. destruct (Watch.skipped (snd ev)); reflexivity. }
    rewrite Hq. clear Hq.
    assert (Hn : (length (Watch.invocations (Watch.notify duration s ev))
                  + armed (Watch.notify duration s ev)
                  <= length (Watch.invocations s) + armed s
                     + (if Watch.skipped (snd ev) then 0 else 1))%nat).
    { unfold Watch.notify, Watch.on_all.
      destruct (Watch.skipped (snd ev)); [lia|].
      unfold armed at 1. cbn [Watch.deployTimer Watch.invocations].
      unfold armed in Ha at 1.
      destruct (Watch.deployTimer (Watch.advance duration (fst ev) s)); lia. }
    lia.
Qed.

(** X13: watch mode deploys only because of a change.  Every invocation
    starts exactly 2000 ms after a notification for a path that is not
    skipped, and reports that path; there are at most as many invocations as
    such notifications. *)
Theorem every_invocation_follows_a_notification
    (duration : Z -> Z) (events : list (Z * string)) :
  Forall (fun i => exists t filePath,
            In (t, filePath) events /\ Watch.skipped filePath = false /\
            Watch.started i = t + 2000 /\ Watch.changed i = filePath /\
            Watch.finished i = Watch.started i + duration (Watch.started i))
         (Watch.watch duration events) /\
  (length (Watch.watch duration events) <= length (qualifying events))%nat.
Proof.
  split.
  - assert (Hs : scheduler_sound duration events
                   (fold_left (Watch.notify duration) events Watch.initial)).
    { apply fold_notify_sound; [auto|]. split; [constructor | intros ? ? [=]]. }
    unfold Watch.watch, Watch.idle.
    destruct (Watch.deployTimer _) as [[due filePath]|] eqn:E.
    + apply (fire_sound _ _ _ _ _ Hs) in E. destruct E as [Hi _].
      eapply Forall_impl; [exact Hi|].
      intros i ([t p] & Hin & Hq & ->). exists t, p. cbn. repeat split; assumption.
    + destruct Hs as [Hi _]. eapply Forall_impl; [exact Hi|].
      intros i ([t p] & Hin & Hq & ->). exists t, p. cbn. repeat split; assumption.
  - pose proof (fold_notify_count duration events Watch.initial) as Hc.
    cbn [Watch.initial Watch.invocations length Nat.add] in Hc.
    unfold armed at 2 in Hc. cbn [Watch.initial Watch.deployTimer] in Hc.
    unfold Watch.watch, Watch.idle. unfold armed in Hc.
    destruct (Watch.deployTimer _) as [[due filePath]|].
    + cbn [Watch.fire Watch.invocations]. rewrite length_app. cbn [length]. lia.
    + lia.
Qed.

Lemma notify_spaced duration (events : list (Z * string)) :
  forall t filePath s,
    Watch.deployTimer s = Some (t + Watch.debounce, filePath) ->
    spaced_after t events ->
    Watch.invocations
      (Watch.idle duration (fold_left (Watch.notify duration) events s)) =
    Watch.invocations s ++ map (invocation_of duration) ((t, filePath) :: events).
Proof.
  induction events as [|[t' p'] rest IH]; intros t filePath s Ht Hs.
  - cbn [fold_left map]. unfold Watch.idle. rewrite Ht. reflexivity.
  - destruct Hs as (Hgap & Hq & Hrest). cbn [fold_left].
    assert (Hstep : Watch.notify duration s (t', p') =
              {| Watch.deployTimer := Some (t' + Watch.debounce, p');
                 Watch.invocations :=
                   Watch.invocations s ++ [invocation_of duration (t, filePath)] |}).
    { unfold Watch.notify, Watch.advance, Watch.on_all. cbn [fst snd].
      rewrite Ht. destruct (Z.leb_spec (t + Watch.debounce) t') as [_|Hlt]; [|lia].
      cbn [Watch.fire Watch.invocations]. rewrite Hq. reflexivity. }
    rewrite Hstep.
    rewrite (IH t' p'
               {| Watch.deployTimer := Some (t' + Watch.debounce, p');
                  Watch.invocations :=
                    Watch.invocations s ++ [invocation_of duration (t, filePath)] |}
               eq_refl Hrest).
    cbn [Watch.invocations map]. rewrite <- app_assoc. reflexivity.
Qed.

(** X14: changes at least 2000 ms apart are deployed one by one: every
    notification of the sequence leads to its own invocation, 2000 ms after
    it, in order. *)
Theorem isolated_changes_deploy_once_each
    (duration : Z -> Z) (t : Z) (filePath : string) (rest : list (Z * string)) :
  Watch.skipped filePath = false ->
  spaced_after t rest ->
  Watch.watch duration ((t, filePath) :: rest) =
    map (invocation_of duration) ((t, filePath) :: rest).
Proof.
  intros Hq Hs. unfold Watch.watch. cbn [fold_left].
  assert (Hfirst : Watch.notify duration Watch.initial (t, filePath) =
            {| Watch.deployTimer := Some (t + Watch.debounce, filePath);
               Watch.invocations := [] |}).
  { unfold Watch.notify, Watch.advance, Watch.on_all. cbn. rewrite Hq. reflexivity. }
  rewrite Hfirst.
  rewrite (notify_spaced duration rest t filePath
             {| Watch.deployTimer := Some (t + Watch.debounce, filePath);
                Watch.invocations := [] |} eq_refl Hs).
  reflexivity.
Qed.

Lemma isolated_changes_deploy_once_each_witness :
  Watch.watch (fun _ => 1000) [(0, "src/a.js"); (5000, "src/b.js")] =
  map (invocation_of (fun _ => 1000)) [(0, "src/a.js"); (5000, "src/b.js")].
Proof.
  apply (isolated_changes_deploy_once_each (fun _ => 1000) 0 "src/a.js"
           [(5000, "src/b.js")]).
  - reflexivity.
  - split; [intros H; discriminate H | split; [reflexivity | exact I]].
Defined.

Lemma timer_callback_run w projectId envName options filePath fs :
  let attempted := deploy w projectId envName options fs in
  let announced :=
    Info (String LF ("Change detected in " +:+ filePath +:+ ", deploying...")) in
  Watching.timer_callback w projectId envName options filePath fs =
    match result attempted with
    | Thrown message =>
        MkRun (Done tt)
              (announced :: trace attempted
               ++ [Err (pick (Some message) "Deployment failed")])
              (files attempted)
    | other => MkRun other (announced :: trace attempted) (files attempted)
    end.
Proof.
  intros attempted announced. subst announced.
  unfold Watching.timer_callback, bind, try_catch, emit. cbn [app]. fold attempted.
  destruct attempted as [[[]|message|code] tr fs']; reflexivity.
Qed.

(** X30: in watch mode an attempt that throws (a failed upload, say) is
    reported, with its message as the last line, and watching goes on; an
    attempt that ends the process ends the watcher with it.  That happens
    when the environment name is not declared in the project file: the first
    change then exits with code 1.  The callback never lets an error
    escape. *)
Theorem watch_survives_errors_but_not_exits
    (w : World) (projectId envName : option string) (options : DeployOptions)
    (filePath : string) (fs : Files) :
  let attempted := deploy w projectId envName options fs in
  let run := Watching.timer_callback w projectId envName options filePath fs in
  (result run = Done tt \/ result run = Exited 1) /\
  (forall message,
     result attempted = Thrown message ->
     result run = Done tt /\
     List.last (trace run) (Info EmptyString)
       = Err (pick (Some message) "Deployment failed")) /\
  (forall configFile content cfg name,
     envName = Some name ->
     project_file w fs = Some (configFile, content) ->
     yaml_load w content = YamlOk (Some cfg) ->
     name <> EmptyString ->
     ~ In name (env_names cfg) ->
     ~ In name object_prototype_keys ->
     result run = Exited 1).
Proof.
  intros attempted run. subst run.
  rewrite (timer_callback_run w projectId envName options filePath fs).
  cbv zeta. fold attempted.
  split; [|split].
  - subst attempted.
    destruct (deploy_run w projectId envName options fs)
      as (tr & _ & [[_ Hd] | (r & btr & tree & _ & _ & _ & Hd)]); rewrite Hd;
      cbn [result]; [right; reflexivity|].
    destruct (release_run w options r tree) as (res & rest & fs' & Hr & _ & Hne & _).
    rewrite Hr. cbn [result].
    destruct res as [[]|msg|code]; [left | left | exfalso; apply (Hne code)]; reflexivity.
  - intros message ->. cbn [result trace]. split; [reflexivity|].
    rewrite app_comm_cons. apply last_last.
  - intros configFile content cfg name -> Hfile Hyaml Hname Hundeclared Hproto.
    assert (Hexit : result attempted = Exited 1).
    { subst attempted. unfold deploy.
      assert (Hload : loadVafConfig w fs = MkRun (Done (Some cfg)) [] fs).
      { rewrite loadVafConfig_project_file, Hfile, Hyaml. reflexivity. }
      rewrite (bind_done _ _ _ _ _ _ Hload). unfold deploy_with.
      pose proof (resolve_with_config_given cfg projectId name fs Hname) as Hr.
      rewrite (env_get_undeclared _ _ Hundeclared Hproto) in Hr.
      rewrite (bind_exited _ _ _ _ _ _ Hr). reflexivity. }
    rewrite Hexit. reflexivity.
Qed.

Lemma watch_survives_errors_but_not_exits_witness :
  result (Watching.timer_callback Sample.world_upload_refused None (Some "production")
            Sample.no_options "src/index.js" Sample.tree) = Done tt /\
  result (Watching.timer_callback Sample.world None (Some "staging")
            Sample.no_options "src/index.js" Sample.tree) = Exited 1.
Proof.
  split.
  - apply (proj1 (proj2 (watch_survives_errors_but_not_exits Sample.world_upload_refused
                           None (Some "production") Sample.no_options "src/index.js"
                           Sample.tree))
             "Request failed with status code 403").
    reflexivity.
  - apply (proj2 (proj2 (watch_survives_errors_but_not_exits Sample.world
                           None (Some "staging") Sample.no_options "src/index.js"
                           Sample.tree))
             "vaf.yml" "id: 42" Sample.project "staging");
      [reflexivity | reflexivity | reflexivity | discriminate | not_in_list | not_in_list].
Defined.

(** ** The ignore file, line by line *)

Lemma append_cons c (a b : string) : String c a +:+ b = String c (a +:+ b).
Proof. reflexivity. Qed.

Lemma append_nil_r (s : string) : s +:+ EmptyString = s.
Proof. induction s as [|c s IH]; [reflexivity|]. rewrite append_cons, IH. reflexivity. Qed.

Lemma append_assoc (a b c : string) : (a +:+ b) +:+ c = a +:+ (b +:+ c).
Proof.
  induction a as [|x a IH]; [reflexivity|]. rewrite !append_cons, IH. reflexivity.
Qed.

Lemma rev_app_append (s acc : string) :
  String.rev_app s acc = String.rev s +:+ acc.
Proof.
  unfold String.rev. revert acc. induction s as [|c s IH]; intros acc.
  - reflexivity.
  - cbn [String.rev_app]. rewrite (IH (String c acc)), (IH (String c EmptyString)).
    rewrite append_assoc. reflexivity.
Qed.

Lemma rev_append (a b : string) : String.rev (a +:+ b) = String.rev b +:+ String.rev a.
Proof.
  induction a as [|c a IH].
  - change (EmptyString +:+ b) with b. symmetry. apply append_nil_r.
  - rewrite append_cons. unfold String.rev at 1 3. cbn [String.rev_app].
    rewrite !rev_app_append, IH, append_assoc. reflexivity.
Qed.

Lemma rev_involutive (s : string) : String.rev (String.rev s) = s.
Proof.
  induction s as [|c s IH]; [reflexivity|].
  unfold String.rev at 2. cbn [String.rev_app]. rewrite rev_app_append, rev_append, IH.
  reflexivity.
Qed.

Lemma blank_append (a b : string) : blank (a +:+ b) = blank a && blank b.
Proof.
  induction a as [|c a IH]; [reflexivity|].
  rewrite append_cons. cbn [blank]. rewrite IH. apply andb_assoc.
Qed.

Lemma trimStart_decompose (s : string) :
  exists ws, s = ws +:+ trimStart s /\ blank ws = true.
Proof.
  induction s as [|c s (ws & E & Hb)].
  - exists EmptyString. split; reflexivity.
  - cbn [trimStart]. destruct (is_white_space c) eqn:Hc.
    + exists (String c ws). rewrite append_cons, <- E. split; [reflexivity|].
      cbn [blank]. rewrite Hc, Hb. reflexivity.
    + exists EmptyString. split; reflexivity.
Qed.

Lemma trimEnd_decompose (s : string) :
  exists ws, s = trimEnd s +:+ ws /\ blank ws = true.
Proof.
  unfold trimEnd. destruct (trimStart_decompose (String.rev s)) as (ws & E & Hb).
  exists (String.rev ws). split; [|rewrite blank_rev; exact Hb].
  rewrite <- rev_append, <- E, rev_involutive. reflexivity.
Qed.

Lemma trimStart_nonblank_append (s r : string) :
  blank s = false -> trimStart (s +:+ r) = trimStart s +:+ r.
Proof.
  induction s as [|c s IH]; intros H; [discriminate H|].
  rewrite append_cons. cbn [trimStart blank] in *.
  destruct (is_white_space c); [apply IH, H | reflexivity].
Qed.

Lemma trimEnd_fixed (s : string) : trimEnd (trimEnd s) = trimEnd s.
Proof. unfold trimEnd. rewrite rev_involutive, trimStart_idem. reflexivity. Qed.

(** [trim] leaves a trimmed string as it is. *)
Lemma trim_idempotent (s : string) : trim (trim s) = trim s.
Proof.
  unfold trim.
  destruct (trimStart_shape s) as [E | (c & rest & E & Hc)].
  - rewrite E. reflexivity.
  - assert (Hhead : exists rest', trimEnd (trimStart s) = String c rest').
    { destruct (trimEnd_decompose (trimStart s)) as (ws & Hd & Hb).
      destruct (trimEnd (trimStart s)) as [|c' rest'] eqn:Et.
      - change (EmptyString +:+ ws) with ws in Hd. rewrite E in Hd. subst ws.
        cbn [blank] in Hb. rewrite Hc in Hb. discriminate Hb.
      - rewrite E, append_cons in Hd. injection Hd as <- _. eauto. }
    destruct Hhead as (rest' & Hhead).
    assert (Hs : trimStart (trimEnd (trimStart s)) = trimEnd (trimStart s)).
    { rewrite Hhead. cbn [trimStart]. rewrite Hc. reflexivity. }
    rewrite Hs. apply trimEnd_fixed.
Qed.

Lemma trim_append_cr (s : string) : trim (s +:+ String CR EmptyString) = trim s.
Proof.
  destruct (blank s) eqn:Hb.
  - assert (H1 : trim s = EmptyString) by (apply trim_empty_iff, Hb).
    assert (H2 : trim (s +:+ String CR EmptyString) = EmptyString).
    { apply trim_empty_iff. rewrite blank_append, Hb. reflexivity. }
    congruence.
  - unfold trim. rewrite (trimStart_nonblank_append _ _ Hb).
    unfold trimEnd. rewrite rev_append.
    change (String.rev (String CR EmptyString)) with (String CR EmptyString).
    rewrite append_cons. change (EmptyString +:+ ?x) with x.
    cbn [trimStart]. reflexivity.
Qed.

Lemma split_lines_append_lf (a b : string) :
  split_lines (a +:+ String LF b) = split_lines a ++ split_lines b.
Proof.
  induction a as [|c a IH].
  - reflexivity.
  - rewrite append_cons. cbn [split_lines]. rewrite IH.
    destruct (Ascii.eqb c LF); [reflexivity|].
    pose proof (split_lines_nonempty a) as Hne.
    destruct (split_lines a) as [|l ls]; [contradiction | reflexivity].
Qed.

(** X15: the ignore file is read line by line: the patterns of two
    contents joined by a line feed are the patterns of the first followed by
    the patterns of the second. *)
Theorem parse_ignore_of_joined_files (first second : string) :
  Utils.parse_ignore (first +:+ String LF second) =
  Utils.parse_ignore first ++ Utils.parse_ignore second.
Proof.
  unfold Utils.parse_ignore.
  rewrite split_lines_append_lf, map_app. apply filter_app.
Qed.

Lemma split_lines_crlf (s : string) :
  Forall2 (fun windows unix => windows = unix \/ windows = unix +:+ String CR EmptyString)
          (split_lines (crlf s)) (split_lines s).
Proof.
  induction s as [|c s IH].
  - repeat constructor.
  - cbn [crlf split_lines]. destruct (Ascii.eqb c LF) eqn:Ec.
    + change (split_lines (String CR (String LF (crlf s))))
        with (String CR EmptyString :: split_lines (crlf s)).
      constructor; [right; reflexivity | exact IH].
    + cbn [split_lines]. rewrite Ec.
      pose proof (split_lines_nonempty s) as Hne.
      destruct IH as [|w u ws us Hhead Htail]; [contradiction|].
      constructor; [|exact Htail].
      destruct Hhead as [-> | ->]; [left | right]; reflexivity.
Qed.

(** X16: the patterns do not depend on the line ends: a content with
    CR LF line ends yields the same patterns as the same content with LF. *)
Theorem parse_ignore_ignores_carriage_returns (content : string) :
  Utils.parse_ignore (crlf content) = Utils.parse_ignore content.
Proof.
  unfold Utils.parse_ignore. f_equal.
  pose proof (split_lines_crlf content) as H.
  induction H as [|w u ws us Hhead _ IH]; [reflexivity|].
  cbn [map]. rewrite IH. f_equal.
  destruct Hhead as [-> | ->]; [reflexivity | apply trim_append_cr].
Qed.

(** X17: every pattern [readVafIgnore] returns, read from the file or
    built in, is non-empty, is not a comment, and has no white space around
    it: trimming it changes nothing. *)
Theorem effective_patterns_are_trimmed (fs : Files) (dir pattern : string) :
  In pattern (Utils.readVafIgnore fs dir) ->
  trim pattern = pattern /\ pattern <> EmptyString /\ startsWith pattern "#" = false.
Proof.
  unfold Utils.readVafIgnore.
  destruct (fs !! path_join dir ".vafignore") as [content|].
  - unfold Utils.parse_ignore. intros H.
    apply list_elem_of_In, list_elem_of_filter in H. destruct H as [Hk Hin].
    apply list_elem_of_In, in_map_iff in Hin. destruct Hin as (line & <- & _).
    split; [apply trim_idempotent|].
    apply Is_true_true in Hk. unfold Utils.keep_line in Hk.
    apply andb_true_iff in Hk. destruct Hk as [Ht Hc].
    split; [apply truthy_true, Ht | apply negb_true_iff, Hc].
  - intros H. simpl in H.
    repeat (destruct H as [<- | H];
            [split; [vm_compute; reflexivity | split; [discriminate | reflexivity]]|]).
    destruct H.
Qed.

Lemma effective_patterns_are_trimmed_witness :
  trim ".git/**" = ".git/**" /\ ".git/**" <> EmptyString /\
  startsWith ".git/**" "#" = false.
Proof.
  apply (effective_patterns_are_trimmed Sample.tree "/app" ".git/**").
  vm_compute. in_list.
Defined.

Lemma parse_ignore_empty_iff (content : string) :
  Utils.parse_ignore content = [] <->
  Forall no_pattern (split_lines content).
Proof.
  unfold Utils.parse_ignore. induction (split_lines content) as [|line lines IH].
  - split; [constructor | reflexivity].
  - cbn [map]. rewrite filter_cons.
    assert (Hk : Is_true (Utils.keep_line (trim line)) <-> ~ no_pattern line).
    { unfold Utils.keep_line, no_pattern. rewrite Is_true_true, andb_true_iff, negb_true_iff.
      rewrite truthy_true. rewrite <- (trim_empty_iff line).
      destruct (startsWith (trim line) "#"); split.
      - intros [_ H]. discriminate H.
      - intros H. exfalso. apply H. right. reflexivity.
      - intros [H _] [H' | H']; [contradiction | discriminate].
      - intros H. split; [|reflexivity]. intros E. apply H. left. exact E. }
    destruct (decide (Is_true (Utils.keep_line (trim line)))) as [Hd | Hd].
    + split; [discriminate|]. intros H. apply Forall_cons in H. destruct H as [H _].
      apply Hk in Hd. contradiction.
    + rewrite IH. split.
      * intros H. constructor; [|exact H].
        destruct (blank line) eqn:Eb; [left; exact Eb|].
        destruct (startsWith (trim line) "#") eqn:Es; [right; exact Es|].
        exfalso. apply Hd, Hk. intros [H' | H']; congruence.
      * intros H. apply Forall_cons in H. apply H.
Qed.

(** X18: [zipDirectory] packs the whole directory, with nothing excluded,
    exactly when the list it is given is empty; with the list of
    [readVafIgnore], that is exactly when an ignore file exists and every
    line of it is blank or a comment.  (Without an ignore file the built-in
    list applies.) *)
Theorem whole_directory_is_packed_without_patterns
    (w : World) (fs : Files) (dir out : string) :
  trace (Utils.zipDirectory w dir out (Utils.readVafIgnore fs dir) fs)
    = [Pack dir out WholeDirectory] <->
  exists content,
    fs !! path_join dir ".vafignore" = Some content /\
    Forall no_pattern (split_lines content).
Proof.
  assert (Htrace : forall pats,
            trace (Utils.zipDirectory w dir out pats fs) =
              [Pack dir out (Utils.pack_mode pats)]).
  { intros pats. unfold Utils.zipDirectory.
    destruct (pack w dir (Utils.pack_mode pats) fs); reflexivity. }
  rewrite Htrace. unfold Utils.readVafIgnore.
  destruct (fs !! path_join dir ".vafignore") as [content|].
  - split.
    + intros H. exists content. split; [reflexivity|].
      apply parse_ignore_empty_iff.
      destruct (Utils.parse_ignore content); [reflexivity | discriminate H].
    + intros (c & [= <-] & H). apply parse_ignore_empty_iff in H. rewrite H.
      reflexivity.
  - split; [discriminate | intros (c & H & _); discriminate H].
Qed.

Lemma whole_directory_is_packed_without_patterns_witness :
  trace (Utils.zipDirectory Sample.world "/app" "/app/package.zip"
           (Utils.readVafIgnore Scenario.comment_only "/app") Scenario.comment_only)
  = [Pack "/app" "/app/package.zip" WholeDirectory].
Proof.
  apply (proj2 (whole_directory_is_packed_without_patterns Sample.world
                  Scenario.comment_only "/app" "/app/package.zip")).
  exists (Js.join_lines ["# nothing to exclude"; "   "]). split; [reflexivity|].
  constructor; [right; reflexivity|]. constructor; [left; reflexivity|]. constructor.
Defined.

(** ** The attempt: packaging, upload, release request *)

Lemma upload_and_release_script w options r tempZip key fs bytes :
  fs !! tempZip = Some bytes ->
  let upload_ep := upload_url_endpoint (finalProjectId r) (finalEnvName r) in
  let deploy_ep := deploy_endpoint (finalProjectId r) (finalEnvName r) in
  let body := deploymentParams options (envConfig r) key in
  let asked :=
    [Info ("Package size: " +:+ formatBytes w (String.length bytes));
     Info "Getting upload URL..."; Get upload_ep] in
  upload_and_release w options r tempZip key fs =
    match api_upload_url w upload_ep with
    | ApiErr m => MkRun (Thrown m) asked fs
    | ApiOk response =>
        let uploaded :=
          asked ++ [Info "Uploading package...";
                    Put (uploadUrl response) bytes "application/zip"] in
        match http_put w (uploadUrl response) bytes with
        | Some m => MkRun (Thrown m) uploaded fs
        | None =>
            let posted :=
              uploaded ++ [Info "Triggering deployment..."; Post deploy_ep body] in
            match api_deploy w deploy_ep body with
            | ApiErr m => MkRun (Thrown m) posted fs
            | ApiOk deployment =>
                MkRun (Done tt)
                  (posted ++
                   Success ("Deployment initiated: " +:+ pick (dep_id deployment) "Success")
                   :: (if truthy_opt (dep_id deployment)
                       then trace (pollDeploymentStatus w (finalProjectId r) (finalEnvName r)
                                     (pick (dep_id deployment) EmptyString) fs)
                       else []))
                  fs
            end
        end
    end.
Proof.
  intros Hfile upload_ep deploy_ep body asked. subst asked.
  cbv beta iota zeta delta
    [upload_and_release bind emit statSync_size readFileSync api_get_upload_url
     axios_put api_post_deploy when ret app].
  rewrite Hfile. cbv beta iota. fold upload_ep.
  destruct (api_upload_url w upload_ep) as [response|m]; [|reflexivity].
  cbv beta iota. rewrite Hfile. cbv beta iota.
  destruct (http_put w (uploadUrl response) bytes) as [m|]; [reflexivity|].
  cbv beta iota. fold deploy_ep body.
  destruct (api_deploy w deploy_ep body) as [deployment|m]; [|reflexivity].
  cbv beta iota.
  destruct (truthy_opt (dep_id deployment)); [|reflexivity].
  destruct (pollDeploymentStatus_returns w (finalProjectId r) (finalEnvName r)
              (pick (dep_id deployment) EmptyString) fs) as (tr & ->).
  reflexivity.
Qed.

Lemma release_packed w options r tree bytes :
  pack w (cwd w) (Utils.pack_mode (Utils.readVafIgnore tree (cwd w))) tree = PackOk bytes ->
  let run := upload_and_release w options r (tempZipPath w) (clientKey w)
                                (<[tempZipPath w := bytes]> tree) in
  release w options r tree =
    MkRun (result run)
          (Info "Creating deployment package..."
           :: Pack (cwd w) (tempZipPath w)
                   (Utils.pack_mode (Utils.readVafIgnore tree (cwd w)))
           :: trace run ++ [Unlink (tempZipPath w)])
          (delete (tempZipPath w) tree).
Proof.
  intros Hpack run. subst run.
  destruct (upload_and_release_run w options r (tempZipPath w) (clientKey w)
              (<[tempZipPath w := bytes]> tree)) as (res & tr & E & Hne & _).
  rewrite E. cbn [result trace files].
  cbv beta iota zeta delta [release get_files bind try_finally attempt emit
                            Utils.zipDirectory].
  rewrite Hpack. cbv beta iota. rewrite E.
  unfold cleanup, existsSync, unlinkSync. rewrite lookup_insert_eq, delete_insert_eq.
  destruct res as [[]|msg|code]; [reflexivity | reflexivity |].
  exfalso. apply (Hne code). reflexivity.
Qed.

Lemma release_pack_failed w options r tree msg leftover :
  pack w (cwd w) (Utils.pack_mode (Utils.readVafIgnore tree (cwd w))) tree
    = PackFail msg leftover ->
  release w options r tree =
    MkRun (Thrown msg)
          (Info "Creating deployment package..."
           :: Pack (cwd w) (tempZipPath w)
                   (Utils.pack_mode (Utils.readVafIgnore tree (cwd w)))
           :: (if existsSync (packed w (Utils.readVafIgnore tree (cwd w)) (tempZipPath w) tree)
                             (tempZipPath w)
               then [Unlink (tempZipPath w)] else []))
          (delete (tempZipPath w) tree).
Proof.
  intros Hpack.
  cbv beta iota zeta delta [release get_files bind try_finally attempt emit
                            Utils.zipDirectory packed].
  rewrite Hpack. cbv beta iota. cbn [files].
  unfold cleanup, existsSync, unlinkSync.
  destruct leftover as [partial|].
  - rewrite lookup_insert_eq, delete_insert_eq. reflexivity.
  - destruct (tree !! tempZipPath w) eqn:E; [reflexivity|].
    rewrite (delete_id _ _ E). reflexivity.
Qed.

Lemma deploy_resolved w projectId envName options fs r tr :
  resolution w projectId envName fs = MkRun (Done r) tr fs ->
  let built := build w (envConfig r) options fs in
  let run := release w options r (files built) in
  deploy w projectId envName options fs =
    MkRun (result run) (tr ++ trace built ++ trace run) (files run).
Proof.
  intros Hres built run.
  destruct (deploy_run w projectId envName options fs)
    as (tr' & _ & [[Hres' _] | (r' & btr & tree & Hres' & Hb & _ & Hd)]);
    rewrite Hres in Hres'; [discriminate Hres'|].
  injection Hres' as <- <-. subst run built. rewrite Hd, Hb. reflexivity.
Qed.

Lemma network_events_app tr1 tr2 :
  network_events (tr1 ++ tr2) = network_events tr1 ++ network_events tr2.
Proof. apply List.filter_app. Qed.

Lemma network_events_console_or_exec tr :
  Forall console_or_exec tr -> network_events tr = [].
Proof.
  intros H. induction H as [|e tr He _ IH]; [reflexivity|].
  destruct e; simpl in *; try contradiction; exact IH.
Qed.

Lemma release_tree w options r tree :
  files (release w options r tree) = delete (tempZipPath w) tree.
Proof.
  destruct (pack w (cwd w) (Utils.pack_mode (Utils.readVafIgnore tree (cwd w))) tree)
    as [bytes|msg leftover] eqn:Hpack.
  - rewrite (release_packed _ _ _ _ _ Hpack). reflexivity.
  - rewrite (release_pack_failed _ _ _ _ _ _ Hpack). reflexivity.
Qed.

(** X19: once the identifiers are resolved, a run of [deploy] leaves the
    working tree exactly as the build left it, except that no file has the
    name of the temporary archive: every other path holds what it held after
    the build, whatever packaging, the upload, the release request and
    polling did. *)
Theorem deploy_leaves_the_tree_as_built
    (w : World) (projectId envName : option string) (options : DeployOptions)
    (fs : Files) (r : Resolved) (tr : list Event) :
  resolution w projectId envName fs = MkRun (Done r) tr fs ->
  let built := files (build w (envConfig r) options fs) in
  files (deploy w projectId envName options fs) = delete (tempZipPath w) built /\
  forall p, p <> tempZipPath w ->
            files (deploy w projectId envName options fs) !! p = built !! p.
Proof.
  intros Hres built.
  assert (E : files (deploy w projectId envName options fs)
              = delete (tempZipPath w) built).
  { rewrite (deploy_resolved _ _ _ options _ _ _ Hres). cbn [files].
    apply release_tree. }
  split; [exact E|]. intros p Hp. rewrite E. apply lookup_delete_ne. congruence.
Qed.

Lemma deploy_leaves_the_tree_as_built_witness :
  files (deploy Sample.world None (Some "production") Sample.no_options Sample.tree)
  = delete (tempZipPath Sample.world) Sample.tree.
Proof.
  apply (proj1 (deploy_leaves_the_tree_as_built Sample.world None (Some "production")
                  Sample.no_options Sample.tree
                  {| finalProjectId := "42"; finalEnvName := "production";
                     envConfig := Some Sample.production |} [] eq_refl)).
Defined.

(** X20: when packaging fails, [deploy] throws the archiver's error
    without having sent any request; what the archiver left of the archive
    is removed; the command (without [--watch]) prints the error and exits
    with code 1. *)
Theorem failed_packaging_sends_nothing
    (w : World) (projectId envName : option string) (options : DeployOptions)
    (fs : Files) (r : Resolved) (tr : list Event) (msg : string)
    (leftover : option string) :
  resolution w projectId envName fs = MkRun (Done r) tr fs ->
  (let built := files (build w (envConfig r) options fs) in
   pack w (cwd w) (Utils.pack_mode (Utils.readVafIgnore built (cwd w))) built
     = PackFail msg leftover) ->
  let run := deploy w projectId envName options fs in
  result run = Thrown msg /\
  network_events (trace run) = [] /\
  files run !! tempZipPath w = None /\
  (leftover <> None -> exists before, trace run = before ++ [Unlink (tempZipPath w)]) /\
  (truthy_opt (token w) = true ->
   action w projectId envName options fs =
     MkRun (Exited 1) (trace run ++ [Err (pick (Some msg) "Failed to deploy")])
           (files run)).
Proof.
  intros Hres Hpack run.
  assert (Hrun : run = MkRun (Thrown msg)
            (tr ++ trace (build w (envConfig r) options fs) ++
             Info "Creating deployment package..."
             :: Pack (cwd w) (tempZipPath w)
                  (Utils.pack_mode
                     (Utils.readVafIgnore (files (build w (envConfig r) options fs)) (cwd w)))
             :: (if existsSync
                      (packed w (Utils.readVafIgnore
                                   (files (build w (envConfig r) options fs)) (cwd w))
                              (tempZipPath w) (files (build w (envConfig r) options fs)))
                      (tempZipPath w)
                 then [Unlink (tempZipPath w)] else []))
            (delete (tempZipPath w) (files (build w (envConfig r) options fs)))).
  { subst run. rewrite (deploy_resolved _ _ _ options _ _ _ Hres).
    rewrite (release_pack_failed _ options r _ _ _ Hpack). reflexivity. }
  split; [rewrite Hrun; reflexivity|].
  split.
  { rewrite Hrun. cbn [trace]. rewrite !network_events_app.
    destruct (resolution_run w projectId envName fs) as (tr' & Htr & [H | (r' & H)]);
      rewrite Hres in H; [discriminate H|]. injection H as _ <-.
    destruct (build_run w (envConfig r) options fs) as (btr & tree & Hb & Hbt).
    rewrite Hb. cbn [trace].
    rewrite (network_events_console_or_exec tr)
      by (eapply Forall_impl; [exact Htr | apply is_console_console_or_exec]).
    rewrite (network_events_console_or_exec btr) by exact Hbt.
    match goal with |- context [if ?b then _ else _] => destruct b end; reflexivity. }
  split; [rewrite Hrun; cbn [files]; apply lookup_delete_eq|].
  split.
  { intros Hleft. rewrite Hrun. cbn [trace].
    destruct leftover as [partial|]; [|contradiction].
    assert (Hex : existsSync
              (packed w (Utils.readVafIgnore
                           (files (build w (envConfig r) options fs)) (cwd w))
                      (tempZipPath w) (files (build w (envConfig r) options fs)))
              (tempZipPath w) = true).
    { unfold packed, Utils.zipDirectory, existsSync. rewrite Hpack. cbn [files].
      rewrite lookup_insert_eq. reflexivity. }
    rewrite Hex.
    eexists (tr ++ trace (build w (envConfig r) options fs) ++ [_; _]).
    rewrite <- !app_assoc. reflexivity. }
  intros Htoken. rewrite (action_run w projectId envName options fs Htoken).
  fold run. rewrite Hrun. reflexivity.
Qed.

Lemma failed_packaging_sends_nothing_witness :
  result (deploy Scenario.world_archiver_failing None (Some "production")
                 Sample.no_options Sample.tree)
  = Thrown "EACCES: permission denied".
Proof.
  apply (proj1 (failed_packaging_sends_nothing Scenario.world_archiver_failing None
                  (Some "production") Sample.no_options Sample.tree
                  {| finalProjectId := "42"; finalEnvName := "production";
                     envConfig := Some Sample.production |} []
                  "EACCES: permission denied" (Some "PK") eq_refl eq_refl)).
Defined.

Lemma deploy_packed w projectId envName options fs r tr bytes :
  resolution w projectId envName fs = MkRun (Done r) tr fs ->
  (let built := files (build w (envConfig r) options fs) in
   pack w (cwd w) (Utils.pack_mode (Utils.readVafIgnore built (cwd w))) built
     = PackOk bytes) ->
  let built := build w (envConfig r) options fs in
  let run := upload_and_release w options r (tempZipPath w) (clientKey w)
                                (<[tempZipPath w := bytes]> (files built)) in
  deploy w projectId envName options fs =
    MkRun (result run)
          (tr ++ trace built ++
           Info "Creating deployment package..."
           :: Pack (cwd w) (tempZipPath w)
                   (Utils.pack_mode (Utils.readVafIgnore (files built) (cwd w)))
           :: trace run ++ [Unlink (tempZipPath w)])
          (delete (tempZipPath w) (files built)).
Proof.
  intros Hres Hpack built run.
  rewrite (deploy_resolved _ _ _ options _ _ _ Hres).
  rewrite (release_packed _ options r _ _ Hpack). reflexivity.
Qed.

Lemma resolution_console w projectId envName fs r tr :
  resolution w projectId envName fs = MkRun (Done r) tr fs ->
  Forall console_or_exec tr.
Proof.
  intros Hres.
  destruct (resolution_run w projectId envName fs) as (tr' & Htr & [H | (r' & H)]);
    rewrite Hres in H; [discriminate H|]. injection H as _ <-.
  eapply Forall_impl; [exact Htr | apply is_console_console_or_exec].
Qed.

Lemma build_console w envConfig options fs :
  Forall console_or_exec (trace (build w envConfig options fs)).
Proof.
  destruct (build_run w envConfig options fs) as (btr & tree & -> & Hbt). exact Hbt.
Qed.

Lemma network_events_poll w projectId envName deploymentId fs :
  network_events (trace (pollDeploymentStatus w projectId envName deploymentId fs)) =
  repeat (Get (release_url projectId envName deploymentId))
         (fetches (trace (pollDeploymentStatus w projectId envName deploymentId fs))).
Proof.
  unfold pollDeploymentStatus. generalize maxAttempts. intros n.
  pose proof (always_poll_loop w (release_url projectId envName deploymentId) n 0 fs) as H.
  induction H as [|e tr He _ IH]; [reflexivity|].
  destruct e; simpl in He; try contradiction; try exact IH.
  subst. unfold fetches. simpl. f_equal. exact IH.
Qed.

(** The requests of the upload and release steps, in order. *)
Lemma upload_and_release_network w options r tempZip key fs bytes :
  fs !! tempZip = Some bytes ->
  let upload_ep := upload_url_endpoint (finalProjectId r) (finalEnvName r) in
  let deploy_ep := deploy_endpoint (finalProjectId r) (finalEnvName r) in
  let body := deploymentParams options (envConfig r) key in
  network_events (trace (upload_and_release w options r tempZip key fs)) =
    Get upload_ep ::
    match api_upload_url w upload_ep with
    | ApiErr _ => []
    | ApiOk response =>
        Put (uploadUrl response) bytes "application/zip" ::
        match http_put w (uploadUrl response) bytes with
        | Some _ => []
        | None =>
            Post deploy_ep body ::
            match api_deploy w deploy_ep body with
            | ApiErr _ => []
            | ApiOk deployment =>
                if truthy_opt (dep_id deployment)
                then repeat (Get (release_url (finalProjectId r) (finalEnvName r)
                                              (pick (dep_id deployment) EmptyString)))
                            (fetches (trace (pollDeploymentStatus w (finalProjectId r)
                                               (finalEnvName r)
                                               (pick (dep_id deployment) EmptyString) fs)))
                else []
            end
        end
    end.
Proof.
  intros Hfile upload_ep deploy_ep body.
  rewrite (upload_and_release_script w options r tempZip key fs bytes Hfile).
  cbv zeta. fold upload_ep deploy_ep body.
  destruct (api_upload_url w upload_ep) as [response|m]; [|reflexivity].
  destruct (http_put w (uploadUrl response) bytes) as [m|]; [reflexivity|].
  destruct (api_deploy w deploy_ep body) as [deployment|m]; [|reflexivity].
  cbn [trace app network_events List.filter is_network]. do 3 f_equal.
  destruct (truthy_opt (dep_id deployment)); [|reflexivity].
  apply network_events_poll.
Qed.

(** X21: the requests of an attempt, in order.  First the upload-url
    request; then, if it is answered, one PUT of exactly the bytes that were
    packed, to the URL of the answer, as [application/zip]; then, if the
    upload succeeds, one release request, with the parameters built from the
    options, the environment and the client's key; then, if it is accepted
    with an id, at most 60 fetches of the record of that release.  Nothing
    else is sent. *)
Theorem deploy_network_conversation
    (w : World) (projectId envName : option string) (options : DeployOptions)
    (fs : Files) (r : Resolved) (tr : list Event) (bytes : string) :
  resolution w projectId envName fs = MkRun (Done r) tr fs ->
  (let built := files (build w (envConfig r) options fs) in
   pack w (cwd w) (Utils.pack_mode (Utils.readVafIgnore built (cwd w))) built
     = PackOk bytes) ->
  let upload_ep := upload_url_endpoint (finalProjectId r) (finalEnvName r) in
  let deploy_ep := deploy_endpoint (finalProjectId r) (finalEnvName r) in
  let body := deploymentParams options (envConfig r) (clientKey w) in
  exists polls : nat,
    (polls <= maxAttempts)%nat /\
    network_events (trace (deploy w projectId envName options fs)) =
      Get upload_ep ::
      match api_upload_url w upload_ep with
      | ApiErr _ => []
      | ApiOk response =>
          Put (uploadUrl response) bytes "application/zip" ::
          match http_put w (uploadUrl response) bytes with
          | Some _ => []
          | None =>
              Post deploy_ep body ::
              match api_deploy w deploy_ep body with
              | ApiErr _ => []
              | ApiOk deployment =>
                  if truthy_opt (dep_id deployment)
                  then repeat (Get (release_url (finalProjectId r) (finalEnvName r)
                                                (pick (dep_id deployment) EmptyString)))
                              polls
                  else []
              end
          end
      end.
Proof.
  intros Hres Hpack upload_ep deploy_ep body.
  set (built := build w (envConfig r) options fs).
  set (tree := <[tempZipPath w := bytes]> (files built)).
  exists (match api_deploy w deploy_ep body with
          | ApiOk deployment =>
              fetches (trace (pollDeploymentStatus w (finalProjectId r) (finalEnvName r)
                                (pick (dep_id deployment) EmptyString) tree))
          | ApiErr _ => 0%nat
          end).
  split.
  { destruct (api_deploy w deploy_ep body) as [deployment|m]; [|lia].
    unfold pollDeploymentStatus. apply poll_loop_fetches. }
  rewrite (deploy_packed _ _ _ options _ _ _ _ Hres Hpack). cbn [trace].
  fold built tree.
  rewrite !network_events_app.
  rewrite (network_events_console_or_exec tr) by (eapply resolution_console; exact Hres).
  rewrite (network_events_console_or_exec (trace built)) by apply build_console.
  cbn [app network_events List.filter is_network]. fold (network_events (trace
    (upload_and_release w options r (tempZipPath w) (clientKey w) tree) ++ [Unlink (tempZipPath w)])).
  rewrite network_events_app. cbn [network_events List.filter is_network].
  rewrite app_nil_r.
  rewrite (upload_and_release_network w options r (tempZipPath w) (clientKey w) tree bytes)
    by apply lookup_insert_eq.
  cbv zeta. fold upload_ep deploy_ep body.
  destruct (api_upload_url w upload_ep) as [response|m]; [|reflexivity].
  destruct (http_put w (uploadUrl response) bytes) as [m|]; [reflexivity|].
  destruct (api_deploy w deploy_ep body) as [deployment|m]; reflexivity.
Qed.

Lemma deploy_network_conversation_witness :
  exists polls : nat,
    (polls <= maxAttempts)%nat /\
    network_events (trace (deploy Sample.world None (Some "production")
                                  Sample.no_options Sample.tree)) =
      Get "/api/projects/42/environments/production/deployment/upload-url"
      :: Put "https://bucket.example/put" "PK-archive" "application/zip"
      :: Post Sample.endpoint Sample.request
      :: repeat (Get "/api/projects/42/environments/production/deployment/rel-1") polls.
Proof.
  exact (deploy_network_conversation Sample.world None (Some "production")
           Sample.no_options Sample.tree
           {| finalProjectId := "42"; finalEnvName := "production";
              envConfig := Some Sample.production |} [] "PK-archive" eq_refl eq_refl).
Defined.

(** X22: once the backend accepts the release request, [deploy] returns
    normally and the command (without [--watch]) ends without error,
    whatever polling reports
    afterwards (a failed deployment, the time-out, a network error).  The
    archive is removed when polling has ended.  When the answer carries no
    id, nothing is polled. *)
Theorem accepted_release_ends_the_command_normally
    (w : World) (projectId envName : option string) (options : DeployOptions)
    (fs : Files) (r : Resolved) (tr : list Event) (bytes : string)
    (response : UploadUrlResponse) (deployment : Deployment) :
  let upload_ep := upload_url_endpoint (finalProjectId r) (finalEnvName r) in
  let deploy_ep := deploy_endpoint (finalProjectId r) (finalEnvName r) in
  let body := deploymentParams options (envConfig r) (clientKey w) in
  resolution w projectId envName fs = MkRun (Done r) tr fs ->
  (let built := files (build w (envConfig r) options fs) in
   pack w (cwd w) (Utils.pack_mode (Utils.readVafIgnore built (cwd w))) built
     = PackOk bytes) ->
  api_upload_url w upload_ep = ApiOk response ->
  http_put w (uploadUrl response) bytes = None ->
  api_deploy w deploy_ep body = ApiOk deployment ->
  let run := deploy w projectId envName options fs in
  result run = Done tt /\
  (truthy_opt (token w) = true -> action w projectId envName options fs = run) /\
  (exists before polling,
     trace run =
       before ++ Post deploy_ep body
       :: Success ("Deployment initiated: " +:+ pick (dep_id deployment) "Success")
       :: polling ++ [Unlink (tempZipPath w)] /\
     Forall (poll_event (release_url (finalProjectId r) (finalEnvName r)
                                     (pick (dep_id deployment) EmptyString))) polling /\
     (truthy_opt (dep_id deployment) = false -> polling = [])).
Proof.
  intros upload_ep deploy_ep body Hres Hpack Hurl Hput Hpost run.
  assert (Hrun : exists polling,
    run = MkRun (Done tt)
      ((tr ++ trace (build w (envConfig r) options fs) ++
        [Info "Creating deployment package...";
         Pack (cwd w) (tempZipPath w)
              (Utils.pack_mode
                 (Utils.readVafIgnore (files (build w (envConfig r) options fs)) (cwd w)));
         Info ("Package size: " +:+ formatBytes w (String.length bytes));
         Info "Getting upload URL..."; Get upload_ep;
         Info "Uploading package...";
         Put (uploadUrl response) bytes "application/zip";
         Info "Triggering deployment..."]) ++
       Post deploy_ep body
       :: Success ("Deployment initiated: " +:+ pick (dep_id deployment) "Success")
       :: polling ++ [Unlink (tempZipPath w)])
      (delete (tempZipPath w) (files (build w (envConfig r) options fs))) /\
    Forall (poll_event (release_url (finalProjectId r) (finalEnvName r)
                                    (pick (dep_id deployment) EmptyString))) polling /\
    (truthy_opt (dep_id deployment) = false -> polling = [])).
  { subst run. rewrite (deploy_packed _ _ _ options _ _ _ _ Hres Hpack).
    rewrite (upload_and_release_script w options r (tempZipPath w) (clientKey w) _ bytes)
      by apply lookup_insert_eq.
    cbv zeta. fold upload_ep deploy_ep body. rewrite Hurl, Hput, Hpost.
    cbn [result trace files].
    exists (if truthy_opt (dep_id deployment)
            then trace (pollDeploymentStatus w (finalProjectId r) (finalEnvName r)
                          (pick (dep_id deployment) EmptyString)
                          (<[tempZipPath w := bytes]>
                             (files (build w (envConfig r) options fs))))
            else []).
    split; [|split].
    - f_equal. rewrite <- !app_assoc. reflexivity.
    - destruct (truthy_opt (dep_id deployment)); [|constructor].
      unfold pollDeploymentStatus. generalize maxAttempts. intros n.
      apply always_poll_loop.
    - intros ->. reflexivity. }
  destruct Hrun as (polling & Hrun & Hpoll & Hnone).
  split; [rewrite Hrun; reflexivity|].
  split.
  { intros Htoken. rewrite (action_run w projectId envName options fs Htoken).
    fold run. rewrite Hrun. reflexivity. }
  eexists _, polling. split; [rewrite Hrun; reflexivity|]. split; assumption.
Qed.

Lemma accepted_release_ends_the_command_normally_witness :
  result (deploy Sample.world_failing None (Some "production") Sample.no_options
                 Sample.tree) = Done tt.
Proof.
  apply (proj1 (accepted_release_ends_the_command_normally Sample.world_failing None
                  (Some "production") Sample.no_options Sample.tree
                  {| finalProjectId := "42"; finalEnvName := "production";
                     envConfig := Some Sample.production |} [] "PK-archive"
                  {| uploadUrl := "https://bucket.example/put";
                     key := Some "uploads/7f3a/package.zip" |}
                  {| dep_id := Some "rel-1" |}
                  eq_refl eq_refl eq_refl eq_refl eq_refl)).
Defined.

(** X23: a failing request aborts the attempt.  When the upload-url
    request, the upload or the release request fails, [deploy] throws that
    error; nothing was polled (no wait); the archive has been removed; the
    command (without [--watch]) prints the message ('Failed to deploy' when
    it is empty) and exits with code 1. *)
Theorem failed_request_aborts_the_attempt
    (w : World) (projectId envName : option string) (options : DeployOptions)
    (fs : Files) (r : Resolved) (tr : list Event) (bytes message : string) :
  let upload_ep := upload_url_endpoint (finalProjectId r) (finalEnvName r) in
  let deploy_ep := deploy_endpoint (finalProjectId r) (finalEnvName r) in
  let body := deploymentParams options (envConfig r) (clientKey w) in
  resolution w projectId envName fs = MkRun (Done r) tr fs ->
  (let built := files (build w (envConfig r) options fs) in
   pack w (cwd w) (Utils.pack_mode (Utils.readVafIgnore built (cwd w))) built
     = PackOk bytes) ->
  (api_upload_url w upload_ep = ApiErr message \/
   exists response,
     api_upload_url w upload_ep = ApiOk response /\
     (http_put w (uploadUrl response) bytes = Some message \/
      (http_put w (uploadUrl response) bytes = None /\
       api_deploy w deploy_ep body = ApiErr message))) ->
  let run := deploy w projectId envName options fs in
  result run = Thrown message /\
  (exists before, trace run = before ++ [Unlink (tempZipPath w)] /\
                  Forall (fun e => forall ms, e <> Sleep ms) before) /\
  files run !! tempZipPath w = None /\
  (truthy_opt (token w) = true ->
   action w projectId envName options fs =
     MkRun (Exited 1) (trace run ++ [Err (pick (Some message) "Failed to deploy")])
           (files run)).
Proof.
  intros upload_ep deploy_ep body Hres Hpack Hfail run.
  assert (Hquiet : Forall (fun e => forall ms, e <> Sleep ms)
                     (tr ++ trace (build w (envConfig r) options fs))).
  { apply Forall_app. split.
    - eapply Forall_impl; [eapply resolution_console; exact Hres|].
      intros e He ms ->. exact He.
    - eapply Forall_impl; [apply build_console|]. intros e He ms ->. exact He. }
  set (uploading := upload_and_release w options r (tempZipPath w) (clientKey w)
                      (<[tempZipPath w := bytes]>
                         (files (build w (envConfig r) options fs)))).
  assert (Hup : result uploading = Thrown message /\
                Forall (fun e => forall ms, e <> Sleep ms) (trace uploading)).
  { subst uploading.
    rewrite (upload_and_release_script w options r (tempZipPath w) (clientKey w) _ bytes)
      by apply lookup_insert_eq.
    cbv zeta. fold upload_ep deploy_ep body.
    destruct Hfail as [Hurl | (response & Hurl & [Hput | [Hput Hpost]])];
      rewrite Hurl; try rewrite Hput; try rewrite Hpost; cbn [result trace app];
      (split; [reflexivity|]);
      repeat (constructor; [intros ms; discriminate|]); constructor. }
  destruct Hup as [Hthrown Hcalm].
  assert (Hrun : exists before,
    run = MkRun (Thrown message) (before ++ [Unlink (tempZipPath w)])
                (delete (tempZipPath w) (files (build w (envConfig r) options fs))) /\
    Forall (fun e => forall ms, e <> Sleep ms) before).
  { exists ((tr ++ trace (build w (envConfig r) options fs)) ++
            Info "Creating deployment package..."
            :: Pack (cwd w) (tempZipPath w)
                 (Utils.pack_mode
                    (Utils.readVafIgnore (files (build w (envConfig r) options fs)) (cwd w)))
            :: trace uploading).
    split.
    - subst run. rewrite (deploy_packed _ _ _ options _ _ _ _ Hres Hpack).
      fold uploading. rewrite Hthrown. f_equal.
      rewrite <- !app_assoc. reflexivity.
    - apply Forall_app. split; [exact Hquiet|].
      constructor; [intros ms; discriminate|].
      constructor; [intros ms; discriminate|]. exact Hcalm. }
  destruct Hrun as (before & Hrun & Hbefore).
  split; [rewrite Hrun; reflexivity|].
  split; [exists before; rewrite Hrun; split; [reflexivity | exact Hbefore]|].
  split; [rewrite Hrun; cbn [files]; apply lookup_delete_eq|].
  intros Htoken. rewrite (action_run w projectId envName options fs Htoken).
  fold run. rewrite Hrun. reflexivity.
Qed.

Lemma failed_request_aborts_the_attempt_witness :
  result (deploy Sample.world_upload_refused None (Some "production")
                 Sample.no_options Sample.tree)
  = Thrown "Request failed with status code 403".
Proof.
  apply (proj1 (failed_request_aborts_the_attempt Sample.world_upload_refused None
                  (Some "production") Sample.no_options Sample.tree
                  {| finalProjectId := "42"; finalEnvName := "production";
                     envConfig := Some Sample.production |} [] "PK-archive"
                  "Request failed with status code 403" eq_refl eq_refl
                  (or_intror
                     (ex_intro _ {| uploadUrl := "https://bucket.example/put";
                                    key := Some "uploads/7f3a/package.zip" |}
                        (conj eq_refl (or_introl eq_refl)))))).
Defined.

(** X24: the action of the command (without [--watch]) never ends with
    an uncaught error: it returns, or it exits with code 1.  Without a token
    it exits at once, after one error line, and touches no file. *)
Theorem action_returns_or_exits_with_1
    (w : World) (projectId envName : option string) (options : DeployOptions)
    (fs : Files) :
  let run := action w projectId envName options fs in
  (result run = Done tt \/ result run = Exited 1) /\
  (truthy_opt (token w) = false ->
   run = MkRun (Exited 1)
               [Err ("Not authenticated. Please run " +:+ quoted "vaf login")] fs).
Proof.
  intros run. subst run. destruct (truthy_opt (token w)) eqn:Htoken.
  - split; [|discriminate].
    rewrite (action_run w projectId envName options fs Htoken).
    destruct (deploy_run w projectId envName options fs)
      as (tr & _ & [[_ Hd] | (r & btr & tree & _ & _ & _ & Hd)]); rewrite Hd;
      cbn [result]; [right; reflexivity|].
    destruct (release_run w options r tree) as (res & rest & fs' & Hr & _ & Hne & _).
    rewrite Hr. cbn [result].
    destruct res as [[]|msg|code]; [left | right | exfalso; apply (Hne code)]; reflexivity.
  - assert (E : action w projectId envName options fs =
                MkRun (Exited 1)
                  [Err ("Not authenticated. Please run " +:+ quoted "vaf login")] fs).
    { unfold action, try_catch, bind, when. rewrite Htoken. reflexivity. }
    rewrite E. split; [right; reflexivity | reflexivity].
Qed.

Lemma action_returns_or_exits_with_1_witness :
  action Scenario.world_signed_out None (Some "production") Sample.no_options
         Sample.tree
  = MkRun (Exited 1) [Err ("Not authenticated. Please run " +:+ quoted "vaf login")]
          Sample.tree.
Proof.
  apply (proj2 (action_returns_or_exits_with_1 Scenario.world_signed_out None
                  (Some "production") Sample.no_options Sample.tree)).
  reflexivity.
Defined.

Lemma append_cancel_r (a b s : string) : a +:+ s = b +:+ s -> a = b.
Proof.
  intros H. apply (f_equal String.rev) in H. rewrite !rev_append in H.
  apply String.app_inj in H.
  rewrite <- (rev_involutive a), <- (rev_involutive b), H. reflexivity.
Qed.

(** X25: the names of an attempt are determined by its millisecond: two
    attempts use the same storage key exactly when they start in the same
    millisecond, and, in the same directory, the same temporary archive
    exactly then. *)
Theorem attempt_names_differ_across_milliseconds (w1 w2 : World) :
  (clientKey w1 = clientKey w2 <-> now w1 = now w2) /\
  (cwd w1 = cwd w2 -> (tempZipPath w1 = tempZipPath w2 <-> now w1 = now w2)).
Proof.
  split; [|intros Hcwd]; (split; [|unfold clientKey, tempZipPath; congruence]).
  - unfold clientKey. intros H. apply String.app_inj in H.
    apply append_cancel_r in H. apply pretty_Z_inj in H. exact H.
  - unfold tempZipPath, path_join. rewrite Hcwd. intros H.
    do 3 apply String.app_inj in H.
    apply append_cancel_r in H. apply pretty_Z_inj in H. exact H.
Qed.

Lemma attempt_names_differ_across_milliseconds_witness :
  tempZipPath Sample.world <> tempZipPath Scenario.world_later.
Proof.
  intros H.
  pose proof (proj1 (proj2 (attempt_names_differ_across_milliseconds
                              Sample.world Scenario.world_later) eq_refl) H) as E.
  vm_compute in E. discriminate E.
Defined.

(** ** The revision with layers *)

Lemma in_last {A} (l : list A) (x : A) : In x (l ++ [x]).
Proof. apply in_or_app. right. left. reflexivity. Qed.

(** X26 (revision with layers): the thin package is always built by glob,
    with the patterns of [readVafIgnore] followed by [node_modules/**]; the
    list is never empty, so the dependency directory is excluded and the
    whole-directory mode is never used, even with an empty ignore file. *)
Theorem thin_package_excludes_dependencies
    (w : World) (cwd tempZip : string) (fs : Files) :
  let patterns := Utils.readVafIgnore fs cwd ++ ["node_modules/**"] in
  trace (Layered.createThinPackage w cwd tempZip fs) = [Pack cwd tempZip (Glob patterns)] /\
  In "node_modules/**" patterns /\
  (forall bytes, pack w cwd (Glob patterns) fs = PackOk bytes ->
     Layered.createThinPackage w cwd tempZip fs =
       MkRun (Done tempZip) [Pack cwd tempZip (Glob patterns)] (<[tempZip := bytes]> fs)).
Proof.
  intros patterns.
  assert (Hmode : Utils.pack_mode patterns = Glob patterns).
  { subst patterns. destruct (Utils.readVafIgnore fs cwd); reflexivity. }
  unfold Layered.createThinPackage, bind, get_files, Utils.zipDirectory.
  fold patterns. rewrite Hmode.
  split; [destruct (pack w cwd (Glob patterns) fs); reflexivity|].
  split; [apply in_last|].
  intros bytes ->. reflexivity.
Qed.

Lemma thin_package_excludes_dependencies_witness :
  trace (Layered.createThinPackage Sample.world "/app" "/app/package.zip"
                                   Scenario.comment_only)
  = [Pack "/app" "/app/package.zip" (Glob ["node_modules/**"])].
Proof.
  exact (proj1 (thin_package_excludes_dependencies Sample.world "/app"
                  "/app/package.zip" Scenario.comment_only)).
Defined.

(** X27 (revision with layers, without [--use-layers]): the full package
    is built with the ignore patterns that do not mention [node_modules], in
    their order; without an ignore file that is the built-in list without
    [node_modules/**]; when every pattern mentions [node_modules], the whole
    directory is packed. *)
Theorem full_package_keeps_dependencies
    (w : World) (cwd tempZip : string) (fs : Files) :
  let kept := Layered.filteredIgnorePatterns (Utils.readVafIgnore fs cwd) in
  trace (Layered.package w false cwd tempZip (Utils.readVafIgnore fs cwd) fs) =
    [Info "Creating deployment package..."; Pack cwd tempZip (Utils.pack_mode kept)] /\
  (forall pattern, In pattern kept <->
     In pattern (Utils.readVafIgnore fs cwd) /\ includes pattern "node_modules" = false) /\
  (fs !! path_join cwd ".vafignore" = None ->
   kept = [".git/**"; "*.log"; ".env"; ".DS_Store"]) /\
  (Forall (fun pattern => includes pattern "node_modules" = true)
          (Utils.readVafIgnore fs cwd) ->
   Utils.pack_mode kept = WholeDirectory).
Proof.
  intros kept. split; [|split; [|split]].
  - unfold Layered.package, bind, emit, Utils.zipDirectory. fold kept.
    destruct (pack w cwd (Utils.pack_mode kept) fs); reflexivity.
  - intros pattern. subst kept. unfold Layered.filteredIgnorePatterns.
    rewrite filter_In, negb_true_iff. reflexivity.
  - intros Hnone. subst kept. unfold Utils.readVafIgnore. rewrite Hnone.
    vm_compute. reflexivity.
  - intros Hall. subst kept. unfold Layered.filteredIgnorePatterns.
    induction Hall as [|p l Hp _ IH]; [reflexivity|].
    cbn [List.filter]. rewrite Hp. exact IH.
Qed.

Lemma full_package_keeps_dependencies_witness :
  Layered.filteredIgnorePatterns (Utils.readVafIgnore Sample.tree "/app")
  = [".git/**"; "*.log"; ".env"; ".DS_Store"].
Proof.
  apply (proj1 (proj2 (proj2 (full_package_keeps_dependencies Sample.world "/app"
                                "/app/.vaf-deploy-temp-1700000000123.zip"
                                Sample.tree)))).
  reflexivity.
Defined.

Lemma length_zero_iff_empty (s : string) : String.length s = 0%nat <-> s = EmptyString.
Proof. destruct s; simpl; split; (reflexivity || discriminate). Qed.

(** X28 (revision with layers): a database, cache or storage reference
    is sent only when it is not blank, and then as it is, untrimmed; it is
    the override when the override is a non-empty string, and the declared
    value otherwise.  A white-space-only override is left out, and hides the
    declared value. *)
Theorem blank_references_are_left_out (override declared : option string) :
  let sent := Layered.reference override declared in
  (forall v, sent = Some v ->
     blank v = false /\
     (override = Some v \/ (truthy_opt override = false /\ declared = Some v))) /\
  (forall v, override = Some v -> v <> EmptyString -> blank v = true -> sent = None) /\
  (forall v, blank v = false ->
     (override = Some v -> sent = Some v) /\
     (truthy_opt override = false -> declared = Some v -> sent = Some v)).
Proof.
  intros sent. subst sent. unfold Layered.reference.
  assert (Hkeep : forall v, truthy v && (0 <? String.length (trim v))%nat = negb (blank v)).
  { intros v. destruct (blank v) eqn:Hb.
    - apply trim_empty_iff in Hb. rewrite Hb. apply andb_false_r.
    - assert (Ht : trim v <> EmptyString) by (rewrite trim_empty_iff; congruence).
      assert (Hv : truthy v = true) by (destruct v; [discriminate Hb | reflexivity]).
      rewrite Hv. destruct (trim v); [contradiction | reflexivity]. }
  assert (Htruthy : forall v, blank v = false -> truthy v = true).
  { intros [|c v] H; [discriminate H | reflexivity]. }
  split; [|split].
  - intros v. destruct (truthy_opt override) eqn:Ho.
    + destruct override as [o|]; [|discriminate Ho]. rewrite Hkeep.
      destruct (blank o) eqn:Hb; [discriminate|]. intros [= <-]. auto.
    + destruct declared as [d|]; [|discriminate]. rewrite Hkeep.
      destruct (blank d) eqn:Hb; [discriminate|]. intros [= <-]. auto.
  - intros v -> Hv Hb. apply truthy_true in Hv. cbn [truthy_opt]. rewrite Hv, Hkeep, Hb.
    reflexivity.
  - intros v Hb. split.
    + intros ->. cbn [truthy_opt]. rewrite (Htruthy v Hb), Hkeep, Hb. reflexivity.
    + intros -> ->. rewrite Hkeep, Hb. reflexivity.
Qed.

Lemma blank_references_are_left_out_witness :
  Layered.reference (Some "   ") (Some "main-db") = None.
Proof.
  apply (proj1 (proj2 (blank_references_are_left_out (Some "   ") (Some "main-db")))
           "   " eq_refl).
  - discriminate.
  - reflexivity.
Defined.

Lemma find_by_id_none (environments : list Layered.Environment) (name : string) :
  List.find (fun env => String.eqb (Layered.environment_name env) name
                        || String.eqb (Layered.environment_id env) name) environments = None ->
  List.find (fun env => String.eqb (Layered.environment_id env) name) environments = None.
Proof.
  induction environments as [|e l IH]; [reflexivity|]. cbn [List.find].
  destruct (String.eqb (Layered.environment_name e) name || String.eqb (Layered.environment_id e) name)
    eqn:E; [discriminate|].
  apply orb_false_iff in E. destruct E as [_ ->]. exact IH.
Qed.

(** X29 (revision with layers, without [--use-layers]): when the backend
    does not know the environment, the process exits with code 1 from inside
    the [try] block, so the [finally] block does not run: the temporary
    archive that was just packed stays in the tree. *)
Theorem unknown_environment_leaves_the_archive
    (w : World) (api_environments : string -> ApiResult (list Layered.Environment))
    (finalProjectId finalEnvName tempZip : string) (ignorePatterns : list string)
    (upload : string -> Eff unit) (fs : Files) (bytes : string)
    (environments : list Layered.Environment) :
  pack w (cwd w) (Utils.pack_mode (Layered.filteredIgnorePatterns ignorePatterns)) fs
    = PackOk bytes ->
  api_environments (Layered.environments_endpoint finalProjectId) = ApiOk environments ->
  Forall (fun env => Layered.environment_name env <> finalEnvName /\
                     Layered.environment_id env <> finalEnvName) environments ->
  let run := Layered.attempt w api_environments finalProjectId finalEnvName tempZip
                              ignorePatterns upload fs in
  result run = Exited 1 /\
  files run = <[tempZip := bytes]> fs /\
  Forall (fun e => e <> Unlink tempZip) (trace run) /\
  In (Err ("Environment " +:+ quoted finalEnvName +:+ " not found")) (trace run).
Proof.
  intros Hpack Hapi Hnone run.
  assert (Hfind : List.find (fun env => String.eqb (Layered.environment_name env) finalEnvName
                        || String.eqb (Layered.environment_id env) finalEnvName) environments
                  = None).
  { clear Hapi. induction Hnone as [|e l [Hn Hi] _ IH]; [reflexivity|]. cbn [List.find].
    apply String.eqb_neq in Hn, Hi. rewrite Hn, Hi. exact IH. }
  assert (Hrun : run =
    MkRun (Exited 1)
      ([Info "Creating deployment package...";
        Pack (cwd w) tempZip (Utils.pack_mode (Layered.filteredIgnorePatterns ignorePatterns));
        Info ("Package size: " +:+ formatBytes w (String.length bytes));
        Info "Resolving environment...";
        Get (Layered.environments_endpoint finalProjectId);
        Err ("Environment " +:+ quoted finalEnvName +:+ " not found");
        Log "Available environments:"] ++
       map (fun env => Log ("  - " +:+ Layered.environment_name env +:+ " ("
                            +:+ Layered.environment_id env +:+ ")")) environments)
      (<[tempZip := bytes]> fs)).
  { subst run.
    cbv beta iota zeta delta [Layered.attempt try_finally bind Layered.package emit
      Utils.zipDirectory statSync_size Layered.resolve_environment Layered.api_get_environments].
    rewrite Hpack. cbv beta iota. rewrite lookup_insert_eq. cbv beta iota.
    rewrite Hapi. cbv beta iota. rewrite Hfind, (find_by_id_none _ _ Hfind).
    rewrite (trace_for_each_emit environments
               (fun env => Log ("  - " +:+ Layered.environment_name env +:+ " ("
                                +:+ Layered.environment_id env +:+ ")"))).
    cbv beta iota delta [exit]. rewrite app_nil_r. reflexivity. }
  rewrite Hrun. cbn [result trace files].
  split; [reflexivity|]. split; [reflexivity|]. split.
  - apply Forall_app. split; [repeat (constructor; [discriminate|]); constructor|].
    clear. induction environments as [|env l IH]; constructor; [discriminate | exact IH].
  - apply in_or_app. left. in_list.
Qed.

Lemma unknown_environment_leaves_the_archive_witness :
  files (Layered.attempt Sample.world (fun _ => ApiOk Scenario.backend_environments)
           "42" "staging" "/app/.vaf-deploy-temp-1700000000123.zip"
           Utils.default_ignore (fun _ => ret tt) Sample.tree)
  = <["/app/.vaf-deploy-temp-1700000000123.zip" := "PK-archive"]> Sample.tree.
Proof.
  apply (proj1 (proj2 (unknown_environment_leaves_the_archive Sample.world
                         (fun _ => ApiOk Scenario.backend_environments)
                         "42" "staging" "/app/.vaf-deploy-temp-1700000000123.zip"
                         Utils.default_ignore (fun _ => ret tt) Sample.tree
                         "PK-archive" Scenario.backend_environments
                         eq_refl eq_refl
                         ltac:(repeat constructor; discriminate)))).
Defined.

(** * The first revision against the later one

    [src/commands/databases.ts] keeps a later revision of the command
    (lines 265-817).  Where the two differ on what a run sends, both are
    run on the same input. *)





(** * The archive, when attempts overlap *)

Lemma until_upload_request_run w projectId envName options changed fs r tr bytes :
  resolution w projectId envName fs = MkRun (Done r) tr fs ->
  (let built := files (build w (envConfig r) options fs) in
   pack w (cwd w) (Utils.pack_mode (Utils.readVafIgnore built (cwd w))) built
     = PackOk bytes) ->
  let built := build w (envConfig r) options fs in
  until_upload_request w projectId envName options changed fs =
    MkRun (Done tt)
          (announce changed :: tr ++ trace built ++
           [Info "Creating deployment package...";
            Pack (cwd w) (tempZipPath w)
                 (Utils.pack_mode (Utils.readVafIgnore (files built) (cwd w)));
            Info ("Package size: " +:+ formatBytes w (String.length bytes));
            Info "Getting upload URL...";
            Get (upload_url_endpoint (finalProjectId r) (finalEnvName r))])
          (<[tempZipPath w := bytes]> (files built)).
Proof.
  intros Hres Hpack built. subst built.
  destruct (build_run w (envConfig r) options fs) as (btr & tree & Hb & _).
  rewrite Hb in *. cbn [files trace] in *.
  unfold until_upload_request.
  rewrite (bind_done _ _ fs tt [announce changed] fs eq_refl).
  rewrite (bind_done _ _ _ _ _ _ Hres).
  rewrite (bind_done _ _ _ _ _ _ Hb).
  cbv beta iota zeta delta [bind get_files emit Utils.zipDirectory statSync_size
                            result trace files].
  rewrite Hpack. cbv beta iota. rewrite lookup_insert_eq. cbv beta iota.
  cbn [app]. rewrite <- ?app_assoc. cbn [app]. reflexivity.
Qed.

Lemma until_build_unknown_environment w projectId name edited fs configFile content cfg :
  project_file w fs = Some (configFile, content) ->
  yaml_load w content = YamlOk (Some cfg) ->
  name <> EmptyString ->
  ~ In name (env_names cfg) ->
  ~ In name object_prototype_keys ->
  until_build w projectId (Some name) edited fs =
    MkRun (Exited 1)
          (announce edited
           :: [Err ("Environment " +:+ quoted name +:+ " not found in vaf.yml");
               Info "Available environments:"]
           ++ map (fun env => Log ("  - " +:+ env)) (env_names cfg)) fs.
Proof.
  intros Hfile Hyaml Hname Hundeclared Hproto.
  assert (Hload : loadVafConfig w fs = MkRun (Done (Some cfg)) [] fs).
  { rewrite loadVafConfig_project_file, Hfile, Hyaml. reflexivity. }
  pose proof (resolve_with_config_given cfg projectId name fs Hname) as Hr.
  rewrite (env_get_undeclared _ _ Hundeclared Hproto) in Hr.
  assert (Hres : resolution w projectId (Some name) fs =
            MkRun (Exited 1)
              ([Err ("Environment " +:+ quoted name +:+ " not found in vaf.yml");
                Info "Available environments:"]
               ++ map (fun env => Log ("  - " +:+ env)) (env_names cfg)) fs).
  { unfold resolution. rewrite (bind_done _ _ _ _ _ _ Hload).
    rewrite Hr. reflexivity. }
  unfold until_build.
  rewrite (bind_done _ _ fs tt [announce edited] fs eq_refl). rewrite Hres.
  reflexivity.
Qed.

(** The course in which the second callback finds the environment gone. *)
Lemma overlapping_exit_run first second projectId name options changed edited edit fs
    r tr bytes configFile content cfg :
  resolution first projectId (Some name) fs = MkRun (Done r) tr fs ->
  (let built := files (build first (envConfig r) options fs) in
   pack first (cwd first) (Utils.pack_mode (Utils.readVafIgnore built (cwd first))) built
     = PackOk bytes) ->
  (let suspended :=
     <[tempZipPath first := bytes]> (files (build first (envConfig r) options fs)) in
   project_file second (edit suspended) = Some (configFile, content)) ->
  yaml_load second content = YamlOk (Some cfg) ->
  name <> EmptyString ->
  ~ In name (env_names cfg) ->
  ~ In name object_prototype_keys ->
  let built := build first (envConfig r) options fs in
  overlapping first second projectId (Some name) options changed edited edit fs =
    Some (MkRun (Exited 1)
            ((announce changed :: tr ++ trace built ++
              [Info "Creating deployment package...";
               Pack (cwd first) (tempZipPath first)
                    (Utils.pack_mode (Utils.readVafIgnore (files built) (cwd first)));
               Info ("Package size: " +:+ formatBytes first (String.length bytes));
               Info "Getting upload URL...";
               Get (upload_url_endpoint (finalProjectId r) (finalEnvName r))])
             ++ announce edited
             :: [Err ("Environment " +:+ quoted name +:+ " not found in vaf.yml");
                 Info "Available environments:"]
             ++ map (fun env => Log ("  - " +:+ env)) (env_names cfg))
            (edit (<[tempZipPath first := bytes]> (files built)))).
Proof.
  intros Hres Hpack Hfile Hyaml Hname Hundeclared Hproto built. subst built.
  unfold overlapping.
  rewrite (until_upload_request_run first projectId (Some name) options changed fs
             r tr bytes Hres Hpack).
  cbv zeta in Hfile.
  rewrite (until_build_unknown_environment second projectId name edited _
             configFile content cfg Hfile Hyaml Hname Hundeclared Hproto).
  reflexivity.
Qed.

Lemma no_unlink_console tr p : Forall console_or_exec tr -> Forall (fun e => e <> Unlink p) tr.
Proof. intros H. eapply Forall_impl; [exact H|]. intros e He ->. exact He. Qed.

Lemma overlapping_exit_leaves_archive
    (first second : World) (projectId : option string) (name : string)
    (options : DeployOptions) (changed edited : string) (edit : Files -> Files)
    (fs : Files) (r : Resolved) (tr : list Event) (bytes configFile content : string)
    (cfg : VafConfig) :
  resolution first projectId (Some name) fs = MkRun (Done r) tr fs ->
  (let built := files (build first (envConfig r) options fs) in
   pack first (cwd first) (Utils.pack_mode (Utils.readVafIgnore built (cwd first))) built
     = PackOk bytes) ->
  (forall tree, edit tree !! tempZipPath first = tree !! tempZipPath first) ->
  (let suspended :=
     <[tempZipPath first := bytes]> (files (build first (envConfig r) options fs)) in
   project_file second (edit suspended) = Some (configFile, content)) ->
  yaml_load second content = YamlOk (Some cfg) ->
  name <> EmptyString ->
  ~ In name (env_names cfg) ->
  ~ In name object_prototype_keys ->
  exists run,
    overlapping first second projectId (Some name) options changed edited edit fs
      = Some run /\
    result run = Exited 1 /\
    files run !! tempZipPath first = Some bytes /\
    Forall (fun e => e <> Unlink (tempZipPath first)) (trace run).
Proof.
  intros Hres Hpack Hedit Hfile Hyaml Hname Hundeclared Hproto.
  eexists. split.
  { apply (overlapping_exit_run first second projectId name options changed edited edit
             fs r tr bytes configFile content cfg); assumption. }
  cbn [result files trace]. split; [reflexivity|]. split.
  { rewrite Hedit. apply lookup_insert_eq. }
  apply Forall_app. split.
  - constructor; [discriminate|]. apply Forall_app. split.
    + apply no_unlink_console. eapply resolution_console. exact Hres.
    + apply Forall_app. split; [apply no_unlink_console, build_console|].
      repeat (constructor; [discriminate|]). constructor.
  - constructor; [discriminate|]. constructor; [discriminate|].
    constructor; [discriminate|].
    generalize (env_names cfg). intros l.
    induction l as [|n l IH]; [constructor | constructor; [discriminate | exact IH]].
Qed.

Lemma archive_outlives_overlapping_exit : ~ no_archive_outlives_the_process.
Proof.
  intros H.
  pose proof (overlapping_exit_run Sample.world Scenario.world_later None "production"
                Sample.no_options "src/index.js" "vaf.yml"
                (fun tree => <[path_join (cwd Sample.world) "vaf.yml" := "id: 7"]> tree)
                Sample.tree
                {| finalProjectId := "42"; finalEnvName := "production";
                   envConfig := Some Sample.production |} [] "PK-archive"
                "vaf.yml" "id: 7" Sample.staging_only
                eq_refl eq_refl eq_refl eq_refl
                ltac:(discriminate) ltac:(not_in_list) ltac:(not_in_list)) as Hrun.
  cbv zeta in Hrun.
  specialize (H _ _ _ _ _ _ _ _ _ _ 1 Hrun eq_refl).
  cbn [files] in H. vm_compute in H. discriminate H.
Qed.

(** C9 (amended): an attempt that runs to its end, returning or throwing,
    has removed its temporary archive before it ends, and before the
    command reports a failure.  The archive outlives the attempt when the
    process ends while the attempt is suspended after packaging: under
    [--watch], while a first attempt waits for the answer to its upload-url
    request, a later change whose callback finds the environment missing
    from the edited project file calls [process.exit(1)]; the [finally]
    block of the first attempt never runs and its archive stays in the
    tree. *)
Theorem temp_archive_removed_unless_process_exits
    (w : World) (projectId envName : option string) (options : DeployOptions)
    (fs : Files)
    (second : World) (name changed edited : string) (edit : Files -> Files)
    (r : Resolved) (tr : list Event) (bytes configFile content : string)
    (cfg : VafConfig) :
  (let run := deploy w projectId envName options fs in
   let tempZip := tempZipPath w in
   ((result run = Exited 1 /\ files run = fs /\ pack_events (trace run) = []) \/
    (exists before rest removal tree,
       trace run =
         before ++ Pack (cwd w) tempZip
                        (Utils.pack_mode (Utils.readVafIgnore tree (cwd w)))
                :: rest ++ removal /\
       Forall console_or_exec before /\
       Forall (fun e => e <> Unlink tempZip) rest /\
       (removal = [Unlink tempZip] \/ removal = []) /\
       (forall bytes,
          pack w (cwd w) (Utils.pack_mode (Utils.readVafIgnore tree (cwd w))) tree
            = PackOk bytes -> removal = [Unlink tempZip]) /\
       files run !! tempZip = None /\
       (result run = Done tt \/ exists message, result run = Thrown message))) /\
   (truthy_opt (token w) = true ->
    files (action w projectId envName options fs) = files run /\
    exists report,
      trace (action w projectId envName options fs) = trace run ++ report /\
      Forall is_console report)) /\
  (envName = Some name ->
   resolution w projectId envName fs = MkRun (Done r) tr fs ->
   (let built := files (build w (envConfig r) options fs) in
    pack w (cwd w) (Utils.pack_mode (Utils.readVafIgnore built (cwd w))) built
      = PackOk bytes) ->
   (forall tree, edit tree !! tempZipPath w = tree !! tempZipPath w) ->
   (let suspended :=
      <[tempZipPath w := bytes]> (files (build w (envConfig r) options fs)) in
    project_file second (edit suspended) = Some (configFile, content)) ->
   yaml_load second content = YamlOk (Some cfg) ->
   name <> EmptyString ->
   ~ In name (env_names cfg) ->
   ~ In name object_prototype_keys ->
   exists run,
     overlapping w second projectId envName options changed edited edit fs
       = Some run /\
     result run = Exited 1 /\
     files run !! tempZipPath w = Some bytes /\
     Forall (fun e => e <> Unlink (tempZipPath w)) (trace run)).
Proof.
  split.
  - apply finished_attempt_has_removed_its_archive.
  - intros -> Hres Hpack Hedit Hfile Hyaml Hname Hundeclared Hproto.
    apply (overlapping_exit_leaves_archive w second projectId name options changed
             edited edit fs r tr bytes configFile content cfg); assumption.
Qed.

Lemma temp_archive_removed_unless_process_exits_witness :
  files (action Sample.world None (Some "production") Sample.no_options Sample.tree)
  = files (deploy Sample.world None (Some "production") Sample.no_options Sample.tree)
  /\
  exists run,
    overlapping Sample.world Scenario.world_later None (Some "production")
                Sample.no_options "src/index.js" "vaf.yml"
                (fun tree => <["/app/vaf.yml" := "id: 7"]> tree) Sample.tree
      = Some run /\
    result run = Exited 1 /\
    files run !! tempZipPath Sample.world = Some "PK-archive" /\
    Forall (fun e => e <> Unlink (tempZipPath Sample.world)) (trace run).
Proof.
  pose proof (temp_archive_removed_unless_process_exits Sample.world None
                (Some "production") Sample.no_options Sample.tree
                Scenario.world_later "production" "src/index.js" "vaf.yml"
                (fun tree => <["/app/vaf.yml" := "id: 7"]> tree)
                {| finalProjectId := "42"; finalEnvName := "production";
                   envConfig := Some Sample.production |} [] "PK-archive"
                "vaf.yml" "id: 7" Sample.staging_only) as [Halone Hoverlap].
  split.
  - apply (proj2 Halone). reflexivity.
  - apply Hoverlap.
    + reflexivity.
    + reflexivity.
    + reflexivity.
    + intros tree. apply lookup_insert_ne. vm_compute. discriminate.
    + reflexivity.
    + reflexivity.
    + discriminate.
    + not_in_list.
    + not_in_list.
Defined.
